(** * F4Vision: the per-frame detection and lock pipeline of [F4Vision_helper.py]

    A shallow embedding of the class [F4Vision] (detection, clustering, region
    selection, lock vector, output encoding) and the properties its design
    document states about it.

    Conventions of the embedding.
    - Python [int] is [Z].  The values that [cv2] hands back as [numpy.int32]
      (component statistics) are pixel coordinates and counts of one frame and
      stay far below [2^31]; they are [Z] as well.
    - Python [float] is IEEE binary64.  Every function that computes with
      floats is written once, over the interface [PyFloat], and read at two
      instances: [float] (Rocq's primitive binary64, the arithmetic the
      interpreter really performs) and [Q] (exact rationals, the real-number
      reading in which statements such as "linear in pct" are meant).
    - The mutable objects a cycle touches (the frame array, the history deque,
      the output bytearray, the debug log) live in one store, threaded by a
      state-and-exception monad. *)

From Stdlib Require Import ZArith QArith Qabs Qpower Floats Lia Lqa Bool.
From Stdlib Require Import Strings.String Strings.Byte.
From stdpp Require Import base list gmap strings.

Set Warnings "-inexact-float".
Local Open Scope Z_scope.

(* ===================================================================== *)
(** ** Python floats *)
(* ===================================================================== *)

Inductive exn := OverflowError | ValueError.

(** The float operations the module uses.  [f_to_Z] is [int(x)]: truncation
    toward zero; Python raises [OverflowError] on an infinity and [ValueError]
    on a NaN.  [f_lit n d] is the decimal literal whose value is
    [n/d] (0.02 is [f_lit 2 100]). *)
Class PyFloat (F : Type) := {
  f_of_Z : Z -> F;
  f_lit : Z -> Z -> F;
  f_mul : F -> F -> F;
  f_div : F -> F -> F;
  f_neg : F -> F;
  f_abs : F -> F;
  f_lt : F -> F -> bool;
  f_to_Z : F -> exn + Z
}.

Module B64.
(** [float(n)] for a Python int: the nearest binary64 (ties to even).  Python
    raises [OverflowError] for [|n| >= 2^1024], where this gives an infinity;
    no setting or coordinate of the pipeline is in that range. *)
Definition of_Z (n : Z) : float :=
  SF2Prim (binary_normalize prec emax n 0 false).

(** A decimal literal: the correctly rounded quotient of two exactly
    representable integers, which is what the parser produces. *)
Definition lit (n d : Z) : float := PrimFloat.div (of_Z n) (of_Z d).

(** [int(x)]: the integer part of a finite float. *)
Definition to_Z (x : float) : exn + Z :=
  match Prim2SF x with
  | S754_zero _ => inr 0
  | S754_finite s m e =>
      let a := if 0 <=? e then Z.shiftl (Z.pos m) e
               else Z.shiftr (Z.pos m) (- e) in
      inr (if s then - a else a)
  | S754_infinity _ => inl OverflowError
  | S754_nan => inl ValueError
  end.

(** The rational a finite float denotes (0 for infinities and NaN, which the
    statements below exclude). *)
Definition to_Q (x : float) : Q :=
  match Prim2SF x with
  | S754_finite s m e =>
      (inject_Z (if s then Z.neg m else Z.pos m) * Qpower 2 e)%Q
  | _ => 0%Q
  end.

(** [q] followed by [k] zero bits. *)
Definition shl (k : nat) (q : positive) : positive := Nat.iter k xO q.
End B64.

#[export] Instance binary64 : PyFloat float := {
  f_of_Z := B64.of_Z;
  f_lit := B64.lit;
  f_mul := PrimFloat.mul;
  f_div := PrimFloat.div;
  f_neg := PrimFloat.opp;
  f_abs := PrimFloat.abs;
  f_lt := PrimFloat.ltb;
  f_to_Z := B64.to_Z
}.

Module Exact.
(** Exact rationals, kept in lowest terms so that equal values are equal
    terms.  Division by zero does not occur in the module (the only divisor
    is the literal 100.0). *)
Definition of_Z (n : Z) : Q := inject_Z n.
Definition lit (n d : Z) : Q := Qred (inject_Z n / inject_Z d).
Definition mul (x y : Q) : Q := Qred (x * y).
Definition div (x y : Q) : Q := Qred (x / y).
Definition neg (x : Q) : Q := Qred (- x).
Definition abs (x : Q) : Q := Qred (Qabs x).
Definition lt (x y : Q) : bool := negb (Qle_bool y x).
Definition to_Z (x : Q) : exn + Z := inr (Z.quot (Qnum x) (Z.pos (Qden x))).
End Exact.

#[export] Instance exact : PyFloat Q := {
  f_of_Z := Exact.of_Z;
  f_lit := Exact.lit;
  f_mul := Exact.mul;
  f_div := Exact.div;
  f_neg := Exact.neg;
  f_abs := Exact.abs;
  f_lt := Exact.lt;
  f_to_Z := Exact.to_Z
}.

(* ===================================================================== *)
(** ** [int.to_bytes] and [int.from_bytes], big-endian *)
(* ===================================================================== *)

(** The [length] low-order base-256 digits of [n], most significant first. *)
Fixpoint be_digits (length : nat) (n : Z) : list byte :=
  match length with
  | O => []
  | S k =>
      be_digits k (n / 256) ++
      [default Byte.x00 (Byte.of_N (Z.to_N (n mod 256)))]
  end.

(** [n.to_bytes(length, byteorder="big", signed=signed)]: two's complement when
    signed; [OverflowError] when [n] does not fit. *)
Definition to_bytes (n : Z) (length : nat) (signed : bool) : exn + list byte :=
  let bits := 8 * Z.of_nat length in
  if signed then
    if (- 2 ^ (bits - 1) <=? n) && (n <? 2 ^ (bits - 1))
    then inr (be_digits length (n mod 2 ^ bits))
    else inl OverflowError
  else
    if (0 <=? n) && (n <? 2 ^ bits)
    then inr (be_digits length n)
    else inl OverflowError.

Definition be_value (bs : list byte) : Z :=
  fold_left (fun acc b => acc * 256 + Z.of_N (Byte.to_N b)) bs 0.

(** [int.from_bytes(bs, byteorder="big", signed=signed)], what the receiving
    device does with the payload. *)
Definition from_bytes (bs : list byte) (signed : bool) : Z :=
  let bits := 8 * Z.of_nat (List.length bs) in
  let u := be_value bs in
  if signed && (2 ^ (bits - 1) <=? u) then u - 2 ^ bits else u.

(* ===================================================================== *)
(** ** Python helpers *)
(* ===================================================================== *)

(** [max(l, key=key)]: the first element whose key is greatest; [None] stands
    for the [ValueError] on an empty sequence. *)
Fixpoint max_from {A} (key : A -> Z) (best : A) (l : list A) : A :=
  match l with
  | [] => best
  | x :: l' => max_from key (if key best <? key x then x else best) l'
  end.

Definition py_max {A} (key : A -> Z) (l : list A) : option A :=
  match l with
  | [] => None
  | x :: l' => Some (max_from key x l')
  end.

(** [enumerate(l)]. *)
Definition enumerate {A} (l : list A) : list (nat * A) := imap pair l.

(** [sorted(l, key=key, reverse=True)]: stable, greatest key first. *)
Fixpoint insert_desc {A} (key : A -> Z) (x : A) (l : list A) : list A :=
  match l with
  | [] => [x]
  | y :: l' => if key x <? key y then y :: insert_desc key x l' else x :: y :: l'
  end.

Definition sorted_desc {A} (key : A -> Z) (l : list A) : list A :=
  foldr (insert_desc key) [] l.

(** [int(v * 1.5)] for a Python int [v].  The product is exact in binary64 for
    [|v| < 2^51], so the result is [3v/2] truncated toward zero. *)
Definition int_times_1_5 (v : Z) : Z := Z.quot (3 * v) 2.

(** [int(n ** 0.5)] for a non-negative Python int [n] below [2^52]: the
    integer square root. *)
Definition int_sqrt (n : Z) : Z := Z.sqrt n.

(* ===================================================================== *)
(** ** Images, drawing commands and the frame buffer *)
(* ===================================================================== *)

(** One pixel: the three 8-bit channels in the frame's order (B, G, R). *)
Definition pixel := (Z * Z * Z)%type.

(** An array of [rows] x [cols] samples; [px y x] is the sample in row [y],
    column [x]. *)
Record array2 (A : Type) := Array2 { rows : Z; cols : Z; px : Z -> Z -> A }.
Arguments Array2 {A}.
Arguments rows {A}.
Arguments cols {A}.
Arguments px {A}.

Definition image := array2 pixel.
Definition mask := array2 bool.

Inductive font := FONT_HERSHEY_SIMPLEX | FONT_HERSHEY_PLAIN.

Inductive text :=
| Literal (s : string)
| Px (d : Z)        (* f"{int(distance)}px" *)
| Dist (d : Z).     (* f"Dist: {int(distance)}px" *)

(** A rectangular window into the frame array, as numpy slicing produces it: it
    owns no pixels, it reads the array it was cut from. *)
Record view := View { v_top : Z; v_left : Z; v_rows : Z; v_cols : Z }.

(** One row of the statistics table of [cv2.connectedComponentsWithStats]. *)
Record cc_stat := CCStat {
  CC_STAT_LEFT : Z; CC_STAT_TOP : Z;
  CC_STAT_WIDTH : Z; CC_STAT_HEIGHT : Z; CC_STAT_AREA : Z
}.

(** A detection pattern as [load_single_pxd_file] stores it. *)
Record Pattern := {
  color_lower_bgr : pixel;
  color_upper_bgr : pixel;
  size_width : Z * Z;       (* pattern['size']['width']  = [min, max] *)
  size_height : Z * Z;      (* pattern['size']['height'] = [min, max] *)
  source_file : string
}.

(** [cv2.inRange(frame, lower, upper)]: inclusive test on every channel. *)
Definition in_range_px (lower upper p : pixel) : bool :=
  let '(lb, lg, lr) := lower in
  let '(ub, ug, ur) := upper in
  let '(b, g, r) := p in
  (lb <=? b) && (b <=? ub) && (lg <=? g) && (g <=? ug) && (lr <=? r) && (r <=? ur).

Definition cv2_inRange (frame : image) (lower upper : pixel) : mask :=
  Array2 (rows frame) (cols frame)
         (fun y x => in_range_px lower upper (px frame y x)).

(** Messages of [self.log] (the timestamp is left out). *)
Inductive log_event :=
| LogFoundRaw (n : nat)                          (* "Found n raw enemies" *)
| LogReduced (n m : nat)                         (* "Reduced n enemies to m clusters" *)
| LogFiltered (w h min_w max_w min_h max_h : Z)  (* "Filtered enemy: size wxh outside range ..." *)
| LogPixelError                                  (* "Error in pixel detection: ..." *)
| LogAimButton (name : string) (id : Z)          (* "AIM BUTTON DEBUG: Read ... -> Sending ID ..." *)
| LogAimButtonError                              (* "ERROR reading aimActivationButton: ..." *)
| LogGcv (id : Z).                               (* "GCV DATA DEBUG: Sending aim_button_id = ..." *)

(* ===================================================================== *)
(** ** The class [F4Vision] *)
(* ===================================================================== *)

Section F4Vision.

Context {F : Type} {float_ops : PyFloat F}.

(** *** What the module takes from OpenCV *)

(** [cv2.connectedComponentsWithStats(mask, connectivity=8)]: the statistics
    table, row 0 being the background; [None] when the call raises. *)
Variable connectedComponentsWithStats : mask -> option (list cc_stat).

(** [cv2.getTextSize(text, font, scale, thickness)[0]]. *)
Variable getTextSize : text -> font -> Z -> Z -> Z * Z.

(** *** Data *)

(** A detection, the dict built by [detect_all_pixels]. *)
Record Detection := {
  coords : Z * Z * Z * Z;
  confidence : F;
  width : Z;
  height : Z;
  area : Z;
  center : Z * Z;
  pixel_count : Z
}.

Inductive draw_cmd :=
| Rectangle (pt1 pt2 : Z * Z) (color : pixel) (thickness : Z)
| Line (pt1 pt2 : Z * Z) (color : pixel) (thickness : Z)
| Circle (c : Z * Z) (radius : Z) (color : pixel) (thickness : Z)
| PutText (t : text) (org : Z * Z) (f : font) (scale : F) (color : pixel)
          (thickness : Z).

(** The pixels that OpenCV's rasteriser gives a line, a circle, a text or a
    thick rectangle: [raster_covers c x y]. *)
Variable raster_covers : draw_cmd -> Z -> Z -> bool.

Definition color_of (c : draw_cmd) : pixel :=
  match c with
  | Rectangle _ _ k _ | Line _ _ k _ | Circle _ _ k _ | PutText _ _ _ _ k _ => k
  end.

(** The pixels a drawing call writes.  A rectangle of thickness 1 is its
    outline: the border of the box spanned by the two corners. *)
Definition covers (c : draw_cmd) (x y : Z) : bool :=
  match c with
  | Rectangle (x1, y1) (x2, y2) _ 1 =>
      (Z.min x1 x2 <=? x) && (x <=? Z.max x1 x2) &&
      (Z.min y1 y2 <=? y) && (y <=? Z.max y1 y2) &&
      ((x =? x1) || (x =? x2) || (y =? y1) || (y =? y2))
  | _ => raster_covers c x y
  end.

(** The frame array.  Drawing calls write into it in place; [drawn] lists them
    in the order they were issued, on top of the pixels the host supplied. *)
Record framebuf := { base : image; drawn : list draw_cmd }.

Definition draw_over (c : draw_cmd) (under : Z -> Z -> pixel) (y x : Z) : pixel :=
  if covers c x y then color_of c else under y x.

(** The array's content now: every call so far applied, oldest first. *)
Definition pixels (fb : framebuf) : Z -> Z -> pixel :=
  fold_left (fun under c => draw_over c under) (drawn fb) (px (base fb)).

(** Reading a view (or the whole array) reads the array as it is at that
    moment. *)
Definition read_view (fb : framebuf) (v : view) : image :=
  Array2 (v_rows v) (v_cols v)
         (fun y x => pixels fb (v_top v + y) (v_left v + x)).

(** [frame[y1:y2, x1:x2, :]] for [0 <= y1 < y2] and [0 <= x1 < x2]: bounds
    beyond the array are clipped to it. *)
Definition slice (fb : framebuf) (y1 y2 x1 x2 : Z) : view :=
  let h := rows (base fb) in
  let w := cols (base fb) in
  View (Z.min y1 h) (Z.min x1 w)
       (Z.min y2 h - Z.min y1 h) (Z.min x2 w - Z.min x1 w).

Definition whole (fb : framebuf) : view :=
  View 0 0 (rows (base fb)) (cols (base fb)).

(** The attributes of [self] that a cycle reads.  [get_fresh_settings] and
    [check_pxd_control] refresh them from the file system before anything else
    runs; the record is their state after that refresh. *)
Record Self := {
  cached_bbox_width : Z;
  cached_bbox_height : Z;
  cached_showBoundingBox : bool;
  cached_adaptiveBoundingBox : bool;
  cached_manualOveride : bool;
  cached_speedX : Z;
  cached_speedY : Z;
  cached_aimSmoothing : bool;
  cached_colorConfidence : F;
  cached_esp_lines_enabled : bool;
  cached_esp_box_enabled : bool;
  cached_crosshair_enabled : bool;
  cached_show_distance_text : bool;
  cached_enemy_location_enabled : bool;
  cached_aimOffsetX : Z;
  cached_aimOffsetY : Z;
  cached_manualOverridePercentage : Z;
  pxd_patterns : list Pattern
}.

(** The objects a cycle mutates. *)
Record store := {
  frame : framebuf;                            (* the array behind frame, final, img0 *)
  detection_history : list (list Detection);   (* deque(maxlen=5) *)
  gcvdata : list byte;                         (* the output bytearray *)
  debug_log : list log_event
}.

(** *** State and exceptions *)

Definition M (A : Type) : Type := store -> (exn + A) * store.

Definition ret {A} (a : A) : M A := fun s => (inr a, s).

Definition bind {A B} (c : M A) (k : A -> M B) : M B :=
  fun s => match c s with
           | (inr a, s') => k a s'
           | (inl e, s') => (inl e, s')
           end.

Definition raise {A} (e : exn) : M A := fun s => (inl e, s).

Definition lift {A} (r : exn + A) : M A := fun s => (r, s).

Notation "x <- c ;; k" := (bind c (fun x => k))
  (at level 100, c at next level, right associativity).
Notation "c ;; k" := (bind c (fun _ => k))
  (at level 100, right associativity).

Fixpoint for_each {A S} (l : list A) (body : A -> S -> M S) (acc : S) : M S :=
  match l with
  | [] => ret acc
  | x :: l' => acc' <- body x acc ;; for_each l' body acc'
  end.

Definition log (e : log_event) : M unit :=
  fun s => (inr tt, {| frame := frame s;
                       detection_history := detection_history s;
                       gcvdata := gcvdata s;
                       debug_log := debug_log s ++ [e] |}).

(** A [cv2] drawing call on the frame array. *)
Definition draw (c : draw_cmd) : M unit :=
  fun s => (inr tt, {| frame := {| base := base (frame s);
                                   drawn := drawn (frame s) ++ [c] |};
                       detection_history := detection_history s;
                       gcvdata := gcvdata s;
                       debug_log := debug_log s |}).

(** [self.detection_history.append(x)] on a deque of capacity 5. *)
Definition history_append (x : list Detection) : M unit :=
  fun s => let h := detection_history s ++ [x] in
           (inr tt, {| frame := frame s;
                       detection_history := drop (List.length h - 5) h;
                       gcvdata := gcvdata s;
                       debug_log := debug_log s |}).

(** [gcvdata.extend(bs)]. *)
Definition gcv_extend (bs : list byte) : M unit :=
  fun s => (inr tt, {| frame := frame s;
                       detection_history := detection_history s;
                       gcvdata := gcvdata s ++ bs;
                       debug_log := debug_log s |}).

Definition read_frame (v : view) : M image :=
  fun s => (inr (read_view (frame s) v), s).

Definition get_frame : M framebuf := fun s => (inr (frame s), s).

(** *** [detect_all_pixels] *)

Definition detect_all_pixels (frame : view) (pattern : Pattern)
  : M (list Detection) :=
  let lower_color := color_lower_bgr pattern in
  let upper_color := color_upper_bgr pattern in
  img <- read_frame frame ;;                  (* cv2.inRange reads the array now *)
  let mask := cv2_inRange img lower_color upper_color in
  match connectedComponentsWithStats mask with
  | None =>                                   (* except Exception as e *)
      log LogPixelError ;; ret []
  | Some stats =>
      let min_width := fst (size_width pattern) in
      let max_width := snd (size_width pattern) in
      let min_height := fst (size_height pattern) in
      let max_height := snd (size_height pattern) in
      for_each (drop 1 stats)                 (* for i in range(1, num_labels) *)
        (fun st detected_boxes =>
           let x := CC_STAT_LEFT st in
           let y := CC_STAT_TOP st in
           let w := CC_STAT_WIDTH st in
           let h := CC_STAT_HEIGHT st in
           let area := CC_STAT_AREA st in
           if negb ((min_width <=? w) && (w <=? max_width))
              || negb ((min_height <=? h) && (h <=? max_height))
           then
             log (LogFiltered w h min_width max_width min_height max_height) ;;
             ret detected_boxes               (* continue *)
           else
             ret (detected_boxes ++
                  [{| coords := (x, y, x + w, y + h);
                      confidence := f_lit 9 10;
                      width := w;
                      height := h;
                      area := area;
                      center := (x + w / 2, y + h / 2);
                      pixel_count := area |}]))
        []
  end.

(** *** [cluster_similar_enemies] *)

(** The centre the clustering uses: [((x1 + x2) // 2, (y1 + y2) // 2)]. *)
Definition coords_center (d : Detection) : Z * Z :=
  let '(x1, y1, x2, y2) := coords d in ((x1 + x2) / 2, (y1 + y2) / 2).

(** [((cx - ox) ** 2 + (cy - oy) ** 2) ** 0.5 < 10].  The radicand is an
    integer, 99 ** 0.5 is below 10 and 100 ** 0.5 is 10.0, so the test is
    the integer test below. *)
Definition within_10 (c o : Z * Z) : bool :=
  (fst c - fst o) ^ 2 + (snd c - snd o) ^ 2 <? 100.

(** The body of the inner loop: one [other_det] against the seed's centre. *)
Definition absorb (seed_center : Z * Z)
    (st : list Detection * gset nat) (jo : nat * Detection)
  : list Detection * gset nat :=
  let '(cluster, used_indices) := st in
  let '(j, other_det) := jo in
  if decide (j ∈ used_indices) then st
  else if within_10 seed_center (coords_center other_det)
       then (cluster ++ [other_det], used_indices ∪ {[j]})
       else st.

(** The body of the outer loop. *)
Definition cluster_step (detections : list Detection)
    (st : list Detection * gset nat) (idet : nat * Detection)
  : list Detection * gset nat :=
  let '(clusters, used_indices) := st in
  let '(i, det) := idet in
  if decide (i ∈ used_indices) then st
  else
    let '(cluster, used_indices) :=
      fold_left (absorb (coords_center det)) (enumerate detections)
                ([det], used_indices ∪ {[i]}) in
    match py_max area cluster with
    | Some best_in_cluster => (clusters ++ [best_in_cluster], used_indices)
    | None => (clusters, used_indices)          (* if cluster: is false *)
    end.

Definition cluster_similar_enemies (detections : list Detection)
  : list Detection :=
  match detections with
  | [] => []
  | _ => fst (fold_left (cluster_step detections) (enumerate detections) ([], ∅))
  end.

(** *** [detect_with_pxd_patterns] *)

Definition detect_with_pxd_patterns (self : Self) (frame : view)
  : M (list Detection) :=
  all_detections <-
    for_each (pxd_patterns self)
      (fun pattern all_detections =>
         detections <- detect_all_pixels frame pattern ;;
         ret (all_detections ++ detections))
      [] ;;
  match all_detections with
  | _ :: _ =>
      log (LogFoundRaw (List.length all_detections)) ;;
      let clustered_detections := cluster_similar_enemies all_detections in
      log (LogReduced (List.length all_detections)
                      (List.length clustered_detections)) ;;
      ret clustered_detections
  | [] => ret all_detections
  end.

(** *** [simple_detection_sort], [apply_temporal_filtering], [rectangleScaling] *)

Definition simple_detection_sort (self : Self) (detections : list Detection)
  : list Detection :=
  match detections with
  | [] => []
  | _ =>
      let sorted_detections := sorted_desc area detections in
      let confidence_threshold := cached_colorConfidence self in
      filter (fun d => negb (f_lt (confidence d) confidence_threshold) = true)
             sorted_detections
  end.

Definition apply_temporal_filtering (current_detections : list Detection)
  : M (list Detection) :=
  match current_detections with
  | [] => history_append [] ;; ret []
  | _ => history_append current_detections ;; ret current_detections
  end.

(** [(int((x1 + x2) / 2), int((y1 + y2) / 2))]: true division, then
    truncation toward zero. *)
Definition rectangleScaling (x1 y1 x2 y2 : Z) : Z * Z :=
  (Z.quot (x1 + x2) 2, Z.quot (y1 + y2) 2).

Definition draw_white_highlight (pt1 pt2 : Z * Z) (thickness : Z) : M unit :=
  draw (Rectangle pt1 pt2 (255, 255, 255) thickness).

(** *** [draw_esp_elements] *)

Definition when (b : bool) (c : M unit) : M unit := if b then c else ret tt.

Definition draw_esp_elements (self : Self) (detections : list Detection)
    (roi_offset_x roi_offset_y : Z) : M unit :=
  if negb (cached_enemy_location_enabled self) then ret tt
  else
    let screen_center := (960, 540) in
    for_each detections
      (fun detection (_ : unit) =>
         let '(x1, y1, x2, y2) := coords detection in
         let x1 := x1 + roi_offset_x in
         let y1 := y1 + roi_offset_y in
         let x2 := x2 + roi_offset_x in
         let y2 := y2 + roi_offset_y in
         let center_x := (x1 + x2) / 2 in
         let center_y := (y1 + y2) / 2 in
         when (cached_esp_lines_enabled self)
              (draw (Line screen_center (center_x, center_y) (0, 255, 255) 2)) ;;
         when (cached_esp_box_enabled self)
              (draw (Rectangle (x1, y1) (x2, y2) (128, 128, 255) 2)) ;;
         when (cached_show_distance_text self)
              (let distance :=
                 int_sqrt ((center_x - 960) ^ 2 + (center_y - 540) ^ 2) in
               draw (PutText (Px distance) (center_x, y1 - 10)
                             FONT_HERSHEY_SIMPLEX (f_lit 5 10)
                             (255, 255, 255) 1)))
      tt ;;
    when (cached_crosshair_enabled self)
         (let crosshair_size := 30 in
          let crosshair_color := (0, 255, 0) in
          draw (Line (960 - crosshair_size, 540) (960 + crosshair_size, 540)
                     crosshair_color 2) ;;
          draw (Line (960, 540 - crosshair_size) (960, 540 + crosshair_size)
                     crosshair_color 2)).

(** *** [perfect_target_lock] *)

(** The arguments are Python ints: the target centre comes out of [int(...)]
    plus an integer offset, the speeds are integer settings.  The method
    returns the ints [0, 0] on its early exit; they are written [f_of_Z 0]
    here, the floats that [float()] makes of them in [process].  The test
    [distance < 2] on [(dx ** 2 + dy ** 2) ** 0.5] has an integer radicand and
    is the integer test [dx^2 + dy^2 < 4]. *)
Definition perfect_target_lock (target_x target_y speedX speedY : Z) : F * F :=
  let crosshair_x := 960 in
  let crosshair_y := 540 in
  let delta_x := target_x - crosshair_x in
  let delta_y := target_y - crosshair_y in
  if delta_x ^ 2 + delta_y ^ 2 <? 4 then (f_of_Z 0, f_of_Z 0)
  else
    let base_multiplier := f_lit 2 100 in
    let move_x := f_mul (f_mul (f_of_Z delta_x) base_multiplier) (f_of_Z speedX) in
    let move_y := f_mul (f_mul (f_of_Z delta_y) base_multiplier) (f_of_Z speedY) in
    let min_move := f_lit 5 10 in
    let move_x :=
      if f_lt (f_abs move_x) min_move && f_lt (f_lit 5 10) (f_of_Z (Z.abs delta_x))
      then (if 0 <? delta_x then min_move else f_neg min_move)
      else move_x in
    let move_y :=
      if f_lt (f_abs move_y) min_move && f_lt (f_lit 5 10) (f_of_Z (Z.abs delta_y))
      then (if 0 <? delta_y then min_move else f_neg min_move)
      else move_y in
    (move_x, move_y).

(** *** [predict] *)

(** Lines 459-474 of [predict]: the rectangle [(X1, Y1, X2, Y2)] in which the
    cycle looks for targets. *)
Definition detection_region (bbox_width bbox_height : Z)
    (adaptiveBoundingBox : bool) (button_7 : Z) : Z * Z * Z * Z :=
  let screen_center_x := 960 in
  let screen_center_y := 540 in
  let X1 := Z.max 0 (screen_center_x - bbox_width / 2) in
  let Y1 := Z.max 0 (screen_center_y - bbox_height / 2) in
  let X2 := Z.min 1920 (screen_center_x + bbox_width / 2) in
  let Y2 := Z.min 1080 (screen_center_y + bbox_height / 2) in
  if adaptiveBoundingBox && (0 <? button_7) then
    let adaptive_width := int_times_1_5 bbox_width in
    let adaptive_height := int_times_1_5 bbox_height in
    let X1 := Z.max 0 (screen_center_x - adaptive_width / 2) in
    let Y1 := Z.max 0 (screen_center_y - adaptive_height / 2) in
    let X2 := Z.min 1920 (screen_center_x + adaptive_width / 2) in
    let Y2 := Z.min 1080 (screen_center_y + adaptive_height / 2) in
    (X1, Y1, X2, Y2)
  else (X1, Y1, X2, Y2).

(** Lines 476-479: the detector's input, a view of the frame array or the
    array itself. *)
Definition detector_input (fb : framebuf) (roi : Z * Z * Z * Z) : view :=
  let '(X1, Y1, X2, Y2) := roi in
  if (Y1 <? Y2) && (X1 <? X2) then slice fb Y1 Y2 X1 X2 else whole fb.

(** Lines 516-520: the manual override. *)
Definition manual_override (manualOveride : bool) (button_9 : Z)
    (manualOverridePercentage : Z) (locked : F * F) : F * F :=
  let '(rx, ry) := locked in
  if manualOveride && (0 <? button_9) then
    let reduction_factor :=
      f_div (f_of_Z (100 - manualOverridePercentage)) (f_of_Z 100) in
    (f_mul rx reduction_factor, f_mul ry reduction_factor)
  else (rx, ry).

(** What [predict] returns ([rx], [ry]; the annotated frame [final] is the
    frame array itself, in the store), together with the locals the design
    document speaks about, as they stand when the method returns. *)
Record predict_result := {
  ROI : Z * Z * Z * Z;                 (* X1, Y1, X2, Y2 *)
  img0 : view;
  detected_objects : list Detection;
  best_target : option Detection;
  target_center : option (Z * Z);      (* after the aim offset *)
  lock_vector : option (F * F);        (* what perfect_target_lock returned, when called *)
  rx : F;
  ry : F
}.

Definition predict (self : Self) (button_5 button_7 button_9 : Z)
  : M predict_result :=
  (* self.get_fresh_settings(): see [Self] *)
  let bbox_width := cached_bbox_width self in
  let bbox_height := cached_bbox_height self in
  let showBoundingBox := cached_showBoundingBox self in
  let adaptiveBoundingBox := cached_adaptiveBoundingBox self in
  let manualOveride := cached_manualOveride self in
  let speedX := cached_speedX self in
  let speedY := cached_speedY self in
  let aimOffsetX := cached_aimOffsetX self in
  let aimOffsetY := cached_aimOffsetY self in
  let manualOverridePercentage := cached_manualOverridePercentage self in
  let rx := f_of_Z 0 in
  let ry := f_of_Z 0 in
  let roi :=
    detection_region bbox_width bbox_height adaptiveBoundingBox button_7 in
  let '(X1, Y1, X2, Y2) := roi in
  fb <- get_frame ;;                                     (* final = frame *)
  let img0 := detector_input fb roi in
  when showBoundingBox
       (draw (Rectangle (X1, Y1) (X2, Y2) (255, 255, 255) 1)) ;;
  detected_objects <- detect_with_pxd_patterns self img0 ;;
  all_targets <- apply_temporal_filtering detected_objects ;;
  let best_target := py_max area all_targets in     (* None when all_targets is empty *)
  for_each all_targets
    (fun target (_ : unit) =>
       let '(x1, y1, x2, y2) := coords target in
       draw_white_highlight (x1 + X1, y1 + Y1) (x2 + X1, y2 + Y1) 1)
    tt ;;
  when (cached_enemy_location_enabled self
        && match all_targets with [] => false | _ => true end)
       (draw_esp_elements self all_targets X1 Y1) ;;
  match best_target with
  | Some target =>
      let '(x1, y1, x2, y2) := coords target in
      let '(target_center_x, target_center_y) :=
        rectangleScaling (x1 + X1) (y1 + Y1) (x2 + X1) (y2 + Y1) in
      let target_center_x := target_center_x + aimOffsetX in
      let target_center_y := target_center_y + aimOffsetY in
      draw (Circle (target_center_x, target_center_y) 8 (0, 0, 255) 2) ;;
      let locked :=
        perfect_target_lock target_center_x target_center_y speedX speedY in
      let '(rx, ry) :=
        manual_override manualOveride button_9 manualOverridePercentage locked in
      (if 0 <? button_7 then
         let crosshair_center_x := 960 in
         let crosshair_center_y := 540 in
         draw (Circle (crosshair_center_x, crosshair_center_y) 8 (0, 255, 0) 2) ;;
         draw (Line (crosshair_center_x, crosshair_center_y)
                    (target_center_x, target_center_y) (0, 255, 0) 2) ;;
         let radicand := (target_center_x - crosshair_center_x) ^ 2
                         + (target_center_y - crosshair_center_y) ^ 2 in
         let '(lock_status, lock_color) :=
           if radicand <? 9                        (* distance < 3 *)
           then ("PERFECT LOCK"%string, (0, 255, 0))
           else ("LOCKING"%string, (0, 255, 255)) in
         draw (PutText (Literal lock_status)
                       (crosshair_center_x - 50, crosshair_center_y - 20)
                       FONT_HERSHEY_SIMPLEX (f_lit 6 10) lock_color 2) ;;
         draw (PutText (Dist (int_sqrt radicand))
                       (crosshair_center_x - 40, crosshair_center_y - 40)
                       FONT_HERSHEY_SIMPLEX (f_lit 5 10) (255, 255, 255) 1)
       else
         draw (PutText (Literal "TARGET DETECTED") (960 - 60, 540 - 20)
                       FONT_HERSHEY_SIMPLEX (f_lit 6 10) (0, 0, 255) 2)) ;;
      ret {| ROI := roi; img0 := img0;
             detected_objects := detected_objects;
             best_target := Some target;
             target_center := Some (target_center_x, target_center_y);
             lock_vector := Some locked;
             rx := rx; ry := ry |}
  | None =>
      ret {| ROI := roi; img0 := img0;
             detected_objects := detected_objects;
             best_target := None;
             target_center := None;
             lock_vector := None;
             rx := rx; ry := ry |}
  end.

(** *** [get_aim_button_id] *)

(** What the reload of the settings module yields for [aimActivationButton]:
    the import fails, or the attribute is absent, or it holds a string. *)
Inductive settings_module :=
| ImportFails
| Attribute (aimActivationButton : option string).

Definition button_mapping : gmap string Z :=
  {[ "BUTTON_5"%string := 5; "BUTTON_6"%string := 6;
     "BUTTON_7"%string := 7; "BUTTON_8"%string := 8;
     "L1"%string := 5; "L2"%string := 6; "R1"%string := 7; "R2"%string := 8 ]}.

Definition get_aim_button_id (settings : settings_module) : M Z :=
  match settings with
  | Attribute a =>
      let button_constant := default "BUTTON_7"%string a in
      let button_id := default 7 (button_mapping !! button_constant) in
      log (LogAimButton button_constant button_id) ;;
      ret button_id
  | ImportFails =>                                 (* except Exception as e *)
      log LogAimButtonError ;; ret 7
  end.

(** *** [process] *)

(** [int(float(v) * 0x10000)]. *)
Definition to_fix32 (v : F) : M Z := lift (f_to_Z (f_mul v (f_of_Z 65536))).

(** Lines 580-588 of [process]: the three [gcvdata.extend] calls. *)
Definition encode_payload (rightStickX rightStickY : F)
    (settings : settings_module) : M unit :=
  fx <- to_fix32 rightStickX ;;
  bx <- lift (to_bytes fx 4 true) ;;
  gcv_extend bx ;;
  fy <- to_fix32 rightStickY ;;
  by_ <- lift (to_bytes fy 4 true) ;;
  gcv_extend by_ ;;
  aim_button_id <- get_aim_button_id settings ;;
  bb <- lift (to_bytes aim_button_id 2 false) ;;
  gcv_extend bb ;;
  log (LogGcv aim_button_id).

(** [button_5], [button_7], [button_9] are the readings of
    [gtuner.get_actual]; the frame and [gcvdata] are in the store. *)
Definition process (self : Self) (settings : settings_module)
    (button_5 button_7 button_9 : Z) : M predict_result :=
  let watermark_text := Literal "F4Vision Enhanced" in
  let text_size := getTextSize watermark_text FONT_HERSHEY_PLAIN 1 1 in
  let text_x := (1920 - fst text_size) / 2 in
  let text_y := snd text_size + 10 in
  draw (PutText watermark_text (text_x, text_y) FONT_HERSHEY_PLAIN (f_of_Z 1)
                (0, 0, 0) 1) ;;
  r <- predict self button_5 button_7 button_9 ;;
  let rightStickX := rx r in
  let rightStickY := ry r in
  encode_payload rightStickX rightStickY settings ;;
  ret r.

End F4Vision.

Arguments Detection F : clear implicits.
Arguments Self F : clear implicits.
Arguments draw_cmd F : clear implicits.
Arguments framebuf F : clear implicits.
Arguments store F : clear implicits.
Arguments predict_result F : clear implicits.
Arguments M F A : clear implicits.

(* ===================================================================== *)
(** ** A reference labelling, for running the pipeline on concrete frames *)
(* ===================================================================== *)

Module Reference.

(** The foreground pixels [(x, y)] of a mask in raster order. *)
Definition foreground (m : mask) : list (Z * Z) :=
  flat_map
    (fun y => flat_map
                (fun x => if px m y x then [(x, y)] else [])
                (map Z.of_nat (seq 0 (Z.to_nat (cols m)))))
    (map Z.of_nat (seq 0 (Z.to_nat (rows m)))).

(** 8-connectivity. *)
Definition adjacent8 (p q : Z * Z) : bool :=
  (Z.abs (fst p - fst q) <=? 1) && (Z.abs (snd p - snd q) <=? 1).

(** Flood fill: move to the component every remaining pixel that touches a
    pixel of the frontier. *)
Fixpoint grow (fuel : nat) (frontier comp rest : list (Z * Z))
  : list (Z * Z) * list (Z * Z) :=
  match fuel, frontier with
  | S k, p :: fr =>
      let near := List.filter (adjacent8 p) rest in
      let far := List.filter (fun q => negb (adjacent8 p q)) rest in
      grow k (fr ++ near) (comp ++ near) far
  | _, _ => (comp, rest)
  end.

Fixpoint components (fuel : nat) (fg : list (Z * Z)) : list (list (Z * Z)) :=
  match fuel, fg with
  | S k, p :: rest =>
      let '(comp, rest') := grow (S (List.length rest)) [p] [p] rest in
      comp :: components k rest'
  | _, _ => []
  end.

Definition stat_of (comp : list (Z * Z)) : cc_stat :=
  let xs := map fst comp in
  let ys := map snd comp in
  let left := foldr Z.min (hd 0 xs) xs in
  let top := foldr Z.min (hd 0 ys) ys in
  let right := foldr Z.max (hd 0 xs) xs in
  let bottom := foldr Z.max (hd 0 ys) ys in
  CCStat left top (right - left + 1) (bottom - top + 1)
         (Z.of_nat (List.length comp)).

(** Row 0 describes the background; the pipeline never reads it. *)
Definition connectedComponentsWithStats (m : mask) : option (list cc_stat) :=
  let fg := foreground m in
  Some (CCStat 0 0 (cols m) (rows m)
               (rows m * cols m - Z.of_nat (List.length fg))
        :: map stat_of (components (List.length fg) fg)).

(** A rasteriser and a text measure for the drawing calls whose pixels no
    statement below depends on. *)
Definition no_raster {F} (c : draw_cmd F) (x y : Z) : bool := false.
Definition no_text_size (t : text) (f : font) (scale thickness : Z) : Z * Z :=
  (0, 0).

End Reference.

(* ===================================================================== *)
(** ** Reasoning about computations in [M] *)
(* ===================================================================== *)

(** [returns c Q s]: run from store [s], the computation [c] raises nothing
    and its result and final store satisfy [Q]. *)
Definition returns {F A} (c : M F A) (Q : A -> store F -> Prop) (s : store F)
  : Prop :=
  match c s with
  | (inr a, s') => Q a s'
  | (inl _, _) => False
  end.

(** [preserves R c]: from every store [c] raises nothing and leaves a store
    related to the initial one by [R]. *)
Definition preserves {F A} (R : store F -> store F -> Prop) (c : M F A) : Prop :=
  forall s, returns c (fun _ s' => R s s') s.

(** [safe c]: [c] raises from no store. *)
Definition safe {F A} (c : M F A) : Prop := preserves (fun _ _ => True) c.

(** The output buffer is left as it was. *)
Definition same_gcvdata {F} (s s' : store F) : Prop := gcvdata s' = gcvdata s.

(* ===================================================================== *)
(** ** The design document's wording, for comparison with the code *)
(* ===================================================================== *)

(** "discard components whose width or height fall outside size_bounds". *)
Definition within_bounds (pattern : Pattern) (st : cc_stat) : bool :=
  (fst (size_width pattern) <=? CC_STAT_WIDTH st)
  && (CC_STAT_WIDTH st <=? snd (size_width pattern))
  && (fst (size_height pattern) <=? CC_STAT_HEIGHT st)
  && (CC_STAT_HEIGHT st <=? snd (size_height pattern)).

(** The Detection of one component: bounding rectangle, pixel count, the fixed
    confidence 0.9. *)
Definition detection_of {F} `{PyFloat F} (st : cc_stat) : Detection F :=
  {| coords := (CC_STAT_LEFT st, CC_STAT_TOP st,
                CC_STAT_LEFT st + CC_STAT_WIDTH st,
                CC_STAT_TOP st + CC_STAT_HEIGHT st);
     confidence := f_lit 9 10;
     width := CC_STAT_WIDTH st;
     height := CC_STAT_HEIGHT st;
     area := CC_STAT_AREA st;
     center := (CC_STAT_LEFT st + CC_STAT_WIDTH st / 2,
                CC_STAT_TOP st + CC_STAT_HEIGHT st / 2);
     pixel_count := CC_STAT_AREA st |}.

(** The diagnostic event of a discarded component. *)
Definition filtered_event (pattern : Pattern) (st : cc_stat) : log_event :=
  LogFiltered (CC_STAT_WIDTH st) (CC_STAT_HEIGHT st)
              (fst (size_width pattern)) (snd (size_width pattern))
              (fst (size_height pattern)) (snd (size_height pattern)).

(** The store as the detector finds it in [predict]: the outline of the
    region is already drawn into the frame array when [showBoundingBox] is
    set. *)
Definition store_at_detection {F} (self : Self F) (button_7 : Z) (s : store F)
  : store F :=
  let '(X1, Y1, X2, Y2) :=
    detection_region (cached_bbox_width self) (cached_bbox_height self)
                     (cached_adaptiveBoundingBox self) button_7 in
  snd (when (cached_showBoundingBox self)
            (draw (Rectangle (X1, Y1) (X2, Y2) (255, 255, 255) 1)) s).

(** "Re-projects rect and center into frame-space by adding the ROI origin",
    then "the configured aim_offset_x/y translation". *)
Definition aim_point {F} (self : Self F) (roi : Z * Z * Z * Z)
    (target : Detection F) : Z * Z :=
  let '(x1, y1, x2, y2) := coords target in
  let '(X1, Y1, _, _) := roi in
  let c := rectangleScaling (x1 + X1) (y1 + Y1) (x2 + X1) (y2 + Y1) in
  (fst c + cached_aimOffsetX self, snd c + cached_aimOffsetY self).

(** One axis of the lock vector as the design document words it:
    [move = delta * 0.02 * speed], and "if |move_axis| < 0.5 and
    |delta_axis| > 0.5, clamp move_axis to +-0.5 with the sign of
    delta_axis". *)
Definition lock_axis {F} `{PyFloat F} (delta speed : Z) : F :=
  let move := f_mul (f_mul (f_of_Z delta) (f_lit 2 100)) (f_of_Z speed) in
  if f_lt (f_abs move) (f_lit 5 10) && f_lt (f_lit 5 10) (f_of_Z (Z.abs delta))
  then (if 0 <? delta then f_lit 5 10 else f_neg (f_lit 5 10))
  else move.

(** The same settings with another colour-confidence threshold. *)
Definition set_colorConfidence {F} (c : F) (self : Self F) : Self F :=
  {| cached_bbox_width := cached_bbox_width self;
     cached_bbox_height := cached_bbox_height self;
     cached_showBoundingBox := cached_showBoundingBox self;
     cached_adaptiveBoundingBox := cached_adaptiveBoundingBox self;
     cached_manualOveride := cached_manualOveride self;
     cached_speedX := cached_speedX self;
     cached_speedY := cached_speedY self;
     cached_aimSmoothing := cached_aimSmoothing self;
     cached_colorConfidence := c;
     cached_esp_lines_enabled := cached_esp_lines_enabled self;
     cached_esp_box_enabled := cached_esp_box_enabled self;
     cached_crosshair_enabled := cached_crosshair_enabled self;
     cached_show_distance_text := cached_show_distance_text self;
     cached_enemy_location_enabled := cached_enemy_location_enabled self;
     cached_aimOffsetX := cached_aimOffsetX self;
     cached_aimOffsetY := cached_aimOffsetY self;
     cached_manualOverridePercentage := cached_manualOverridePercentage self;
     pxd_patterns := pxd_patterns self |}.

(** The dimension the region is built from: the configured one, or 1.5 times
    it (truncated to an integer) in adaptive mode with the aim trigger held. *)
Definition region_dimension (configured : Z) (adaptiveBoundingBox : bool)
    (button_7 : Z) : Z :=
  if adaptiveBoundingBox && (0 <? button_7) then int_times_1_5 configured
  else configured.

(** The clusters as the design document forms them: "iterate detections in
    original order; for each not yet assigned to a cluster, start a new
    cluster and absorb every other unassigned detection whose center lies
    within Euclidean distance < 10 pixels of the seed's center".  A member is
    written with its position in the input. *)
Fixpoint greedy_clusters {F} (fuel : nat) (unassigned : list (nat * Detection F))
  : list (list (nat * Detection F)) :=
  match fuel, unassigned with
  | S k, seed :: others =>
      let near o :=
        within_10 (coords_center (snd seed)) (coords_center (snd o)) in
      (seed :: List.filter near others)
      :: greedy_clusters k (List.filter (fun o => negb (near o)) others)
  | _, _ => []
  end.

Definition clusters_of {F} (detections : list (Detection F))
  : list (list (nat * Detection F)) :=
  greedy_clusters (List.length detections) (enumerate detections).

(** "keep the member with maximum area"; "tie-break on equal area:
    first-encountered wins". *)
Definition first_of_max_area {F} (d : Detection F) (cluster : list (Detection F))
  : Prop :=
  exists before after,
    cluster = before ++ d :: after
    /\ Forall (fun m => area m < area d) before
    /\ Forall (fun m => area m <= area d) after.

(** The members of an enumerated list whose positions are not yet in the set
    of used positions. *)
Definition unassigned_in {F} (used : gset nat) (L : list (nat * Detection F))
  : list (nat * Detection F) :=
  List.filter (fun jo => bool_decide (fst jo ∉ used)) L.

(** Being within 10 pixels of a centre. *)
Definition near {F} (c : Z * Z) (jo : nat * Detection F) : bool :=
  within_10 c (coords_center (snd jo)).

(** What survives of each cluster. *)
Definition representatives {F} (clusters : list (list (nat * Detection F)))
  : list (Detection F) :=
  omap (fun c => py_max area (map snd c)) clusters.

(** "resolved from a small enumerated mapping of logical button names to
    numeric IDs; default 7 when unresolved". *)
Definition resolved_button_id (settings : settings_module) : Z :=
  match settings with
  | Attribute a => default 7 (button_mapping !! default "BUTTON_7"%string a)
  | ImportFails => 7
  end.

(** [int(float(v) * 0x10000)], the fixed-point value of a stick component. *)
Definition fixed {F} `{PyFloat F} (v : F) : exn + Z :=
  f_to_Z (f_mul v (f_of_Z 65536)).

(** The signed 32-bit range. *)
Definition fits_int32 (v : Z) : Prop := - 2 ^ 31 <= v < 2 ^ 31.

(** [v] is [X] truncated toward zero. *)
Definition truncation_of (X : Q) (v : Z) : Prop :=
  (0 <= v /\ (inject_Z v <= X < inject_Z v + 1)%Q)
  \/ (v <= 0 /\ (inject_Z v - 1 < X <= inject_Z v)%Q).

(** The diagnostic line of [get_aim_button_id]. *)
Definition aim_button_event (settings : settings_module) : log_event :=
  match settings with
  | ImportFails => LogAimButtonError
  | Attribute a =>
      LogAimButton (default "BUTTON_7"%string a) (resolved_button_id settings)
  end.

(* ===================================================================== *)
(** ** Concrete cycles *)
(* ===================================================================== *)

Module Scenario.

(** The pattern [load_single_pxd_file] builds: the cached colour range and
    size range of [__init__]. *)
Definition pattern : Pattern :=
  {| color_lower_bgr := (61, 0, 102);
     color_upper_bgr := (255, 45, 254);
     size_width := (5, 12);
     size_height := (5, 12);
     source_file := "target.pxd" |}.

(** The attributes [__init__] sets, but for the size of the region, the
    bounding-box switch and the speed (both axes), which settings.py supplies,
    and the loaded patterns. *)
Definition self {F} `{PyFloat F} (width height : Z) (showBoundingBox : bool)
    (speed : Z) (patterns : list Pattern) : Self F :=
  {| cached_bbox_width := width;
     cached_bbox_height := height;
     cached_showBoundingBox := showBoundingBox;
     cached_adaptiveBoundingBox := false;
     cached_manualOveride := true;
     cached_speedX := speed;
     cached_speedY := speed;
     cached_aimSmoothing := false;
     cached_colorConfidence := f_lit 21 100;
     cached_esp_lines_enabled := true;
     cached_esp_box_enabled := true;
     cached_crosshair_enabled := true;
     cached_show_distance_text := true;
     cached_enemy_location_enabled := true;
     cached_aimOffsetX := 0;
     cached_aimOffsetY := 0;
     cached_manualOverridePercentage := 50;
     pxd_patterns := patterns |}.

(** A black 1920 x 1080 frame with one block of colour (B, G, R) =
    (200, 20, 200), which is inside the pattern's range: [w] x [h] pixels,
    top-left corner at column [x0], row [y0]. *)
Definition frame_with_block (x0 y0 w h : Z) : image :=
  Array2 1080 1920
    (fun y x =>
       if (x0 <=? x) && (x <? x0 + w) && (y0 <=? y) && (y <? y0 + h)
       then (200, 20, 200) else (0, 0, 0)).

(** The store at the start of a cycle: the host's frame, nothing drawn, an
    empty history, an empty output buffer, an empty log. *)
Definition fresh {F} (img : image) : store F :=
  {| frame := {| base := img; drawn := [] |};
     detection_history := [];
     gcvdata := [];
     debug_log := [] |}.

Definition predict {F} `{PyFloat F} (self : Self F) (img : image) :=
  predict Reference.connectedComponentsWithStats Reference.no_raster
          self 0 0 0 (fresh img).

Definition process {F} `{PyFloat F} (self : Self F) (img : image) :=
  process Reference.connectedComponentsWithStats Reference.no_text_size
          Reference.no_raster self (Attribute None) 0 0 0 (fresh img).

End Scenario.

(** The same settings with other overlay switches (the ESP lines, boxes,
    crosshair, distance text and the enemy-location master switch). *)
Definition set_overlays {F} (lines box crosshair text location : bool)
    (self : Self F) : Self F :=
  {| cached_bbox_width := cached_bbox_width self;
     cached_bbox_height := cached_bbox_height self;
     cached_showBoundingBox := cached_showBoundingBox self;
     cached_adaptiveBoundingBox := cached_adaptiveBoundingBox self;
     cached_manualOveride := cached_manualOveride self;
     cached_speedX := cached_speedX self;
     cached_speedY := cached_speedY self;
     cached_aimSmoothing := cached_aimSmoothing self;
     cached_colorConfidence := cached_colorConfidence self;
     cached_esp_lines_enabled := lines;
     cached_esp_box_enabled := box;
     cached_crosshair_enabled := crosshair;
     cached_show_distance_text := text;
     cached_enemy_location_enabled := location;
     cached_aimOffsetX := cached_aimOffsetX self;
     cached_aimOffsetY := cached_aimOffsetY self;
     cached_manualOverridePercentage := cached_manualOverridePercentage self;
     pxd_patterns := pxd_patterns self |}.

(** Lines 561-577 of [process]: the watermark, then [predict]. *)
Definition watermark_and_predict {F} `{PyFloat F}
    (cc : mask -> option (list cc_stat))
    (text_size : text -> font -> Z -> Z -> Z * Z)
    (raster : draw_cmd F -> Z -> Z -> bool)
    (self : Self F) (button_5 button_7 button_9 : Z) : M F (predict_result F) :=
  let watermark_text := Literal "F4Vision Enhanced" in
  let size := text_size watermark_text FONT_HERSHEY_PLAIN 1 1 in
  bind (draw (PutText watermark_text ((1920 - fst size) / 2, snd size + 10)
                      FONT_HERSHEY_PLAIN (f_of_Z 1) (0, 0, 0) 1))
       (fun _ => predict cc raster self button_5 button_7 button_9).

(* ===================================================================== *)
(** ** What the labelling returns *)
(* ===================================================================== *)

(** A row of the statistics table describes a rectangle of the labelled
    array: its bounding box does not leave the mask. *)
Definition component_inside (m : mask) (st : cc_stat) : Prop :=
  0 <= CC_STAT_LEFT st /\ 0 <= CC_STAT_TOP st
  /\ 0 <= CC_STAT_WIDTH st /\ 0 <= CC_STAT_HEIGHT st
  /\ CC_STAT_LEFT st + CC_STAT_WIDTH st <= cols m
  /\ CC_STAT_TOP st + CC_STAT_HEIGHT st <= rows m.

(* ===================================================================== *)
(** ** [apply_aim_offset] *)
(* ===================================================================== *)

Section Aim_offset.

Context {F : Type} {float_ops : PyFloat F}.

(** The offsets are the integer settings [aimOffsetX] and [aimOffsetY];
    [offset * 1.0] makes floats of them and [int] truncates these. *)
Definition apply_aim_offset (x1 y1 x2 y2 offset_x offset_y : Z)
  : exn + Z * Z * Z * Z :=
  if (offset_x =? 0) && (offset_y =? 0) then inr (x1, y1, x2, y2)
  else
    let offset_pixels_x := f_mul (f_of_Z offset_x) (f_lit 1 1) in
    let offset_pixels_y := f_mul (f_of_Z offset_y) (f_lit 1 1) in
    match f_to_Z offset_pixels_x with
    | inl e => inl e
    | inr int_x =>
        match f_to_Z offset_pixels_y with
        | inl e => inl e
        | inr int_y =>
            let new_x1 := x1 + int_x in
            let new_y1 := y1 + int_y in
            let new_x2 := x2 + int_x in
            let new_y2 := y2 + int_y in
            inr (new_x1, new_y1, new_x2, new_y2)
        end
    end.

End Aim_offset.

(* ===================================================================== *)
(** ** The settings reload and the pattern control *)
(* ===================================================================== *)

(** A JSON document as [json.load] returns it.  An object is written as the
    list of its items; a key occurs once, as in the dict that the parser
    builds. *)
#[local] Set Warnings "-register-all".

Inductive json :=
| JNull
| JBool (b : bool)
| JInt (n : Z)
| JFloat (x : float)
| JStr (s : string)
| JArr (items : list json)
| JObj (members : list (string * json)).

(** Truth value of a parsed document in an [if]. *)
Definition truthy (v : json) : bool :=
  match v with
  | JNull => false
  | JBool b => b
  | JInt n => negb (n =? 0)
  | JFloat x => negb (PrimFloat.eqb x 0)
  | JStr s => negb (String.eqb s "")
  | JArr items => match items with [] => false | _ => true end
  | JObj members => match members with [] => false | _ => true end
  end.

Fixpoint members_get (members : list (string * json)) (key : string)
  : option json :=
  match members with
  | [] => None
  | (k, v) :: rest => if String.eqb k key then Some v else members_get rest key
  end.

(** [value.get(key, default)]: [None] stands for the [AttributeError] on a
    value that is not a dict. *)
Definition dict_get (value : json) (key : string) (fallback : json)
  : option json :=
  match value with
  | JObj members => Some (default fallback (members_get members key))
  | _ => None
  end.

(** [new_pxd_file != self.active_pxd_file], the attribute holding [None] or a
    string. *)
Definition differs (new_pxd_file : json) (active : option string) : bool :=
  match new_pxd_file, active with
  | JNull, None => false
  | JStr s, Some a => negb (String.eqb s a)
  | _, _ => true
  end.

(** What [check_pxd_control] finds at the path of the control file. *)
Inductive control_file :=
| Missing                             (* os.path.exists(...) is False *)
| Present (content : option json).    (* None: open or json.load raises *)

(** Messages of [self.log] written outside the detection pipeline. *)
Inductive refresh_event :=
| LogInitialized              (* "F4Vision initialized - ..." *)
| LogSettingsReloaded         (* "Settings reloaded from file" *)
| LogSettingsError            (* "Error reloading settings: ..." *)
| LogPxdLoaded (name : string)      (* "PXD file loaded: name" *)
| LogPxdUnloaded              (* "PXD files unloaded" *)
| LogPxdUnloadedNoControl     (* "PXD files unloaded (no control file)" *)
| LogAllUnloaded              (* "All PXD patterns unloaded" *)
| LogPxdControlError          (* "Error checking PXD control: ..." *)
| LogPxdLoadError (filepath : string).  (* "Error loading PXD file filepath: ..." *)

(** Attributes that [__init__] assigns and no method reassigns. *)
Definition settings_check_interval : float := 0.05.
Definition pxd_check_interval : float := 0.5.
Definition cached_pxd_low_color : pixel := (61, 0, 102).
Definition cached_pxd_high_color : pixel := (255, 45, 254).

Record size_range := {
  min_width : Z; max_width : Z; min_height : Z; max_height : Z
}.

Definition cached_enemy_size_range : size_range :=
  {| min_width := 5; max_width := 12; min_height := 5; max_height := 12 |}.

(** The directory [check_pxd_control] assumes when the control file names
    none. *)
Definition default_pxd_directory : string :=
  "C:\GtunerIV\scripts\F4VisionCV-main\F4VisionCV-main\pxd".

Section Refresh.

Context {F : Type} {float_ops : PyFloat F}.

(** [os.path.join] and [os.path.basename] of the host. *)
Variable os_path_join : string -> string -> string.
Variable os_path_basename : string -> string.

(** The module [settings] after [importlib.reload]: each attribute with the
    type the configuration window writes it with, [None] when the file does
    not define it. *)
Record settings_py := {
  boundingBoxWidth : option Z;
  boundingBoxHeight : option Z;
  boundingBoxColor : option (list Z);
  showBoundingBox : option bool;
  adaptiveBoundingBox : option bool;
  manualOveride : option bool;
  speedX : option Z;
  speedY : option Z;
  aimSmoothing : option bool;
  colorConfidence : option F;
  aimOffsetX : option Z;
  aimOffsetY : option Z;
  manualOverridePercentage : option Z
}.


(** What [get_fresh_settings] finds at the path of the settings file. *)
Inductive settings_file :=
| NoSettingsFile                                   (* os.path.getmtime raises *)
| SettingsFile (mtime : float) (module : option settings_py).
                                                   (* None: the import raises *)

(** The instance: the attributes a cycle reads ([Self]) and those that only
    the two refresh methods use. *)
Record Helper := {
  attrs : Self F;
  cached_settings : option settings_py;
  last_settings_check : float;
  last_file_mtime : float;
  cached_color : list Z;
  active_pxd_file : option string;
  last_pxd_check : float;
  helper_log : list refresh_event
}.

(** Assignments to the cached attributes. *)

Definition set_cached_bbox_width (v : Z) (self : Self F) : Self F :=
  {| cached_bbox_width := v; cached_bbox_height := cached_bbox_height self;
     cached_showBoundingBox := cached_showBoundingBox self;
     cached_adaptiveBoundingBox := cached_adaptiveBoundingBox self;
     cached_manualOveride := cached_manualOveride self;
     cached_speedX := cached_speedX self; cached_speedY := cached_speedY self;
     cached_aimSmoothing := cached_aimSmoothing self;
     cached_colorConfidence := cached_colorConfidence self;
     cached_esp_lines_enabled := cached_esp_lines_enabled self;
     cached_esp_box_enabled := cached_esp_box_enabled self;
     cached_crosshair_enabled := cached_crosshair_enabled self;
     cached_show_distance_text := cached_show_distance_text self;
     cached_enemy_location_enabled := cached_enemy_location_enabled self;
     cached_aimOffsetX := cached_aimOffsetX self;
     cached_aimOffsetY := cached_aimOffsetY self;
     cached_manualOverridePercentage := cached_manualOverridePercentage self;
     pxd_patterns := pxd_patterns self |}.

Definition set_cached_bbox_height (v : Z) (self : Self F) : Self F :=
  {| cached_bbox_width := cached_bbox_width self; cached_bbox_height := v;
     cached_showBoundingBox := cached_showBoundingBox self;
     cached_adaptiveBoundingBox := cached_adaptiveBoundingBox self;
     cached_manualOveride := cached_manualOveride self;
     cached_speedX := cached_speedX self; cached_speedY := cached_speedY self;
     cached_aimSmoothing := cached_aimSmoothing self;
     cached_colorConfidence := cached_colorConfidence self;
     cached_esp_lines_enabled := cached_esp_lines_enabled self;
     cached_esp_box_enabled := cached_esp_box_enabled self;
     cached_crosshair_enabled := cached_crosshair_enabled self;
     cached_show_distance_text := cached_show_distance_text self;
     cached_enemy_location_enabled := cached_enemy_location_enabled self;
     cached_aimOffsetX := cached_aimOffsetX self;
     cached_aimOffsetY := cached_aimOffsetY self;
     cached_manualOverridePercentage := cached_manualOverridePercentage self;
     pxd_patterns := pxd_patterns self |}.

Definition set_cached_showBoundingBox (v : bool) (self : Self F) : Self F :=
  {| cached_bbox_width := cached_bbox_width self;
     cached_bbox_height := cached_bbox_height self;
     cached_showBoundingBox := v;
     cached_adaptiveBoundingBox := cached_adaptiveBoundingBox self;
     cached_manualOveride := cached_manualOveride self;
     cached_speedX := cached_speedX self; cached_speedY := cached_speedY self;
     cached_aimSmoothing := cached_aimSmoothing self;
     cached_colorConfidence := cached_colorConfidence self;
     cached_esp_lines_enabled := cached_esp_lines_enabled self;
     cached_esp_box_enabled := cached_esp_box_enabled self;
     cached_crosshair_enabled := cached_crosshair_enabled self;
     cached_show_distance_text := cached_show_distance_text self;
     cached_enemy_location_enabled := cached_enemy_location_enabled self;
     cached_aimOffsetX := cached_aimOffsetX self;
     cached_aimOffsetY := cached_aimOffsetY self;
     cached_manualOverridePercentage := cached_manualOverridePercentage self;
     pxd_patterns := pxd_patterns self |}.

Definition set_cached_adaptiveBoundingBox (v : bool) (self : Self F) : Self F :=
  {| cached_bbox_width := cached_bbox_width self;
     cached_bbox_height := cached_bbox_height self;
     cached_showBoundingBox := cached_showBoundingBox self;
     cached_adaptiveBoundingBox := v;
     cached_manualOveride := cached_manualOveride self;
     cached_speedX := cached_speedX self; cached_speedY := cached_speedY self;
     cached_aimSmoothing := cached_aimSmoothing self;
     cached_colorConfidence := cached_colorConfidence self;
     cached_esp_lines_enabled := cached_esp_lines_enabled self;
     cached_esp_box_enabled := cached_esp_box_enabled self;
     cached_crosshair_enabled := cached_crosshair_enabled self;
     cached_show_distance_text := cached_show_distance_text self;
     cached_enemy_location_enabled := cached_enemy_location_enabled self;
     cached_aimOffsetX := cached_aimOffsetX self;
     cached_aimOffsetY := cached_aimOffsetY self;
     cached_manualOverridePercentage := cached_manualOverridePercentage self;
     pxd_patterns := pxd_patterns self |}.

Definition set_cached_manualOveride (v : bool) (self : Self F) : Self F :=
  {| cached_bbox_width := cached_bbox_width self;
     cached_bbox_height := cached_bbox_height self;
     cached_showBoundingBox := cached_showBoundingBox self;
     cached_adaptiveBoundingBox := cached_adaptiveBoundingBox self;
     cached_manualOveride := v; cached_speedX := cached_speedX self;
     cached_speedY := cached_speedY self;
     cached_aimSmoothing := cached_aimSmoothing self;
     cached_colorConfidence := cached_colorConfidence self;
     cached_esp_lines_enabled := cached_esp_lines_enabled self;
     cached_esp_box_enabled := cached_esp_box_enabled self;
     cached_crosshair_enabled := cached_crosshair_enabled self;
     cached_show_distance_text := cached_show_distance_text self;
     cached_enemy_location_enabled := cached_enemy_location_enabled self;
     cached_aimOffsetX := cached_aimOffsetX self;
     cached_aimOffsetY := cached_aimOffsetY self;
     cached_manualOverridePercentage := cached_manualOverridePercentage self;
     pxd_patterns := pxd_patterns self |}.

Definition set_cached_speedX (v : Z) (self : Self F) : Self F :=
  {| cached_bbox_width := cached_bbox_width self;
     cached_bbox_height := cached_bbox_height self;
     cached_showBoundingBox := cached_showBoundingBox self;
     cached_adaptiveBoundingBox := cached_adaptiveBoundingBox self;
     cached_manualOveride := cached_manualOveride self; cached_speedX := v;
     cached_speedY := cached_speedY self;
     cached_aimSmoothing := cached_aimSmoothing self;
     cached_colorConfidence := cached_colorConfidence self;
     cached_esp_lines_enabled := cached_esp_lines_enabled self;
     cached_esp_box_enabled := cached_esp_box_enabled self;
     cached_crosshair_enabled := cached_crosshair_enabled self;
     cached_show_distance_text := cached_show_distance_text self;
     cached_enemy_location_enabled := cached_enemy_location_enabled self;
     cached_aimOffsetX := cached_aimOffsetX self;
     cached_aimOffsetY := cached_aimOffsetY self;
     cached_manualOverridePercentage := cached_manualOverridePercentage self;
     pxd_patterns := pxd_patterns self |}.

Definition set_cached_speedY (v : Z) (self : Self F) : Self F :=
  {| cached_bbox_width := cached_bbox_width self;
     cached_bbox_height := cached_bbox_height self;
     cached_showBoundingBox := cached_showBoundingBox self;
     cached_adaptiveBoundingBox := cached_adaptiveBoundingBox self;
     cached_manualOveride := cached_manualOveride self;
     cached_speedX := cached_speedX self; cached_speedY := v;
     cached_aimSmoothing := cached_aimSmoothing self;
     cached_colorConfidence := cached_colorConfidence self;
     cached_esp_lines_enabled := cached_esp_lines_enabled self;
     cached_esp_box_enabled := cached_esp_box_enabled self;
     cached_crosshair_enabled := cached_crosshair_enabled self;
     cached_show_distance_text := cached_show_distance_text self;
     cached_enemy_location_enabled := cached_enemy_location_enabled self;
     cached_aimOffsetX := cached_aimOffsetX self;
     cached_aimOffsetY := cached_aimOffsetY self;
     cached_manualOverridePercentage := cached_manualOverridePercentage self;
     pxd_patterns := pxd_patterns self |}.

Definition set_cached_aimSmoothing (v : bool) (self : Self F) : Self F :=
  {| cached_bbox_width := cached_bbox_width self;
     cached_bbox_height := cached_bbox_height self;
     cached_showBoundingBox := cached_showBoundingBox self;
     cached_adaptiveBoundingBox := cached_adaptiveBoundingBox self;
     cached_manualOveride := cached_manualOveride self;
     cached_speedX := cached_speedX self; cached_speedY := cached_speedY self;
     cached_aimSmoothing := v;
     cached_colorConfidence := cached_colorConfidence self;
     cached_esp_lines_enabled := cached_esp_lines_enabled self;
     cached_esp_box_enabled := cached_esp_box_enabled self;
     cached_crosshair_enabled := cached_crosshair_enabled self;
     cached_show_distance_text := cached_show_distance_text self;
     cached_enemy_location_enabled := cached_enemy_location_enabled self;
     cached_aimOffsetX := cached_aimOffsetX self;
     cached_aimOffsetY := cached_aimOffsetY self;
     cached_manualOverridePercentage := cached_manualOverridePercentage self;
     pxd_patterns := pxd_patterns self |}.

Definition set_cached_colorConfidence (v : F) (self : Self F) : Self F :=
  {| cached_bbox_width := cached_bbox_width self;
     cached_bbox_height := cached_bbox_height self;
     cached_showBoundingBox := cached_showBoundingBox self;
     cached_adaptiveBoundingBox := cached_adaptiveBoundingBox self;
     cached_manualOveride := cached_manualOveride self;
     cached_speedX := cached_speedX self; cached_speedY := cached_speedY self;
     cached_aimSmoothing := cached_aimSmoothing self;
     cached_colorConfidence := v;
     cached_esp_lines_enabled := cached_esp_lines_enabled self;
     cached_esp_box_enabled := cached_esp_box_enabled self;
     cached_crosshair_enabled := cached_crosshair_enabled self;
     cached_show_distance_text := cached_show_distance_text self;
     cached_enemy_location_enabled := cached_enemy_location_enabled self;
     cached_aimOffsetX := cached_aimOffsetX self;
     cached_aimOffsetY := cached_aimOffsetY self;
     cached_manualOverridePercentage := cached_manualOverridePercentage self;
     pxd_patterns := pxd_patterns self |}.

Definition set_cached_aimOffsetX (v : Z) (self : Self F) : Self F :=
  {| cached_bbox_width := cached_bbox_width self;
     cached_bbox_height := cached_bbox_height self;
     cached_showBoundingBox := cached_showBoundingBox self;
     cached_adaptiveBoundingBox := cached_adaptiveBoundingBox self;
     cached_manualOveride := cached_manualOveride self;
     cached_speedX := cached_speedX self; cached_speedY := cached_speedY self;
     cached_aimSmoothing := cached_aimSmoothing self;
     cached_colorConfidence := cached_colorConfidence self;
     cached_esp_lines_enabled := cached_esp_lines_enabled self;
     cached_esp_box_enabled := cached_esp_box_enabled self;
     cached_crosshair_enabled := cached_crosshair_enabled self;
     cached_show_distance_text := cached_show_distance_text self;
     cached_enemy_location_enabled := cached_enemy_location_enabled self;
     cached_aimOffsetX := v; cached_aimOffsetY := cached_aimOffsetY self;
     cached_manualOverridePercentage := cached_manualOverridePercentage self;
     pxd_patterns := pxd_patterns self |}.

Definition set_cached_aimOffsetY (v : Z) (self : Self F) : Self F :=
  {| cached_bbox_width := cached_bbox_width self;
     cached_bbox_height := cached_bbox_height self;
     cached_showBoundingBox := cached_showBoundingBox self;
     cached_adaptiveBoundingBox := cached_adaptiveBoundingBox self;
     cached_manualOveride := cached_manualOveride self;
     cached_speedX := cached_speedX self; cached_speedY := cached_speedY self;
     cached_aimSmoothing := cached_aimSmoothing self;
     cached_colorConfidence := cached_colorConfidence self;
     cached_esp_lines_enabled := cached_esp_lines_enabled self;
     cached_esp_box_enabled := cached_esp_box_enabled self;
     cached_crosshair_enabled := cached_crosshair_enabled self;
     cached_show_distance_text := cached_show_distance_text self;
     cached_enemy_location_enabled := cached_enemy_location_enabled self;
     cached_aimOffsetX := cached_aimOffsetX self; cached_aimOffsetY := v;
     cached_manualOverridePercentage := cached_manualOverridePercentage self;
     pxd_patterns := pxd_patterns self |}.

Definition set_cached_manualOverridePercentage (v : Z) (self : Self F) : Self F :=
  {| cached_bbox_width := cached_bbox_width self;
     cached_bbox_height := cached_bbox_height self;
     cached_showBoundingBox := cached_showBoundingBox self;
     cached_adaptiveBoundingBox := cached_adaptiveBoundingBox self;
     cached_manualOveride := cached_manualOveride self;
     cached_speedX := cached_speedX self; cached_speedY := cached_speedY self;
     cached_aimSmoothing := cached_aimSmoothing self;
     cached_colorConfidence := cached_colorConfidence self;
     cached_esp_lines_enabled := cached_esp_lines_enabled self;
     cached_esp_box_enabled := cached_esp_box_enabled self;
     cached_crosshair_enabled := cached_crosshair_enabled self;
     cached_show_distance_text := cached_show_distance_text self;
     cached_enemy_location_enabled := cached_enemy_location_enabled self;
     cached_aimOffsetX := cached_aimOffsetX self;
     cached_aimOffsetY := cached_aimOffsetY self;
     cached_manualOverridePercentage := v;
     pxd_patterns := pxd_patterns self |}.

Definition set_pxd_patterns (v : list Pattern) (self : Self F) : Self F :=
  {| cached_bbox_width := cached_bbox_width self;
     cached_bbox_height := cached_bbox_height self;
     cached_showBoundingBox := cached_showBoundingBox self;
     cached_adaptiveBoundingBox := cached_adaptiveBoundingBox self;
     cached_manualOveride := cached_manualOveride self;
     cached_speedX := cached_speedX self; cached_speedY := cached_speedY self;
     cached_aimSmoothing := cached_aimSmoothing self;
     cached_colorConfidence := cached_colorConfidence self;
     cached_esp_lines_enabled := cached_esp_lines_enabled self;
     cached_esp_box_enabled := cached_esp_box_enabled self;
     cached_crosshair_enabled := cached_crosshair_enabled self;
     cached_show_distance_text := cached_show_distance_text self;
     cached_enemy_location_enabled := cached_enemy_location_enabled self;
     cached_aimOffsetX := cached_aimOffsetX self;
     cached_aimOffsetY := cached_aimOffsetY self;
     cached_manualOverridePercentage := cached_manualOverridePercentage self;
     pxd_patterns := v |}.

(** *** Attribute assignment and [try]/[except] *)

(** A method body: it reads and assigns attributes of the instance; [None]
    is an exception on its way out. *)
Definition U (A : Type) : Type := Helper -> option A * Helper.

Definition u_ret {A} (a : A) : U A := fun h => (Some a, h).

Definition u_bind {A B} (c : U A) (k : A -> U B) : U B :=
  fun h => match c h with
           | (Some a, h') => k a h'
           | (None, h') => (None, h')
           end.

Definition u_raise {A} : U A := fun h => (None, h).

(** A value that evaluating may fail to produce. *)
Definition u_lift {A} (o : option A) : U A := fun h => (o, h).

Definition this : U Helper := fun h => (Some h, h).

Definition assign (f : Helper -> Helper) : U unit := fun h => (Some tt, f h).

(** [try: body except Exception: handler]. *)
Definition try_except (body handler : U unit) : U unit :=
  fun h => match body h with
           | (Some a, h') => (Some a, h')
           | (None, h') => handler h'
           end.

Notation "x <- c ;; k" := (u_bind c (fun x => k))
  (at level 100, c at next level, right associativity).
Notation "c ;; k" := (u_bind c (fun _ => k))
  (at level 100, right associativity).

(** The instance with one attribute assigned. *)
Definition with_attrs (f : Self F -> Self F) (h : Helper) : Helper :=
  {| attrs := f (attrs h);
     cached_settings := cached_settings h;
     last_settings_check := last_settings_check h;
     last_file_mtime := last_file_mtime h;
     cached_color := cached_color h;
     active_pxd_file := active_pxd_file h;
     last_pxd_check := last_pxd_check h;
     helper_log := helper_log h |}.

Definition with_cached_settings (v : option settings_py) (h : Helper) : Helper :=
  {| attrs := attrs h;
     cached_settings := v;
     last_settings_check := last_settings_check h;
     last_file_mtime := last_file_mtime h;
     cached_color := cached_color h;
     active_pxd_file := active_pxd_file h;
     last_pxd_check := last_pxd_check h;
     helper_log := helper_log h |}.

Definition with_last_settings_check (v : float) (h : Helper) : Helper :=
  {| attrs := attrs h;
     cached_settings := cached_settings h;
     last_settings_check := v;
     last_file_mtime := last_file_mtime h;
     cached_color := cached_color h;
     active_pxd_file := active_pxd_file h;
     last_pxd_check := last_pxd_check h;
     helper_log := helper_log h |}.

Definition with_last_file_mtime (v : float) (h : Helper) : Helper :=
  {| attrs := attrs h;
     cached_settings := cached_settings h;
     last_settings_check := last_settings_check h;
     last_file_mtime := v;
     cached_color := cached_color h;
     active_pxd_file := active_pxd_file h;
     last_pxd_check := last_pxd_check h;
     helper_log := helper_log h |}.

Definition with_cached_color (v : list Z) (h : Helper) : Helper :=
  {| attrs := attrs h;
     cached_settings := cached_settings h;
     last_settings_check := last_settings_check h;
     last_file_mtime := last_file_mtime h;
     cached_color := v;
     active_pxd_file := active_pxd_file h;
     last_pxd_check := last_pxd_check h;
     helper_log := helper_log h |}.

Definition with_active_pxd_file (v : option string) (h : Helper) : Helper :=
  {| attrs := attrs h;
     cached_settings := cached_settings h;
     last_settings_check := last_settings_check h;
     last_file_mtime := last_file_mtime h;
     cached_color := cached_color h;
     active_pxd_file := v;
     last_pxd_check := last_pxd_check h;
     helper_log := helper_log h |}.

Definition with_last_pxd_check (v : float) (h : Helper) : Helper :=
  {| attrs := attrs h;
     cached_settings := cached_settings h;
     last_settings_check := last_settings_check h;
     last_file_mtime := last_file_mtime h;
     cached_color := cached_color h;
     active_pxd_file := active_pxd_file h;
     last_pxd_check := v;
     helper_log := helper_log h |}.

Definition with_log (e : refresh_event) (h : Helper) : Helper :=
  {| attrs := attrs h;
     cached_settings := cached_settings h;
     last_settings_check := last_settings_check h;
     last_file_mtime := last_file_mtime h;
     cached_color := cached_color h;
     active_pxd_file := active_pxd_file h;
     last_pxd_check := last_pxd_check h;
     helper_log := helper_log h ++ [e] |}.

Definition set_attrs (f : Self F -> Self F) : U unit := assign (with_attrs f).
Definition set_cached_settings (v : option settings_py) : U unit :=
  assign (with_cached_settings v).
Definition set_last_settings_check (v : float) : U unit :=
  assign (with_last_settings_check v).
Definition set_last_file_mtime (v : float) : U unit :=
  assign (with_last_file_mtime v).
Definition set_cached_color (v : list Z) : U unit := assign (with_cached_color v).
Definition set_active_pxd_file (v : option string) : U unit :=
  assign (with_active_pxd_file v).
Definition set_last_pxd_check (v : float) : U unit :=
  assign (with_last_pxd_check v).

(** [self.log(message)] *)
Definition u_log (e : refresh_event) : U unit := assign (with_log e).

(** *** [__init__] *)

Definition __init__ : Helper :=
  {| attrs :=
       {| cached_bbox_width := 720;
          cached_bbox_height := 480;
          cached_showBoundingBox := true;
          cached_adaptiveBoundingBox := false;
          cached_manualOveride := true;
          cached_speedX := 9;
          cached_speedY := 9;
          cached_aimSmoothing := false;
          cached_colorConfidence := f_lit 21 100;
          cached_esp_lines_enabled := true;
          cached_esp_box_enabled := true;
          cached_crosshair_enabled := true;
          cached_show_distance_text := true;
          cached_enemy_location_enabled := true;
          cached_aimOffsetX := 0;
          cached_aimOffsetY := 0;
          cached_manualOverridePercentage := 50;
          pxd_patterns := [] |};
     cached_settings := None;
     last_settings_check := 0;
     last_file_mtime := 0;
     cached_color := [102; 51; 153];
     active_pxd_file := None;
     last_pxd_check := 0;
     helper_log := [LogInitialized] |}.

(** *** [get_fresh_settings] *)

(** [settings.name]: [AttributeError] when the module does not define it. *)
Definition attribute {A} (a : option A) : U A := u_lift a.

(** [sequence[i]]: [IndexError] when out of range. *)
Definition item (sequence : list Z) (i : nat) : U Z := u_lift (sequence !! i).

Definition get_fresh_settings (current_time : float) (file : settings_file)
  : U (option settings_py) :=
  h <- this ;;
  (if PrimFloat.ltb settings_check_interval
                    (PrimFloat.sub current_time (last_settings_check h))
   then
     set_last_settings_check current_time ;;
     try_except
       (match file with
        | NoSettingsFile => u_raise            (* os.path.getmtime *)
        | SettingsFile current_mtime module =>
            h <- this ;;
            if PrimFloat.ltb (last_file_mtime h) current_mtime then
              set_last_file_mtime current_mtime ;;
              settings <- u_lift module ;;     (* import, importlib.reload *)
              set_cached_settings (Some settings) ;;
              set_attrs (set_cached_bbox_width
                           (default 720 (boundingBoxWidth settings))) ;;
              set_attrs (set_cached_bbox_height
                           (default 480 (boundingBoxHeight settings))) ;;
              color <- attribute (boundingBoxColor settings) ;;
              c0 <- item color 0 ;;
              c1 <- item color 1 ;;
              c2 <- item color 2 ;;
              set_cached_color [c0; c1; c2] ;;
              v <- attribute (showBoundingBox settings) ;;
              set_attrs (set_cached_showBoundingBox v) ;;
              v <- attribute (adaptiveBoundingBox settings) ;;
              set_attrs (set_cached_adaptiveBoundingBox v) ;;
              v <- attribute (manualOveride settings) ;;
              set_attrs (set_cached_manualOveride v) ;;
              v <- attribute (speedX settings) ;;
              set_attrs (set_cached_speedX v) ;;
              v <- attribute (speedY settings) ;;
              set_attrs (set_cached_speedY v) ;;
              v <- attribute (aimSmoothing settings) ;;
              set_attrs (set_cached_aimSmoothing v) ;;
              set_attrs (set_cached_colorConfidence
                           (default (f_lit 21 100) (colorConfidence settings))) ;;
              set_attrs (set_cached_aimOffsetX
                           (default 0 (aimOffsetX settings))) ;;
              set_attrs (set_cached_aimOffsetY
                           (default 0 (aimOffsetY settings))) ;;
              set_attrs (set_cached_manualOverridePercentage
                           (default 50 (manualOverridePercentage settings))) ;;
              u_log LogSettingsReloaded
            else u_ret tt
        end)
       (u_log LogSettingsError)
   else u_ret tt) ;;
  h <- this ;;
  u_ret (cached_settings h).

(** *** [load_single_pxd_file], [unload_pxd_files], [check_pxd_control] *)

(** [pxd_file filepath] is what [open], [read] and [json.loads] make of the
    file at [filepath]; [None] when one of them raises. *)
Definition load_single_pxd_file (pxd_file : string -> option json)
    (filepath : string) : U unit :=
  set_attrs (set_pxd_patterns []) ;;
  try_except
    (pattern_data <- u_lift (pxd_file filepath) ;;
     match pattern_data with
     | JObj _ =>
         (* the keys assigned here are the ones the detector reads; whatever
            else the file holds stays in the dict and is never looked at *)
         let pattern :=
           {| color_lower_bgr := cached_pxd_low_color;
              color_upper_bgr := cached_pxd_high_color;
              size_width := (min_width cached_enemy_size_range,
                             max_width cached_enemy_size_range);
              size_height := (min_height cached_enemy_size_range,
                              max_height cached_enemy_size_range);
              source_file := os_path_basename filepath |} in
         h <- this ;;
         set_attrs (set_pxd_patterns (pxd_patterns (attrs h) ++ [pattern]))
     | _ => u_raise            (* item assignment on a value that is no dict *)
     end)
    (u_log (LogPxdLoadError filepath)).

Definition unload_pxd_files : U unit :=
  set_attrs (set_pxd_patterns []) ;;
  u_log LogAllUnloaded.

Definition check_pxd_control (current_time : float) (control : control_file)
    (pxd_file : string -> option json) : U unit :=
  h <- this ;;
  if PrimFloat.ltb pxd_check_interval
                   (PrimFloat.sub current_time (last_pxd_check h))
  then
    set_last_pxd_check current_time ;;
    try_except
      (match control with
       | Present content =>
           control_data <- u_lift content ;;
           new_pxd_file <- u_lift (dict_get control_data "active_pxd_file" JNull) ;;
           pxd_directory <-
             u_lift (dict_get control_data "pxd_directory"
                              (JStr default_pxd_directory)) ;;
           h <- this ;;
           if differs new_pxd_file (active_pxd_file h) then
             if truthy new_pxd_file then
               match pxd_directory, new_pxd_file with
               | JStr directory, JStr name =>
                   load_single_pxd_file pxd_file (os_path_join directory name) ;;
                   set_active_pxd_file (Some name) ;;
                   u_log (LogPxdLoaded name)
               | _, _ => u_raise     (* os.path.join: TypeError *)
               end
             else
               unload_pxd_files ;;
               set_active_pxd_file None ;;
               u_log LogPxdUnloaded
           else u_ret tt
       | Missing =>
           h <- this ;;
           match active_pxd_file h with
           | Some _ =>
               unload_pxd_files ;;
               set_active_pxd_file None ;;
               u_log LogPxdUnloadedNoControl
           | None => u_ret tt
           end
       end)
      (u_log LogPxdControlError)
  else u_ret tt.

(** The states of the instance: the one [__init__] leaves, and those the two
    refresh methods make of it, whatever the clock and the files say.  (The
    other methods assign no attribute of the instance; the history they
    append to is in the store.) *)
Inductive reachable : Helper -> Prop :=
| reachable_init : reachable __init__
| reachable_settings h current_time file :
    reachable h ->
    reachable (snd (get_fresh_settings current_time file h))
| reachable_pxd h current_time control pxd_file :
    reachable h ->
    reachable (snd (check_pxd_control current_time control pxd_file h)).

End Refresh.

Arguments settings_py F : clear implicits.
Arguments settings_file F : clear implicits.
Arguments Helper F : clear implicits.
Arguments U F A : clear implicits.

(* ===================================================================== *)
(** ** Properties *)
(* ===================================================================== *)

Section Monad_facts.

Context {F : Type}.

Lemma returns_ret {A} (a : A) (Q : A -> store F -> Prop) s :
  Q a s -> returns (ret a) Q s.
Proof. intros H. exact H. Qed.

Lemma returns_bind {A B} (c : M F A) (k : A -> M F B) Q s :
  returns c (fun a s' => returns (k a) Q s') s -> returns (bind c k) Q s.
Proof.
  unfold returns, bind. destruct (c s) as [[e | a] s']; [intros [] | auto].
Qed.

Lemma returns_bind_inv {A B} (c : M F A) (k : A -> M F B) Q s :
  returns (bind c k) Q s -> returns c (fun a s' => returns (k a) Q s') s.
Proof.
  unfold returns, bind. destruct (c s) as [[e | a] s']; auto.
Qed.

Lemma returns_mono {A} (c : M F A) (Q Q' : A -> store F -> Prop) s :
  returns c Q s -> (forall a s', Q a s' -> Q' a s') -> returns c Q' s.
Proof.
  unfold returns. destruct (c s) as [[e | a] s']; [intros [] | auto].
Qed.

Lemma returns_and {A} (c : M F A) (Q Q' : A -> store F -> Prop) s :
  returns c Q s -> returns c Q' s -> returns c (fun a s' => Q a s' /\ Q' a s') s.
Proof.
  unfold returns. destruct (c s) as [[e | a] s']; [intros [] | auto].
Qed.

Lemma returns_run {A} (c : M F A) Q s :
  returns c Q s <-> exists a s', c s = (inr a, s') /\ Q a s'.
Proof.
  unfold returns. split.
  - destruct (c s) as [[e | a] s']; [intros [] | eauto].
  - intros (a & s' & -> & H). exact H.
Qed.

Lemma returns_for_each {A S} (I : S -> store F -> Prop) (l : list A)
    (body : A -> S -> M F S) acc s :
  I acc s ->
  (forall x acc s, x ∈ l -> I acc s -> returns (body x acc) I s) ->
  returns (for_each l body acc) I s.
Proof.
  revert acc s. induction l as [| x l IH]; intros acc s HI Hbody.
  - exact HI.
  - cbn [for_each]. apply returns_bind.
    eapply returns_mono; [apply Hbody; [left | exact HI] |].
    intros acc' s' HI'. apply IH; [exact HI' |].
    intros y acc'' s'' Hy. apply Hbody. now right.
Qed.

Section Preservation.

Variable R : store F -> store F -> Prop.
Hypothesis R_refl : forall s, R s s.
Hypothesis R_trans : forall s1 s2 s3, R s1 s2 -> R s2 s3 -> R s1 s3.

Lemma preserves_ret {A} (a : A) : preserves R (ret a).
Proof. intros s. apply R_refl. Qed.

Lemma preserves_bind {A B} (c : M F A) (k : A -> M F B) :
  preserves R c -> (forall a, preserves R (k a)) -> preserves R (bind c k).
Proof.
  intros Hc Hk s. apply returns_bind.
  eapply returns_mono; [apply Hc |]. intros a s' H1. cbn beta in H1.
  eapply returns_mono; [apply Hk |]. intros b s'' H2. cbn beta in H2.
  eapply R_trans; eassumption.
Qed.

Lemma preserves_when b (c : M F unit) : preserves R c -> preserves R (when b c).
Proof. intros Hc. destruct b; [exact Hc | apply preserves_ret]. Qed.

Lemma preserves_for_each {A S} (l : list A) (body : A -> S -> M F S) acc :
  (forall x a, preserves R (body x a)) -> preserves R (for_each l body acc).
Proof.
  intros Hb. revert acc. induction l as [| x l IH]; intros acc.
  - apply preserves_ret.
  - cbn [for_each]. apply preserves_bind; [apply Hb | exact IH].
Qed.

Lemma preserves_read_frame raster v : preserves R (read_frame (F:=F) raster v).
Proof. intros s. apply R_refl. Qed.

Lemma preserves_get_frame : preserves R (get_frame (F:=F)).
Proof. intros s. apply R_refl. Qed.

End Preservation.

Lemma returns_unit (c : M F unit) (Q : unit -> store F -> Prop) s :
  safe c -> Q tt (snd (c s)) -> returns c Q s.
Proof.
  intros Hc HQ. specialize (Hc s). unfold returns in *.
  destruct (c s) as [[e | []] s']; [destruct Hc | exact HQ].
Qed.

Lemma returns_safe {A} (c : M F A) (Q : A -> store F -> Prop) s :
  safe c -> (forall a, fst (c s) = inr a -> Q a (snd (c s))) -> returns c Q s.
Proof.
  intros Hc HQ. specialize (Hc s). unfold returns in *.
  destruct (c s) as [[e | a] s']; [destruct Hc | now apply HQ].
Qed.

End Monad_facts.

Section Pipeline_facts.

Context {F : Type} {float_ops : PyFloat F}.
Variable cc : mask -> option (list cc_stat).
Variable raster : draw_cmd F -> Z -> Z -> bool.

(** The loop of [detect_all_pixels] keeps, in order, the detections of the
    components within bounds and logs the others. *)
Lemma detect_loop (pattern : Pattern) (l : list cc_stat) acc (s : store F) :
  for_each l
    (fun st detected_boxes =>
       let x := CC_STAT_LEFT st in
       let y := CC_STAT_TOP st in
       let w := CC_STAT_WIDTH st in
       let h := CC_STAT_HEIGHT st in
       let area := CC_STAT_AREA st in
       if negb ((fst (size_width pattern) <=? w) && (w <=? snd (size_width pattern)))
          || negb ((fst (size_height pattern) <=? h) && (h <=? snd (size_height pattern)))
       then
         bind (log (LogFiltered w h (fst (size_width pattern)) (snd (size_width pattern))
                               (fst (size_height pattern)) (snd (size_height pattern))))
              (fun _ => ret detected_boxes)
       else
         ret (detected_boxes ++
              [{| coords := (x, y, x + w, y + h);
                  confidence := f_lit 9 10;
                  width := w;
                  height := h;
                  area := area;
                  center := (x + w / 2, y + h / 2);
                  pixel_count := area |}]))
    acc s
  = (inr (acc ++ map detection_of (List.filter (within_bounds pattern) l)),
     {| frame := frame s;
        detection_history := detection_history s;
        gcvdata := gcvdata s;
        debug_log := debug_log s ++
          map (filtered_event pattern)
              (List.filter (fun st => negb (within_bounds pattern st)) l) |}).
Proof.
  revert acc s. induction l as [| st l IH]; intros acc s.
  - cbn. rewrite !app_nil_r. now destruct s.
  - cbn [for_each List.filter]. unfold bind at 1. unfold within_bounds.
    destruct (fst (size_width pattern) <=? CC_STAT_WIDTH st);
      destruct (CC_STAT_WIDTH st <=? snd (size_width pattern));
      destruct (fst (size_height pattern) <=? CC_STAT_HEIGHT st);
      destruct (CC_STAT_HEIGHT st <=? snd (size_height pattern));
      cbn [negb orb andb bind log ret map]; rewrite IH; cbn;
      rewrite <- ?app_assoc; reflexivity.
Qed.

(** One run of [detect_all_pixels], in closed form. *)
Lemma detect_all_pixels_run (v : view) (pattern : Pattern) (s : store F) :
  detect_all_pixels cc raster v pattern s =
  match cc
          (cv2_inRange (read_view raster (frame s) v)
                       (color_lower_bgr pattern) (color_upper_bgr pattern)) with
  | Some stats =>
      (inr (map detection_of (List.filter (within_bounds pattern) (drop 1 stats))),
       {| frame := frame s;
          detection_history := detection_history s;
          gcvdata := gcvdata s;
          debug_log := debug_log s ++
            map (filtered_event pattern)
                (List.filter (fun st => negb (within_bounds pattern st))
                             (drop 1 stats)) |})
  | None =>
      (inr [],
       {| frame := frame s;
          detection_history := detection_history s;
          gcvdata := gcvdata s;
          debug_log := debug_log s ++ [LogPixelError] |})
  end.
Proof.
  unfold detect_all_pixels, bind at 1, read_frame.
  destruct (cc _) as [stats |].
  - apply detect_loop.
  - reflexivity.
Qed.

(** With no pattern loaded nothing is detected. *)
Lemma detect_without_patterns self v s :
  pxd_patterns self = [] ->
  detect_with_pxd_patterns cc raster self v s = (inr [], s).
Proof.
  intros H. unfold detect_with_pxd_patterns. now rewrite H.
Qed.

(** [apply_temporal_filtering] hands its argument back. *)
Lemma apply_temporal_filtering_returns (l : list (Detection F)) s :
  returns (apply_temporal_filtering l) (fun r _ => r = l) s.
Proof. now destruct l. Qed.

Section Preserved.

(** A relation between stores that logging, drawing and recording a detection
    set respect is respected by the whole of [predict]. *)
Variable R : store F -> store F -> Prop.
Hypothesis R_refl : forall s, R s s.
Hypothesis R_trans : forall s1 s2 s3, R s1 s2 -> R s2 s3 -> R s1 s3.
Hypothesis R_log : forall e, preserves R (log e).
Hypothesis R_draw : forall c, preserves R (draw c).
Hypothesis R_history : forall x, preserves R (history_append x).

Local Ltac step :=
  first [ apply preserves_ret; exact R_refl
        | apply R_log | apply R_draw | apply R_history
        | apply preserves_when; [exact R_refl |]
        | apply preserves_read_frame; exact R_refl
        | apply preserves_get_frame; exact R_refl
        | apply preserves_bind; [exact R_trans | | intros ?] ].

Lemma preserves_detect_all_pixels v pattern :
  preserves R (detect_all_pixels cc raster v pattern).
Proof.
  unfold detect_all_pixels. step; [step |].
  destruct (cc _) as [stats |]; [| step; step].
  apply preserves_for_each; [exact R_refl | exact R_trans |].
  intros st acc. cbn zeta. destruct (_ || _); [step; step | step].
Qed.

Lemma preserves_detect_with_pxd_patterns self v :
  preserves R (detect_with_pxd_patterns cc raster self v).
Proof.
  unfold detect_with_pxd_patterns. step.
  - apply preserves_for_each; [exact R_refl | exact R_trans |].
    intros pattern acc. step; [apply preserves_detect_all_pixels | step].
  - destruct a; [step |]. step; [step |]. step; step.
Qed.

Lemma preserves_apply_temporal_filtering (l : list (Detection F)) :
  preserves R (apply_temporal_filtering l).
Proof. destruct l; cbn [apply_temporal_filtering]; step; step. Qed.

Lemma preserves_draw_esp_elements self (l : list (Detection F)) x y :
  preserves R (draw_esp_elements self l x y).
Proof.
  unfold draw_esp_elements.
  destruct (negb (cached_enemy_location_enabled self)); [step |].
  step.
  - apply preserves_for_each; [exact R_refl | exact R_trans |].
    intros d []. destruct (coords d) as [[[x1 y1] x2] y2].
    step; [step; step |]. step; [step; step |]. step; step.
  - step. step; step.
Qed.

Lemma preserves_predict self button_5 button_7 button_9 :
  preserves R (predict cc raster self button_5 button_7 button_9).
Proof.
  unfold predict.
  destruct (detection_region _ _ _ _) as [[[X1 Y1] X2] Y2].
  step; [step |]. step; [step; step |].
  step; [apply preserves_detect_with_pxd_patterns |].
  step; [apply preserves_apply_temporal_filtering |].
  step.
  { apply preserves_for_each; [exact R_refl | exact R_trans |].
    intros t []. destruct (coords t) as [[[x1 y1] x2] y2]. apply R_draw. }
  step; [apply preserves_when; [exact R_refl | apply preserves_draw_esp_elements] |].
  destruct (py_max area a2) as [target |]; [| step].
  destruct (coords target) as [[[x1 y1] x2] y2].
  destruct (rectangleScaling _ _ _ _) as [cx cy].
  step; [step |].
  destruct (manual_override _ _ _ _) as [rx' ry'].
  step; [| step].
  destruct (0 <? button_7); [| step].
  step; [step |]. step; [step |]. destruct (_ <? 9); step; step.
Qed.

End Preserved.

Local Ltac trivially :=
  first [ exact (fun _ => I) | exact (fun _ _ _ _ _ => I) | exact (fun _ _ => I) ].

Lemma safe_ret {A} (a : A) : safe (ret (F:=F) a).
Proof. intros s. exact I. Qed.

Lemma safe_draw c : safe (draw (F:=F) c).
Proof. intros s. exact I. Qed.

Lemma safe_when b (c : M F unit) : safe c -> safe (when b c).
Proof. apply preserves_when; trivially. Qed.

Lemma safe_bind {A B} (c : M F A) (k : A -> M F B) :
  safe c -> (forall a, safe (k a)) -> safe (bind c k).
Proof. apply preserves_bind; trivially. Qed.

Lemma safe_for_each {A S} (l : list A) (body : A -> S -> M F S) acc :
  (forall x a, safe (body x a)) -> safe (for_each l body acc).
Proof. apply preserves_for_each; trivially. Qed.

Lemma safe_detect_all_pixels v pattern :
  safe (detect_all_pixels cc raster v pattern).
Proof. apply preserves_detect_all_pixels; trivially. Qed.

Lemma safe_detect_with_pxd_patterns self v :
  safe (detect_with_pxd_patterns cc raster self v).
Proof. apply preserves_detect_with_pxd_patterns; trivially. Qed.

Lemma safe_draw_esp_elements self (l : list (Detection F)) x y :
  safe (draw_esp_elements self l x y).
Proof. apply preserves_draw_esp_elements; trivially. Qed.

(** [predict] never writes to the output buffer. *)
Lemma predict_same_gcvdata self button_5 button_7 button_9 :
  preserves same_gcvdata (predict cc raster self button_5 button_7 button_9).
Proof.
  apply preserves_predict.
  - intros s. reflexivity.
  - unfold same_gcvdata. intros s1 s2 s3 H1 H2. congruence.
  - intros e s. reflexivity.
  - intros c s. reflexivity.
  - intros x s. reflexivity.
Qed.

(** What [predict] returns, field by field. *)
Lemma predict_returns (self : Self F) (button_5 button_7 button_9 : Z) s :
  returns (predict cc raster self button_5 button_7 button_9)
    (fun r _ =>
       ROI r = detection_region (cached_bbox_width self) (cached_bbox_height self)
                                (cached_adaptiveBoundingBox self) button_7
       /\ img0 r = detector_input (frame s) (ROI r)
       /\ fst (detect_with_pxd_patterns cc raster self (img0 r)
                 (store_at_detection self button_7 s))
          = inr (detected_objects r)
       /\ best_target r = py_max area (detected_objects r)
       /\ match best_target r with
          | None =>
              target_center r = None /\ lock_vector r = None
              /\ rx r = f_of_Z 0 /\ ry r = f_of_Z 0
          | Some target =>
              let p := aim_point self (ROI r) target in
              let locked :=
                perfect_target_lock (fst p) (snd p)
                                    (cached_speedX self) (cached_speedY self) in
              target_center r = Some p
              /\ lock_vector r = Some locked
              /\ (rx r, ry r)
                 = manual_override (cached_manualOveride self) button_9
                                   (cached_manualOverridePercentage self) locked
          end) s.
Proof.
  unfold predict, store_at_detection.
  destruct (detection_region _ _ _ _) as [[[X1 Y1] X2] Y2] eqn:Hroi.
  apply returns_bind. unfold returns at 1, get_frame.
  apply returns_bind.
  apply returns_unit; [apply safe_when, safe_draw |].
  apply returns_bind.
  apply returns_safe; [apply safe_detect_with_pxd_patterns |].
  intros detected Hdet.
  apply returns_bind.
  eapply returns_mono; [apply apply_temporal_filtering_returns |].
  intros all_targets s3 ->.
  apply returns_bind.
  eapply returns_mono.
  { apply safe_for_each. intros t []. destruct (coords t) as [[[x1 y1] x2] y2].
    apply safe_draw. }
  intros _ s4 _.
  apply returns_bind.
  eapply returns_mono; [apply safe_when, safe_draw_esp_elements |].
  intros _ s5 _.
  destruct (py_max area detected) as [target |] eqn:Hbest.
  - unfold aim_point.
    destruct (coords target) as [[[x1 y1] x2] y2] eqn:Hc.
    destruct (rectangleScaling _ _ _ _) as [cx cy] eqn:Hsc.
    apply returns_bind. eapply returns_mono; [apply safe_draw |].
    intros _ s6 _.
    destruct (manual_override _ _ _ _) as [rx' ry'] eqn:Hov.
    apply returns_bind.
    eapply returns_mono.
    { destruct (0 <? button_7).
      - repeat (apply safe_bind; [apply safe_draw | intros _]).
        destruct (_ <? 9);
          (apply safe_bind; [apply safe_draw | intros _; apply safe_draw]).
      - apply safe_draw. }
    intros _ s7 _. apply returns_ret. cbn [ROI img0 detected_objects best_target target_center lock_vector rx ry].
    rewrite Hc, Hsc. cbn [fst snd]. rewrite Hov. repeat split; auto.
  - apply returns_ret. cbn [ROI img0 detected_objects best_target target_center lock_vector rx ry].
    repeat split; auto.
Qed.

End Pipeline_facts.

(* ===================================================================== *)
(** ** Lock vector (C3) *)
(* ===================================================================== *)

(** The thresholds on [n ** 0.5] that the embedding writes as integer tests,
    checked in binary64 at the values next to each threshold. *)
Example sqrt_thresholds :
  map (fun n => PrimFloat.ltb (PrimFloat.sqrt (B64.of_Z n)) 2) [0; 3; 4; 5]
  = [true; true; false; false]
  /\ map (fun n => PrimFloat.ltb (PrimFloat.sqrt (B64.of_Z n)) 10) [0; 99; 100; 101]
     = [true; true; false; false]
  /\ map (fun n => PrimFloat.ltb (PrimFloat.sqrt (B64.of_Z n)) 3) [8; 9]
     = [true; false].
Proof. repeat split; vm_compute; reflexivity. Qed.

(** [int(v * 1.5)] in binary64 is the integer expression of the embedding, at
    the default sizes and at odd and negative ones. *)
Example int_times_1_5_binary64 :
  map (fun v => f_to_Z (f_mul (f_of_Z v) (f_lit 15 10 : float)))
      [720; 480; 721; 481; 1; 0; -3; 1920]
  = map (fun v => inr (int_times_1_5 v)) [720; 480; 721; 481; 1; 0; -3; 1920].
Proof. vm_compute. reflexivity. Qed.

Lemma perfect_target_lock_near {F} `{PyFloat F} (tx ty sx sy : Z) :
  (tx - 960) ^ 2 + (ty - 540) ^ 2 < 4 ->
  perfect_target_lock tx ty sx sy = (f_of_Z 0, f_of_Z 0).
Proof.
  intros Hd. unfold perfect_target_lock.
  now rewrite (proj2 (Z.ltb_lt _ _) Hd).
Qed.

Lemma perfect_target_lock_far {F} `{PyFloat F} (tx ty sx sy : Z) :
  4 <= (tx - 960) ^ 2 + (ty - 540) ^ 2 ->
  perfect_target_lock tx ty sx sy
  = (lock_axis (tx - 960) sx, lock_axis (ty - 540) sy).
Proof.
  intros Hd. unfold perfect_target_lock, lock_axis.
  destruct (Z.ltb_spec ((tx - 960) ^ 2 + (ty - 540) ^ 2) 4); [lia |].
  reflexivity.
Qed.

(** C3.  For every target centre and all speeds (positive ones in particular):
    when the distance from the centre to (960, 540) is below 2, that is when
    the squared distance is below 4, the lock vector is (0, 0); otherwise each
    axis is [delta * 0.02 * speed], replaced by +0.5 or -0.5, according to the
    sign of delta, when its magnitude is below 0.5 while [|delta| > 0.5].  A
    target at (1010, 540) with speeds (9, 9) gives (9.0, 0), in binary64 and
    in exact arithmetic. *)
Theorem lock_vector_of_target :
  (forall (F : Type) (ops : PyFloat F) (target_x target_y speedX speedY : Z),
     let delta_x := target_x - 960 in
     let delta_y := target_y - 540 in
     let axis (delta speed : Z) : F :=
       f_mul (f_mul (f_of_Z delta) (f_lit 2 100)) (f_of_Z speed) in
     let floored (delta speed : Z) : bool :=
       f_lt (f_abs (axis delta speed)) (f_lit 5 10)
       && f_lt (f_lit 5 10) (f_of_Z (Z.abs delta)) in
     let v := perfect_target_lock target_x target_y speedX speedY in
     (delta_x ^ 2 + delta_y ^ 2 < 4 -> v = (f_of_Z 0, f_of_Z 0))
     /\ (4 <= delta_x ^ 2 + delta_y ^ 2 ->
         (floored delta_x speedX = false -> fst v = axis delta_x speedX)
         /\ (floored delta_x speedX = true ->
             (0 < delta_x -> fst v = f_lit 5 10)
             /\ (delta_x <= 0 -> fst v = f_neg (f_lit 5 10)))
         /\ (floored delta_y speedY = false -> snd v = axis delta_y speedY)
         /\ (floored delta_y speedY = true ->
             (0 < delta_y -> snd v = f_lit 5 10)
             /\ (delta_y <= 0 -> snd v = f_neg (f_lit 5 10)))))
  /\ perfect_target_lock 1010 540 9 9 = (9%float, 0%float)
  /\ perfect_target_lock 1010 540 9 9 = (9%Q, 0%Q)
  /\ perfect_target_lock 960 540 9 9 = (0%float, 0%float).
Proof.
  split; [| repeat split; vm_compute; reflexivity].
  intros F ops tx ty sx sy dx dy axis floored v.
  subst axis floored v dx dy. cbn beta. split.
  - apply perfect_target_lock_near.
  - intros Hd. rewrite (perfect_target_lock_far _ _ _ _ Hd).
    unfold lock_axis. cbn [fst snd].
    split; [| split; [| split]].
    + now intros ->.
    + intros ->. split; intros Hs.
      * now rewrite (proj2 (Z.ltb_lt _ _) Hs).
      * destruct (Z.ltb_spec 0 (tx - 960)); [lia | reflexivity].
    + now intros ->.
    + intros ->. split; intros Hs.
      * now rewrite (proj2 (Z.ltb_lt _ _) Hs).
      * destruct (Z.ltb_spec 0 (ty - 540)); [lia | reflexivity].
Qed.

(* ===================================================================== *)
(** ** Manual override (C4) *)
(* ===================================================================== *)

Lemma manual_override_on {F} `{PyFloat F} (button_9 pct : Z) (v : F * F) :
  0 < button_9 ->
  manual_override true button_9 pct v
  = (f_mul (fst v) (f_div (f_of_Z (100 - pct)) (f_of_Z 100)),
     f_mul (snd v) (f_div (f_of_Z (100 - pct)) (f_of_Z 100))).
Proof.
  intros Hb. unfold manual_override. destruct v as [x y].
  now rewrite (proj2 (Z.ltb_lt _ _) Hb).
Qed.

Lemma manual_override_off {F} `{PyFloat F} (enabled : bool) (button_9 pct : Z)
    (v : F * F) :
  enabled = false \/ button_9 <= 0 ->
  manual_override enabled button_9 pct v = v.
Proof.
  intros Hoff. unfold manual_override. destruct v as [x y].
  destruct Hoff as [-> | Hb]; [reflexivity |].
  destruct (Z.ltb_spec 0 button_9); [lia |]. now rewrite andb_false_r.
Qed.

(** In exact arithmetic the scaled component is an affine function of the
    percentage: [v] at 0, falling by [v/100] per point. *)
Lemma exact_scaling_linear (v : Q) (pct : Z) :
  (f_mul v (f_div (f_of_Z (100 - pct)) (f_of_Z 100)) == v - v / 100 * inject_Z pct)%Q.
Proof.
  cbn. unfold Exact.mul, Exact.div, Exact.of_Z.
  rewrite !Qred_correct. unfold Z.sub. rewrite inject_Z_plus, inject_Z_opp.
  field.
Qed.

(** C4.  In every cycle that selects a target, [predict] returns the lock
    vector with both axes multiplied by [(100 - pct) / 100] when the manual
    override is enabled and the secondary trigger ([button_9]) is active, and
    returns the lock vector itself otherwise.  In exact arithmetic the scaled
    output is linear in the percentage; with pct = 50, the trigger active and
    a lock vector (9, 0), the output is (4.5, 0). *)
Theorem manual_override_scales_lock_vector :
  (forall (F : Type) (ops : PyFloat F) cc raster (self : Self F)
          (button_5 button_7 button_9 : Z) (s : store F),
     returns (predict cc raster self button_5 button_7 button_9)
       (fun r _ =>
          forall locked, lock_vector r = Some locked ->
            let k := f_div (f_of_Z (100 - cached_manualOverridePercentage self))
                           (f_of_Z 100) in
            (cached_manualOveride self = true /\ 0 < button_9 ->
               (rx r, ry r) = (f_mul (fst locked) k, f_mul (snd locked) k))
            /\ (cached_manualOveride self = false \/ button_9 <= 0 ->
               (rx r, ry r) = locked)) s)
  /\ (forall (x y : Q) (pct : Z),
        let out := manual_override true 1 pct (x, y) in
        (fst out == x - x / 100 * inject_Z pct)%Q
        /\ (snd out == y - y / 100 * inject_Z pct)%Q)
  /\ manual_override true 1 50 (9%float, 0%float) = (4.5%float, 0%float)
  /\ manual_override true 1 50 (9%Q, 0%Q) = ((9 # 2)%Q, 0%Q).
Proof.
  split; [| split; [| split; vm_compute; reflexivity]].
  - intros F ops cc raster self b5 b7 b9 s.
    eapply returns_mono; [apply predict_returns |].
    intros r _ (_ & _ & _ & _ & Hr) locked Hl.
    destruct (best_target r) as [t |].
    + destruct Hr as (_ & Hl' & ->). rewrite Hl in Hl'. injection Hl' as <-.
      cbn zeta. split.
      * intros [-> Hb]. now apply manual_override_on.
      * intros Hoff. now apply manual_override_off.
    + destruct Hr as (_ & Hl' & _). congruence.
  - intros x y pct. cbn zeta. rewrite manual_override_on by lia. cbn [fst snd].
    split; apply exact_scaling_linear.
Qed.

(* ===================================================================== *)
(** ** No detection, no movement (C7) *)
(* ===================================================================== *)

(** C7.  In every cycle whose consolidated detection set is empty, as it is
    whenever no pattern is loaded, [predict] selects no target, does not call
    [perfect_target_lock], and returns the vector (0, 0).  So it is in the
    cycle below, where a target is in view and no pattern is loaded. *)
Theorem no_detection_no_movement :
  (forall (F : Type) (ops : PyFloat F) cc raster (self : Self F)
          (button_5 button_7 button_9 : Z) (s : store F),
     returns (predict cc raster self button_5 button_7 button_9)
       (fun r _ =>
          (pxd_patterns self = [] -> detected_objects r = [])
          /\ (detected_objects r = [] ->
              best_target r = None /\ target_center r = None
              /\ lock_vector r = None
              /\ rx r = f_of_Z 0 /\ ry r = f_of_Z 0)) s)
  /\ match fst (Scenario.predict (F:=float) (Scenario.self 100 100 true 9 [])
                                 (Scenario.frame_with_block 962 538 5 5)) with
     | inr r => detected_objects r = [] /\ best_target r = None
                /\ lock_vector r = None /\ (rx r, ry r) = (0%float, 0%float)
     | inl _ => False
     end.
Proof.
  split; [| vm_compute; repeat split; reflexivity].
  intros F ops cc raster self b5 b7 b9 s.
  eapply returns_mono; [apply predict_returns |].
  intros r _ (_ & _ & Hdet & Hbest & Hr). split.
  - intros Hp. rewrite (detect_without_patterns _ _ _ _ _ Hp) in Hdet.
    cbn in Hdet. congruence.
  - intros Hempty. rewrite Hempty in Hbest. cbn in Hbest.
    rewrite Hbest in Hr. now rewrite Hbest.
Qed.

(* ===================================================================== *)
(** ** The colour-confidence threshold is never read (C10) *)
(* ===================================================================== *)

(** C10.  The per-cycle pipeline never reads the cached colour-confidence
    threshold: two runs of [process] that differ only in that threshold return
    the same result (detections, target, output vector) and leave the same
    store (payload, frame, history, log).  Its only reader is
    [simple_detection_sort], which [process] does not call, and which does
    depend on it: a detection of confidence 0.9 passes the threshold 0.21 and
    not the threshold 0.95. *)
Theorem color_confidence_is_never_read :
  (forall (F : Type) (ops : PyFloat F) cc text_size raster (self : Self F)
          (c : F) settings (button_5 button_7 button_9 : Z) (s : store F),
     process cc text_size raster (set_colorConfidence c self) settings
             button_5 button_7 button_9 s
     = process cc text_size raster self settings button_5 button_7 button_9 s)
  /\ (let d : Detection float := detection_of (CCStat 0 0 5 5 25) in
      let self := Scenario.self 100 100 true 9 [Scenario.pattern] in
      simple_detection_sort (set_colorConfidence (f_lit 21 100) self) [d] = [d]
      /\ simple_detection_sort (set_colorConfidence (f_lit 95 100) self) [d] = []).
Proof.
  split.
  - intros F ops cc text_size raster self c settings b5 b7 b9 s.
    unfold process, predict, detect_with_pxd_patterns, draw_esp_elements.
    reflexivity.
  - vm_compute. split; reflexivity.
Qed.

(* ===================================================================== *)
(** ** Region selection (C8) *)
(* ===================================================================== *)

Lemma detection_region_eq (bbox_width bbox_height : Z) (adaptive : bool)
    (button_7 : Z) :
  let w := region_dimension bbox_width adaptive button_7 in
  let h := region_dimension bbox_height adaptive button_7 in
  detection_region bbox_width bbox_height adaptive button_7
  = (Z.max 0 (960 - w / 2), Z.max 0 (540 - h / 2),
     Z.min 1920 (960 + w / 2), Z.min 1080 (540 + h / 2)).
Proof.
  unfold detection_region, region_dimension.
  now destruct (adaptive && (0 <? button_7)).
Qed.

(** C8, as the claim words it, fails for an odd dimension: with the configured
    width 721 (height 480, adaptive mode off) nothing is clipped, and the
    region is 720 columns wide, not 721. *)
Lemma region_of_odd_width_is_narrower :
  detection_region 721 480 false 0 = (600, 300, 1320, 780)
  /\ ~ (let '(X1, Y1, X2, Y2) := detection_region 721 480 false 0 in
        X2 - X1 = 721 /\ Y2 - Y1 = 480).
Proof. split; [reflexivity | cbn; lia]. Qed.

(** C8, amended.  For every settings snapshot and trigger state [predict]
    raises nothing, and its detection region is the rectangle centred at
    (960, 540) whose half-width and half-height are the configured width and
    height halved and rounded down, clipped to [0,1920] x [0,1080]: a pixel is
    in the region exactly when it is in that rectangle and in the frame.  Its
    size before clipping is the configured one when that is even and one less
    when it is odd.  In adaptive mode with the aim trigger held the dimensions
    are first multiplied by 1.5 and truncated to integers.  When the clipped
    rectangle has non-positive width or height the detector reads the whole
    frame; otherwise it reads the rectangle. *)
Theorem detection_region_is_clipped_centered_rectangle :
  forall (F : Type) (ops : PyFloat F) cc raster (self : Self F)
         (button_5 button_7 button_9 : Z) (s : store F),
    returns (predict cc raster self button_5 button_7 button_9)
      (fun r _ =>
         let w := region_dimension (cached_bbox_width self)
                                   (cached_adaptiveBoundingBox self) button_7 in
         let h := region_dimension (cached_bbox_height self)
                                   (cached_adaptiveBoundingBox self) button_7 in
         let '(X1, Y1, X2, Y2) := ROI r in
         (X1, Y1, X2, Y2)
         = (Z.max 0 (960 - w / 2), Z.max 0 (540 - h / 2),
            Z.min 1920 (960 + w / 2), Z.min 1080 (540 + h / 2))
         /\ (forall x y,
               (X1 <= x < X2 /\ Y1 <= y < Y2)
               <-> ((960 - w / 2 <= x < 960 + w / 2
                     /\ 540 - h / 2 <= y < 540 + h / 2)
                    /\ (0 <= x < 1920 /\ 0 <= y < 1080)))
         /\ 2 * (w / 2) = w - w mod 2 /\ 2 * (h / 2) = h - h mod 2
         /\ (X1 < X2 /\ Y1 < Y2 -> img0 r = slice (frame s) Y1 Y2 X1 X2)
         /\ (X2 <= X1 \/ Y2 <= Y1 -> img0 r = whole (frame s))) s
    /\ region_dimension 720 false 1 = 720
    /\ region_dimension 720 true 0 = 720
    /\ region_dimension 720 true 1 = 1080
    /\ region_dimension 481 true 1 = 721.
Proof.
  intros F ops cc raster self b5 b7 b9 s.
  split; [| repeat split; reflexivity].
  eapply returns_mono; [apply predict_returns |].
  intros r _ (Hroi & Himg & _). cbn zeta.
  rewrite detection_region_eq in Hroi. cbn zeta in Hroi.
  set (w := region_dimension (cached_bbox_width self) _ _) in *.
  set (h := region_dimension (cached_bbox_height self) _ _) in *.
  rewrite Himg, Hroi. unfold detector_input.
  split; [reflexivity |].
  split; [intros x y; lia |].
  split; [pose proof (Z.div_mod w 2); lia |].
  split; [pose proof (Z.div_mod h 2); lia |].
  split.
  - intros [Hx Hy].
    rewrite (proj2 (Z.ltb_lt _ _) Hx), (proj2 (Z.ltb_lt _ _) Hy). reflexivity.
  - intros Hdeg.
    destruct (Z.ltb_spec (Z.max 0 (540 - h / 2)) (Z.min 1080 (540 + h / 2)));
      destruct (Z.ltb_spec (Z.max 0 (960 - w / 2)) (Z.min 1920 (960 + w / 2)));
      cbn [andb]; try reflexivity; lia.
Qed.

(* ===================================================================== *)
(** ** Size bounds of detections (C5) *)
(* ===================================================================== *)

Lemma within_bounds_spec (pattern : Pattern) (st : cc_stat) :
  within_bounds pattern st = true <->
  fst (size_width pattern) <= CC_STAT_WIDTH st <= snd (size_width pattern)
  /\ fst (size_height pattern) <= CC_STAT_HEIGHT st <= snd (size_height pattern).
Proof. unfold within_bounds. rewrite !andb_true_iff, !Z.leb_le. tauto. Qed.

(** C5.  For every frame and every pattern [detect_all_pixels] raises nothing,
    and every Detection it returns has a width and a height within the
    pattern's bounds.  The returned list is exactly the components (rows 1..
    of the statistics table) that are within bounds, in order; a component
    outside them appears nowhere in it and leaves one "Filtered enemy" line in
    the log. *)
Theorem detections_are_within_size_bounds :
  forall (F : Type) (ops : PyFloat F) cc raster (frame_view : view)
         (pattern : Pattern) (s : store F),
    returns (detect_all_pixels cc raster frame_view pattern)
      (fun detected s' =>
         Forall (fun d : Detection F =>
                   fst (size_width pattern) <= width d <= snd (size_width pattern)
                   /\ fst (size_height pattern) <= height d
                      <= snd (size_height pattern)) detected
         /\ forall stats,
              cc (cv2_inRange (read_view raster (frame s) frame_view)
                              (color_lower_bgr pattern) (color_upper_bgr pattern))
              = Some stats ->
              detected
              = map detection_of (List.filter (within_bounds pattern) (drop 1 stats))
              /\ (forall st, st ∈ drop 1 stats ->
                    within_bounds pattern st = false ->
                    (detection_of st ∉ detected)
                    /\ (filtered_event pattern st ∈ debug_log s'))) s.
Proof.
  intros F ops cc raster v pattern s. unfold returns.
  rewrite detect_all_pixels_run.
  destruct (cc _) as [stats |]; [| split; [constructor | discriminate]].
  assert (Hall : Forall (fun d : Detection F =>
                   (fst (size_width pattern) <= width d <= snd (size_width pattern)
                   /\ fst (size_height pattern) <= height d
                      <= snd (size_height pattern)))
                 (map detection_of (List.filter (within_bounds pattern) (drop 1 stats)))).
  { apply Forall_forall. intros d Hd. apply list_elem_of_In, in_map_iff in Hd.
    destruct Hd as (st & <- & Hst). apply filter_In in Hst.
    now apply within_bounds_spec. }
  split; [exact Hall |].
  intros stats' [= <-]. split; [reflexivity |].
  intros st Hst Hout. split.
  - intros Hin. rewrite Forall_forall in Hall. specialize (Hall _ Hin).
    apply within_bounds_spec in Hall. cbn in Hall. congruence.
  - cbn. apply elem_of_app. right. apply list_elem_of_In, in_map.
    apply filter_In. split; [now apply list_elem_of_In | now rewrite Hout].
Qed.

(* ===================================================================== *)
(** ** Cluster consolidation (C6) *)
(* ===================================================================== *)

Section Clustering.

Context {F : Type}.
Implicit Types (d det : Detection F) (l cluster : list (Detection F)).
Implicit Types (L : list (nat * Detection F)) (U : gset nat).

(** [max] returns the first element of greatest key. *)
Lemma max_from_decomp {A} (key : A -> Z) (l pre mid : list A) (b : A) :
  Forall (fun m => key m < key b) pre ->
  Forall (fun m => key m <= key b) mid ->
  exists before after,
    pre ++ b :: mid ++ l = before ++ max_from key b l :: after
    /\ Forall (fun m => key m < key (max_from key b l)) before
    /\ Forall (fun m => key m <= key (max_from key b l)) after.
Proof.
  revert pre mid b. induction l as [| x l IH]; intros pre mid b Hpre Hmid.
  - exists pre, mid. rewrite app_nil_r. auto.
  - cbn [max_from]. destruct (Z.ltb_spec (key b) (key x)) as [Hlt | Hge].
    + destruct (IH (pre ++ b :: mid) [] x) as (before & after & Heq & H1 & H2).
      * apply Forall_app. split; [| constructor].
        -- eapply Forall_impl; [exact Hpre |]. cbn. intros; lia.
        -- exact Hlt.
        -- eapply Forall_impl; [exact Hmid |]. cbn. intros; lia.
      * constructor.
      * exists before, after. split; [| auto].
        rewrite <- Heq. cbn. rewrite <- app_assoc. reflexivity.
    + destruct (IH pre (mid ++ [x]) b) as (before & after & Heq & H1 & H2).
      * exact Hpre.
      * apply Forall_app. split; [exact Hmid | constructor; [lia | constructor]].
      * exists before, after. split; [| auto].
        rewrite <- Heq. rewrite <- app_assoc. reflexivity.
Qed.

Lemma py_max_first_of_max_area d l :
  py_max area l = Some d -> first_of_max_area d l.
Proof.
  destruct l as [| b l]; [discriminate |]. intros [= <-].
  destruct (max_from_decomp area l [] [] b) as (before & after & Heq & H1 & H2);
    [constructor | constructor |].
  exists before, after. auto.
Qed.

Lemma unassigned_in_fresh U (j : nat) L :
  j ∉ map fst L -> unassigned_in (U ∪ {[j]}) L = unassigned_in U L.
Proof.
  intros Hj. unfold unassigned_in. apply filter_ext_in_iff.
  intros [j' o] Hin. cbn. apply bool_decide_ext.
  assert (j' <> j).
  { intros ->. apply Hj. apply list_elem_of_In, in_map_iff. now exists (j, o). }
  set_solver.
Qed.

(** The inner loop absorbs, in order, every unassigned detection near the
    seed's centre, and marks its position used. *)
Lemma absorb_fold (c : Z * Z) L cluster U :
  NoDup (map fst L) ->
  fold_left (absorb c) L (cluster, U)
  = (cluster ++ map snd (List.filter (near c) (unassigned_in U L)),
     U ∪ list_to_set (map fst (List.filter (near c) (unassigned_in U L)))).
Proof.
  revert cluster U. induction L as [| [j o] L IH]; intros cluster U Hnd.
  - cbn. rewrite app_nil_r. f_equal. set_solver.
  - apply NoDup_cons in Hnd as [Hj Hnd]. cbn [fold_left absorb].
    unfold unassigned_in. cbn [List.filter fst].
    destruct (decide (j ∈ U)) as [Hin | Hout].
    + rewrite bool_decide_eq_false_2 by set_solver. now apply IH.
    + rewrite bool_decide_eq_true_2 by exact Hout.
      cbn [List.filter].
      change (near c (j, o)) with (within_10 c (coords_center o)).
      destruct (within_10 c (coords_center o)).
      * rewrite IH by exact Hnd. rewrite unassigned_in_fresh by exact Hj.
        cbn [map fst snd list_to_set]. rewrite <- app_assoc. f_equal. set_solver.
      * now apply IH.
Qed.

Lemma greedy_clusters_fuel (n m : nat) L :
  (List.length L <= n)%nat -> (List.length L <= m)%nat ->
  greedy_clusters n L = greedy_clusters m L.
Proof.
  revert m L. induction n as [| n IH]; intros m L Hn Hm.
  - destruct L; [| cbn in Hn; lia]. now destruct m.
  - destruct L as [| seed others]; [now destruct m |].
    destruct m as [| m]; [cbn in Hm; lia |].
    cbn [greedy_clusters]. f_equal. cbn in Hn, Hm.
    pose proof (filter_length_le
                  (fun o => negb (within_10 (coords_center (snd seed))
                                            (coords_center (snd o)))) others).
    apply IH; lia.
Qed.

Lemma fst_enumerate_from {A} (l : list A) (g : nat -> nat) :
  map fst (imap (fun i x => (g i, x)) l) = map g (seq 0 (List.length l)).
Proof.
  revert g. induction l as [| x l IH]; intros g; [reflexivity |].
  cbn. f_equal. rewrite <- seq_shift, map_map. apply (IH (g ∘ S)).
Qed.

Lemma NoDup_fst_enumerate {A} (l : list A) : NoDup (map fst (enumerate l)).
Proof.
  unfold enumerate.
  replace (map fst (imap pair l)) with (map id (seq 0 (List.length l)))
    by (symmetry; apply (fst_enumerate_from l id)).
  rewrite map_id. apply NoDup_ListNoDup, seq_NoDup.
Qed.

Lemma filter_filter_pointwise {A} (f g h : A -> bool) (l : list A) :
  (forall a, In a l -> h a = g a && f a) ->
  List.filter h l = List.filter f (List.filter g l).
Proof.
  induction l as [| x l IH]; intros Hp; [reflexivity |].
  cbn [List.filter]. rewrite (Hp x) by now left.
  rewrite IH by (intros a Ha; apply Hp; now right).
  destruct (g x); cbn [andb List.filter]; reflexivity.
Qed.

Lemma NoDup_fst_functional {A} (L : list (nat * A)) (j : nat) (o o' : A) :
  NoDup (map fst L) -> In (j, o) L -> In (j, o') L -> o = o'.
Proof.
  induction L as [| [k x] L IH]; intros Hnd Ho Ho'; [destruct Ho |].
  apply NoDup_cons in Hnd as [Hk Hnd]. cbn in Hk.
  assert (Hfresh : forall y, In (k, y) L -> False).
  { intros y Hy. apply Hk, list_elem_of_In, in_map_iff. now exists (k, y). }
  destruct Ho as [Ho | Ho], Ho' as [Ho' | Ho'].
  - congruence.
  - injection Ho as -> _. destruct (Hfresh _ Ho').
  - injection Ho' as -> _. destruct (Hfresh _ Ho).
  - now apply IH.
Qed.

Lemma unassigned_in_all_used U L :
  (forall jo, In jo L -> fst jo ∈ U) -> unassigned_in U L = [].
Proof.
  induction L as [| jo L IH]; intros Hu; [reflexivity |].
  unfold unassigned_in. cbn [List.filter].
  rewrite bool_decide_eq_false_2 by (intros Hn; apply Hn, Hu; now left).
  apply IH. intros x Hx. apply Hu. now right.
Qed.

(** After a cluster is closed, the detections still unassigned are those that
    were unassigned before and are not near the seed. *)
Lemma unassigned_after_cluster (c : Z * Z) U (i : nat) L :
  NoDup (map fst L) -> i ∉ map fst L ->
  unassigned_in
    (U ∪ {[i]} ∪ list_to_set (map fst (List.filter (near c) (unassigned_in U L)))) L
  = List.filter (fun o => negb (near c o)) (unassigned_in U L).
Proof.
  intros Hnd Hi. unfold unassigned_in at 1 3.
  apply filter_filter_pointwise. intros [j o] Hin. cbn [fst].
  assert (Hji : j <> i).
  { intros ->. apply Hi, list_elem_of_In, in_map_iff. now exists (i, o). }
  destruct (near c (j, o)) eqn:Hnear; cbn [negb].
  - rewrite andb_false_r. apply bool_decide_eq_false_2. intros Hn. apply Hn.
    destruct (decide (j ∈ U)) as [HU | HU]; [set_solver |].
    apply elem_of_union_r, elem_of_list_to_set, list_elem_of_In, in_map_iff.
    exists (j, o). split; [reflexivity |].
    apply filter_In. split; [| exact Hnear].
    apply filter_In. split; [exact Hin |]. now apply bool_decide_eq_true_2.
  - rewrite andb_true_r. apply bool_decide_ext.
    split; [set_solver |]. intros HU Hn.
    apply elem_of_union in Hn as [Hn | Hn]; [set_solver |].
    apply elem_of_list_to_set, list_elem_of_In, in_map_iff in Hn.
    destruct Hn as ([j' o'] & Hj' & Hin'). cbn in Hj'. subst j'.
    apply filter_In in Hin' as [Hin' Hnear'].
    apply filter_In in Hin' as [Hin' _].
    rewrite (NoDup_fst_functional L j o o' Hnd Hin Hin') in Hnear. congruence.
Qed.

(** The outer loop, from any point of its run: what it still appends are the
    representatives of the greedy clusters of the unassigned detections. *)
Lemma cluster_loop (detections : list (Detection F)) pre suf clusters U :
  enumerate detections = pre ++ suf ->
  (forall jo, In jo pre -> fst jo ∈ U) ->
  fst (fold_left (cluster_step detections) suf (clusters, U))
  = clusters
    ++ representatives (greedy_clusters (List.length suf) (unassigned_in U suf)).
Proof.
  revert pre clusters U.
  induction suf as [| [i det] rest IH]; intros pre clusters U HE Hpre.
  - cbn. now rewrite app_nil_r.
  - pose proof (NoDup_fst_enumerate detections) as Hnd.
    rewrite HE, map_app in Hnd. apply NoDup_app in Hnd as (_ & Hdisj & Hnd).
    cbn [map fst] in Hnd. apply NoDup_cons in Hnd as [Hi Hnd].
    assert (HE' : enumerate detections = (pre ++ [(i, det)]) ++ rest)
      by now rewrite <- app_assoc.
    cbn [fold_left cluster_step List.length].
    destruct (decide (i ∈ U)) as [Hin | Hout].
    + rewrite (IH (pre ++ [(i, det)]) clusters U HE').
      * f_equal. f_equal. unfold unassigned_in at 2. cbn [List.filter fst].
        rewrite bool_decide_eq_false_2 by set_solver.
        pose proof (filter_length_le
                      (fun jo : nat * Detection F => bool_decide (fst jo ∉ U)) rest).
        apply greedy_clusters_fuel; unfold unassigned_in; lia.
      * intros jo Hjo. apply in_app_iff in Hjo as [Hjo | [<- | []]]; auto.
    + rewrite absorb_fold by apply NoDup_fst_enumerate.
      assert (HN : unassigned_in (U ∪ {[i]}) (enumerate detections)
                   = unassigned_in U rest).
      { rewrite HE. unfold unassigned_in. rewrite List.filter_app.
        fold (unassigned_in (U ∪ {[i]}) pre).
        rewrite unassigned_in_all_used
          by (intros jo Hjo; apply elem_of_union_l; auto).
        cbn [List.filter fst app].
        rewrite bool_decide_eq_false_2 by set_solver.
        now apply unassigned_in_fresh. }
      rewrite HN. cbn [app py_max].
      rewrite (IH (pre ++ [(i, det)]) _ _ HE').
      * rewrite unassigned_after_cluster by assumption.
        unfold unassigned_in at 3. cbn [List.filter fst].
        rewrite bool_decide_eq_true_2 by exact Hout.
        fold (unassigned_in U rest).
        cbn [greedy_clusters representatives omap map snd py_max].
        rewrite <- app_assoc. reflexivity.
      * intros jo Hjo. apply in_app_iff in Hjo as [Hjo | [<- | []]].
        -- apply elem_of_union_l, elem_of_union_l. auto.
        -- cbn. set_solver.
Qed.

Lemma unassigned_in_empty L : unassigned_in ∅ L = L.
Proof.
  induction L as [| jo L IH]; [reflexivity |].
  unfold unassigned_in. cbn [List.filter].
  rewrite bool_decide_eq_true_2 by set_solver. f_equal. exact IH.
Qed.

(** The code computes the representatives of the clusters the design
    document describes. *)
Lemma cluster_similar_enemies_greedy (detections : list (Detection F)) :
  cluster_similar_enemies detections = representatives (clusters_of detections).
Proof.
  unfold cluster_similar_enemies, clusters_of.
  destruct detections as [| d0 l] eqn:Hd; [reflexivity |]. rewrite <- Hd.
  rewrite (cluster_loop detections [] (enumerate detections) [] ∅ eq_refl)
    by (intros jo []).
  rewrite unassigned_in_empty. unfold enumerate at 1. now rewrite length_imap.
Qed.

Lemma greedy_clusters_members (n : nat) L c x :
  In c (greedy_clusters n L) -> In x c -> In x L.
Proof.
  revert L. induction n as [| n IH]; intros L Hc Hx; [destruct Hc |].
  destruct L as [| seed others]; [destruct Hc |].
  cbn [greedy_clusters] in Hc. destruct Hc as [<- | Hc].
  - destruct Hx as [<- | Hx]; [now left | right].
    now apply filter_In in Hx as [Hx _].
  - right. specialize (IH _ Hc Hx). now apply filter_In in IH as [IH _].
Qed.

Lemma greedy_clusters_length (n : nat) L :
  (List.length (greedy_clusters n L) <= List.length L)%nat.
Proof.
  revert L. induction n as [| n IH]; intros L; [cbn; lia |].
  destruct L as [| seed others]; [cbn; lia |]. cbn [greedy_clusters List.length].
  pose proof (IH (List.filter
                    (fun o => negb (within_10 (coords_center (snd seed))
                                              (coords_center (snd o)))) others)).
  pose proof (filter_length_le
                (fun o => negb (within_10 (coords_center (snd seed))
                                          (coords_center (snd o)))) others).
  lia.
Qed.

Lemma filter_split_Permutation {A} (f : A -> bool) (l : list A) :
  Permutation (List.filter f l ++ List.filter (fun x => negb (f x)) l) l.
Proof.
  induction l as [| x l IH]; [reflexivity |]. cbn [List.filter].
  destruct (f x); cbn [negb app].
  - now constructor.
  - rewrite <- Permutation_middle. now constructor.
Qed.

(** Every detection is in exactly one cluster. *)
Lemma greedy_clusters_partition (n : nat) L :
  (List.length L <= n)%nat -> Permutation (concat (greedy_clusters n L)) L.
Proof.
  revert L. induction n as [| n IH]; intros L Hn.
  - destruct L; [reflexivity | cbn in Hn; lia].
  - destruct L as [| seed others]; [reflexivity |].
    cbn [greedy_clusters concat app]. constructor.
    set (f := fun o : nat * Detection F =>
                within_10 (coords_center (snd seed)) (coords_center (snd o))).
    rewrite IH.
    + apply (filter_split_Permutation f).
    + pose proof (filter_length_le (fun o => negb (f o)) others) as Hle.
      subst f. cbn beta in Hle. cbn in Hn. lia.
Qed.

Lemma representatives_first_of_max_area (n : nat) L :
  Forall2 (fun d c => first_of_max_area d (map snd c))
          (representatives (greedy_clusters n L)) (greedy_clusters n L).
Proof.
  revert L. induction n as [| n IH]; intros L; [constructor |].
  destruct L as [| seed others]; [constructor |].
  cbn [greedy_clusters representatives omap map py_max].
  constructor; [| apply IH].
  now apply py_max_first_of_max_area.
Qed.

End Clustering.

Lemma coords_center_detection_of {F} `{PyFloat F} (st : cc_stat) :
  coords_center (detection_of st) = center (detection_of st).
Proof.
  unfold coords_center, detection_of. cbn. f_equal.
  - replace (CC_STAT_LEFT st + (CC_STAT_LEFT st + CC_STAT_WIDTH st))
      with (CC_STAT_LEFT st * 2 + CC_STAT_WIDTH st) by lia.
    rewrite Z.div_add_l by lia. reflexivity.
  - replace (CC_STAT_TOP st + (CC_STAT_TOP st + CC_STAT_HEIGHT st))
      with (CC_STAT_TOP st * 2 + CC_STAT_HEIGHT st) by lia.
    rewrite Z.div_add_l by lia. reflexivity.
Qed.

(** C6.  For every finite list of detections, [cluster_similar_enemies]
    returns at most as many detections as it received, one per cluster, the
    clusters being formed greedily: seeds are taken in input order, and a seed
    absorbs every detection not yet assigned whose centre is at a squared
    distance below 100 (distance below 10 pixels) from the seed's centre, so
    that every detection lies in exactly one cluster.  Each returned detection
    is a member of the input, and within its cluster (seed first, then the
    absorbed detections in input order) every earlier member has a strictly
    smaller area and every later member an area not greater: it has the
    greatest area, and on equal area the first met is kept.  The centre used
    is that of the detection's rectangle, which is the [center] field of every
    detection that [detect_all_pixels] builds. *)
Theorem cluster_keeps_first_largest_member :
  forall (F : Type) (ops : PyFloat F) (detections : list (Detection F)),
    let kept := cluster_similar_enemies detections in
    let clusters := clusters_of detections in
    (List.length kept <= List.length detections)%nat
    /\ Forall2 (fun d c => first_of_max_area d (map snd c)) kept clusters
    /\ (forall d, d ∈ kept -> d ∈ detections)
    /\ (forall c j d, c ∈ clusters -> (j, d) ∈ c -> detections !! j = Some d)
    /\ Permutation (concat clusters) (enumerate detections)
    /\ (forall st, coords_center (detection_of st : Detection F)
                   = center (detection_of st : Detection F)).
Proof.
  intros F ops detections kept clusters. subst kept clusters.
  rewrite cluster_similar_enemies_greedy. unfold clusters_of.
  assert (Hmem : forall c j d,
             c ∈ greedy_clusters (List.length detections) (enumerate detections) ->
             (j, d) ∈ c -> detections !! j = Some d).
  { intros c j d Hc Hjd. apply list_elem_of_In in Hc, Hjd.
    pose proof (greedy_clusters_members _ _ _ _ Hc Hjd) as Hin.
    apply list_elem_of_In in Hin. unfold enumerate in Hin.
    apply elem_of_lookup_imap in Hin as (i & x & [= -> ->] & Hl). exact Hl. }
  pose proof (representatives_first_of_max_area
                (List.length detections) (enumerate detections)) as Hrep.
  split; [| split; [exact Hrep | split; [| split; [exact Hmem | split]]]].
  - rewrite (Forall2_length _ _ _ Hrep).
    etransitivity; [apply greedy_clusters_length |].
    unfold enumerate. now rewrite length_imap.
  - intros d Hd.
    apply list_elem_of_lookup in Hd as [k Hk].
    destruct (Forall2_lookup_l _ _ _ _ _ Hrep Hk) as (c & Hc & before & after & Heq & _).
    assert (Hdc : d ∈ map snd c) by (rewrite Heq; set_solver).
    apply list_elem_of_In, in_map_iff in Hdc as ([j d'] & Hsnd & Hin).
    cbn in Hsnd. subst d'.
    apply (list_elem_of_lookup_2 _ j). eapply Hmem.
    + eapply list_elem_of_lookup_2; exact Hc.
    + now apply list_elem_of_In.
  - apply greedy_clusters_partition. unfold enumerate. now rewrite length_imap.
  - intros st. apply coords_center_detection_of.
Qed.

(** Scenario 2 of the design document: two detections whose centres are 6
    pixels apart are consolidated to one, 15 pixels apart stay two. *)
Example clusters_6_and_15_pixels_apart :
  let d (x : Z) : Detection Q := detection_of (CCStat x 100 8 8 64) in
  List.length (cluster_similar_enemies [d 100; d 106]) = 1%nat
  /\ List.length (cluster_similar_enemies [d 100; d 115]) = 2%nat.
Proof. split; vm_compute; reflexivity. Qed.


(* ===================================================================== *)
(** ** Output encoding (C1, C2) *)
(* ===================================================================== *)

(** *** Bytes *)

Lemma be_digits_length (k : nat) (n : Z) : List.length (be_digits k n) = k.
Proof.
  revert n. induction k as [| k IH]; intros n; [reflexivity |].
  cbn [be_digits]. rewrite length_app, IH. cbn. lia.
Qed.

Lemma byte_of_digit (n : Z) :
  Z.of_N (Byte.to_N (default Byte.x00 (Byte.of_N (Z.to_N (n mod 256)))))
  = n mod 256.
Proof.
  pose proof (Z.mod_pos_bound n 256 eq_refl) as Hb.
  destruct (Byte.of_N (Z.to_N (n mod 256))) as [b |] eqn:Hbyte.
  - apply Byte.to_of_N in Hbyte.
    change (Z.of_N (Byte.to_N b) = n mod 256). rewrite Hbyte. lia.
  - apply Byte.of_N_None_iff in Hbyte. lia.
Qed.

Lemma be_value_snoc (bs : list byte) (b : byte) :
  be_value (bs ++ [b]) = be_value bs * 256 + Z.of_N (Byte.to_N b).
Proof. unfold be_value. now rewrite fold_left_app. Qed.

Lemma be_value_digits (k : nat) (n : Z) :
  be_value (be_digits k n) = n mod 256 ^ Z.of_nat k.
Proof.
  revert n. induction k as [| k IH]; intros n.
  - cbn. now rewrite Z.mod_1_r.
  - cbn [be_digits]. rewrite be_value_snoc, IH, byte_of_digit.
    rewrite Nat2Z.inj_succ, Z.pow_succ_r by lia.
    rewrite Z.rem_mul_r by lia. lia.
Qed.

Lemma to_bytes_signed_4 (v : Z) :
  fits_int32 v ->
  exists bs, to_bytes v 4 true = inr bs /\ List.length bs = 4%nat
             /\ from_bytes bs true = v.
Proof.
  unfold fits_int32. intros Hv. exists (be_digits 4 (v mod 2 ^ 32)).
  unfold to_bytes, from_bytes. rewrite be_digits_length, be_value_digits.
  change (8 * Z.of_nat 4) with 32. change (256 ^ Z.of_nat 4) with (2 ^ 32).
  change (32 - 1) with 31.
  rewrite (proj2 (Z.leb_le _ _) (proj1 Hv)), (proj2 (Z.ltb_lt _ _) (proj2 Hv)).
  split; [reflexivity | split; [reflexivity |]].
  rewrite Z.mod_mod by lia. cbn [andb].
  destruct (Z.leb_spec (2 ^ 31) (v mod 2 ^ 32)) as [Hhi | Hlo].
  - destruct (Z.lt_ge_cases v 0) as [Hneg | Hpos].
    + rewrite <- (Z.mod_add v 1 (2 ^ 32)) by lia.
      rewrite Z.mod_small by lia. lia.
    + rewrite Z.mod_small in Hhi by lia. lia.
  - destruct (Z.lt_ge_cases v 0) as [Hneg | Hpos].
    + rewrite <- (Z.mod_add v 1 (2 ^ 32)) in Hlo by lia.
      rewrite Z.mod_small in Hlo by lia. lia.
    + now rewrite Z.mod_small by lia.
Qed.

Lemma to_bytes_unsigned_2 (v : Z) :
  0 <= v < 2 ^ 16 ->
  exists bs, to_bytes v 2 false = inr bs /\ List.length bs = 2%nat
             /\ from_bytes bs false = v.
Proof.
  intros Hv. exists (be_digits 2 v).
  unfold to_bytes, from_bytes. rewrite be_digits_length, be_value_digits.
  change (8 * Z.of_nat 2) with 16. change (256 ^ Z.of_nat 2) with (2 ^ 16).
  rewrite (proj2 (Z.leb_le _ _) (proj1 Hv)), (proj2 (Z.ltb_lt _ _) (proj2 Hv)).
  split; [reflexivity | split; [reflexivity |]].
  cbn [andb]. now rewrite Z.mod_small by lia.
Qed.

Lemma to_bytes_signed_4_overflow (v : Z) :
  ~ fits_int32 v -> to_bytes v 4 true = inl OverflowError.
Proof.
  unfold fits_int32, to_bytes. intros Hv.
  change (8 * Z.of_nat 4 - 1) with 31.
  destruct (Z.leb_spec (- 2 ^ 31) v); destruct (Z.ltb_spec v (2 ^ 31));
    cbn [andb]; try reflexivity. lia.
Qed.

(** *** The button identifier *)

Lemma button_mapping_range :
  map_Forall (fun _ id => 5 <= id <= 8) button_mapping.
Proof.
  unfold button_mapping.
  repeat (apply map_Forall_insert_2; [lia |]).
  apply map_Forall_empty.
Qed.

Lemma resolved_button_id_range (settings : settings_module) :
  5 <= resolved_button_id settings <= 8.
Proof.
  destruct settings as [| a]; cbn [resolved_button_id]; [lia |].
  destruct (button_mapping !! default "BUTTON_7"%string a) as [id |] eqn:Hid;
    cbn; [| lia].
  exact (button_mapping_range _ _ Hid).
Qed.

Lemma get_aim_button_id_run {F} (settings : settings_module) (s : store F) :
  get_aim_button_id settings s
  = (inr (resolved_button_id settings),
     {| frame := frame s;
        detection_history := detection_history s;
        gcvdata := gcvdata s;
        debug_log := debug_log s ++ [aim_button_event settings] |}).
Proof. destruct settings as [| a]; reflexivity. Qed.

(** *** The three [extend] calls *)

Section Encoder.

Context {F : Type} {float_ops : PyFloat F}.

Lemma encode_payload_x_raises (rx ry : F) settings (s : store F) (e : exn) :
  fixed rx = inl e -> encode_payload rx ry settings s = (inl e, s).
Proof.
  unfold fixed, encode_payload, bind, to_fix32, lift. now intros ->.
Qed.

Lemma encode_payload_x_overflows (rx ry : F) settings (s : store F) (vx : Z) :
  fixed rx = inr vx -> ~ fits_int32 vx ->
  encode_payload rx ry settings s = (inl OverflowError, s).
Proof.
  unfold fixed, encode_payload, bind, to_fix32, lift. intros -> Hx.
  now rewrite (to_bytes_signed_4_overflow _ Hx).
Qed.

Lemma encode_payload_y_raises (rx ry : F) settings (s : store F) (vx : Z)
    (bx : list byte) (e : exn) :
  fixed rx = inr vx -> to_bytes vx 4 true = inr bx ->
  fixed ry = inl e \/ (exists vy, fixed ry = inr vy /\ ~ fits_int32 vy /\ e = OverflowError) ->
  encode_payload rx ry settings s
  = (inl e, {| frame := frame s;
               detection_history := detection_history s;
               gcvdata := gcvdata s ++ bx;
               debug_log := debug_log s |}).
Proof.
  unfold fixed, encode_payload, bind, to_fix32, lift, gcv_extend.
  intros -> -> [-> | (vy & -> & Hy & ->)]; [reflexivity |].
  now rewrite (to_bytes_signed_4_overflow _ Hy).
Qed.

Lemma encode_payload_completes (rx ry : F) settings (s : store F) (vx vy : Z)
    (bx by_ bb : list byte) :
  fixed rx = inr vx -> to_bytes vx 4 true = inr bx ->
  fixed ry = inr vy -> to_bytes vy 4 true = inr by_ ->
  to_bytes (resolved_button_id settings) 2 false = inr bb ->
  encode_payload rx ry settings s
  = (inr tt, {| frame := frame s;
                detection_history := detection_history s;
                gcvdata := gcvdata s ++ bx ++ by_ ++ bb;
                debug_log := debug_log s ++
                  [aim_button_event settings;
                   LogGcv (resolved_button_id settings)] |}).
Proof.
  unfold fixed, encode_payload, bind, to_fix32, lift, gcv_extend.
  intros -> -> -> -> Hb. rewrite get_aim_button_id_run, Hb.
  unfold log. cbn [frame detection_history gcvdata debug_log].
  rewrite <- !app_assoc. reflexivity.
Qed.

End Encoder.

(** *** Multiplying a binary64 by 65536 is exact *)

Section Binary64.

Local Open Scope float_scope.
Local Open Scope Z_scope.

Lemma iter_pos_nat {A} (f : A -> A) (p : positive) (x : A) :
  SpecFloat.iter_pos f p x = Nat.iter (Pos.to_nat p) f x.
Proof.
  revert x. induction p as [p IH | p IH |]; intros x; cbn [SpecFloat.iter_pos].
  - rewrite !IH, Pos2Nat.inj_xI.
    replace (S (2 * Pos.to_nat p)) with (Pos.to_nat p + (Pos.to_nat p + 1))%nat by lia.
    rewrite !Nat.iter_add. reflexivity.
  - rewrite !IH, Pos2Nat.inj_xO.
    replace (2 * Pos.to_nat p)%nat with (Pos.to_nat p + Pos.to_nat p)%nat by lia.
    rewrite Nat.iter_add. reflexivity.
  - reflexivity.
Qed.

Lemma shl_succ_r (k : nat) (q : positive) : B64.shl (S k) q = B64.shl k (xO q).
Proof. unfold B64.shl. apply Nat.iter_succ_r. Qed.

Lemma shr_shl (k : nat) (q : positive) :
  Nat.iter k shr_1 {| shr_m := Z.pos (B64.shl k q); shr_r := false; shr_s := false |}
  = {| shr_m := Z.pos q; shr_r := false; shr_s := false |}.
Proof.
  revert q. induction k as [| k IH]; intros q; [reflexivity |].
  rewrite shl_succ_r, Nat.iter_succ, IH. reflexivity.
Qed.

Lemma shl_add (j k : nat) (q : positive) : B64.shl (j + k) q = B64.shl j (B64.shl k q).
Proof. unfold B64.shl. apply Nat.iter_add. Qed.

Lemma digits_shl (k : nat) (q : positive) :
  Z.pos (digits2_pos (B64.shl k q)) = Z.pos (digits2_pos q) + Z.of_nat k.
Proof.
  induction k as [| k IH]; [cbn; lia |].
  unfold B64.shl in *. rewrite Nat.iter_succ. cbn [digits2_pos]. lia.
Qed.

Lemma shl_Z (k : nat) (q : positive) : Z.pos (B64.shl k q) = Z.pos q * 2 ^ Z.of_nat k.
Proof.
  induction k as [| k IH]; [cbn; lia |].
  unfold B64.shl in *. rewrite Nat.iter_succ.
  rewrite Nat2Z.inj_succ, Z.pow_succ_r by lia. lia.
Qed.

Lemma mul_2_52 (m : positive) : (m * 4503599627370496)%positive = B64.shl 52 m.
Proof. rewrite Pos.mul_comm. reflexivity. Qed.

Lemma round_scaled (s : bool) (m : positive) (e : Z) :
  bounded prec emax m e = true ->
  let E := Z.max (Z.pos (digits2_pos m) + e - 37) (-1074) in
  let k := Z.to_nat (e + 16 - E) in
  binary_round_aux prec emax s (Z.pos (m * 4503599627370496)) (e - 36) loc_Exact
  = if E <=? 971 then S754_finite s (B64.shl k m) E else S754_infinity s.
Proof.
  intros Hb E k. unfold bounded, canonical_mantissa in Hb.
  apply andb_prop in Hb as [Hc He]. apply Z.eqb_eq in Hc. apply Z.leb_le in He.
  unfold fexp, SpecFloat.emin, prec, emax in *.
  pose proof (Pos2Z.is_pos (digits2_pos m)) as Hd.
  set (d := Z.pos (digits2_pos m)) in *.
  assert (Hn : 36 <= E - (e - 36) <= 52) by (subst E; lia).
  unfold binary_round_aux, shr_fexp.
  rewrite mul_2_52. cbn [Zdigits2]. rewrite digits_shl. fold d.
  unfold fexp, SpecFloat.emin, prec, emax.
  replace (Z.max (d + Z.of_nat 52 + (e - 36) - 53) (3 - 1024 - 53)) with E
    by (subst E; lia).
  destruct (E - (e - 36)) as [| p | p] eqn:Hp; try lia.
  cbn [shr shr_record_of_loc]. rewrite iter_pos_nat.
  replace 52%nat with (Pos.to_nat p + k)%nat by (subst k; lia).
  rewrite shl_add, shr_shl.
  cbn [shr_m loc_of_shr_record round_nearest_even Zdigits2].
  rewrite digits_shl. fold d.
  replace (Z.max (d + Z.of_nat k + (e - 36 + Z.pos p) - 53) (3 - 1024 - 53)
           - (e - 36 + Z.pos p)) with 0 by (subst k E; lia).
  cbn [shr shr_m shr_record_of_loc].
  replace (e - 36 + Z.pos p) with E by lia. reflexivity.
Qed.

Lemma mul_65536_spec (x : float) :
  Prim2SF (x * B64.of_Z 65536) =
  match Prim2SF x with
  | S754_finite s m e =>
      let E := Z.max (Z.pos (digits2_pos m) + e - 37) (-1074) in
      let k := Z.to_nat (e + 16 - E) in
      if E <=? 971 then S754_finite s (B64.shl k m) E else S754_infinity s
  | S754_zero s => S754_zero s
  | S754_infinity s => S754_infinity s
  | S754_nan => S754_nan
  end.
Proof.
  rewrite mul_spec.
  replace (Prim2SF (B64.of_Z 65536)) with (S754_finite false 4503599627370496 (-36))
    by (vm_compute; reflexivity).
  pose proof (Prim2SF_valid x) as Hv.
  destruct (Prim2SF x) as [s | s | | s m e]; cbn [SF64mul SFmul];
    rewrite ?xorb_false_r; try reflexivity.
  cbn in Hv. now apply round_scaled.
Qed.

Lemma Qpower_2_pos (n : Z) : 0 <= n -> (Qpower 2 n == inject_Z (2 ^ n))%Q.
Proof. intros Hn. now rewrite Zpower_Qpower. Qed.

Lemma Qpower_2_gt_0 (n : Z) : (0 < Qpower 2 n)%Q.
Proof. apply Qpower_0_lt. reflexivity. Qed.

(** A non-negative magnitude [a * 2^E]: its integer part and the bounds. *)
Lemma magnitude_trunc (a : positive) (E : Z) :
  let v := if 0 <=? E then Z.shiftl (Z.pos a) E else Z.shiftr (Z.pos a) (- E) in
  (inject_Z v <= inject_Z (Z.pos a) * Qpower 2 E < inject_Z v + 1)%Q /\ 0 <= v.
Proof.
  intros v. subst v. destruct (Z.leb_spec 0 E) as [HE | HE].
  - rewrite Z.shiftl_mul_pow2 by lia. rewrite (Qpower_2_pos E HE).
    rewrite <- inject_Z_mult. split; [split; [apply Qle_refl |] | ].
    + rewrite <- (Qplus_0_r (inject_Z _)) at 1. apply Qplus_lt_r. reflexivity.
    + pose proof (Z.pow_pos_nonneg 2 E). lia.
  - rewrite Z.shiftr_div_pow2 by lia.
    assert (Hp : 0 < 2 ^ (- E)) by (apply Z.pow_pos_nonneg; lia).
    assert (Hq : (Qpower 2 E == / inject_Z (2 ^ (- E)))%Q).
    { rewrite <- (Qpower_2_pos (- E)) by lia. rewrite <- Qpower_opp.
      now rewrite Z.opp_involutive. }
    rewrite Hq.
    pose proof (Z.mul_div_le (Z.pos a) (2 ^ (- E)) Hp) as Hlo.
    pose proof (Z.mul_succ_div_gt (Z.pos a) (2 ^ (- E)) Hp) as Hhi.
    set (q := Z.pos a / 2 ^ (- E)) in *. set (c := 2 ^ (- E)) in *.
    assert (Hc : (0 < inject_Z c)%Q) by (rewrite <- (Zlt_Qlt 0); exact Hp).
    change (inject_Z (Z.pos a) * / inject_Z c)%Q
      with (inject_Z (Z.pos a) / inject_Z c)%Q.
    split; [split |].
    + apply Qle_shift_div_l; [exact Hc |].
      rewrite <- inject_Z_mult, <- Zle_Qle. lia.
    + apply Qlt_shift_div_r; [exact Hc |].
      replace (inject_Z q + 1)%Q with (inject_Z (q + 1)) by (rewrite inject_Z_plus; reflexivity).
      rewrite <- inject_Z_mult, <- Zlt_Qlt. lia.
    + apply Z.div_pos; lia.
Qed.

Lemma scaled_magnitude (m : positive) (e E : Z) :
  E <= e + 16 ->
  (inject_Z (Z.pos (B64.shl (Z.to_nat (e + 16 - E)) m)) * Qpower 2 E
   == inject_Z (Z.pos m) * Qpower 2 e * inject_Z 65536)%Q.
Proof.
  intros HE. rewrite shl_Z, inject_Z_mult, Z2Nat.id by lia.
  rewrite <- (Qpower_2_pos (e + 16 - E)) by lia.
  rewrite <- Qmult_assoc, <- Qpower_plus by discriminate.
  replace (e + 16 - E + E) with (e + 16) by lia.
  rewrite Qpower_plus by discriminate.
  rewrite (Qpower_2_pos 16) by lia.
  change (2 ^ 16) with 65536. now rewrite Qmult_assoc.
Qed.

Lemma fix32_is_truncation (x : float) (v : Z) :
  B64.to_Z (x * B64.of_Z 65536) = inr v ->
  truncation_of (B64.to_Q x * inject_Z 65536) v.
Proof.
  unfold truncation_of, B64.to_Z, B64.to_Q. rewrite mul_65536_spec.
  pose proof (Prim2SF_valid x) as Hv.
  destruct (Prim2SF x) as [s | s | | s m e]; try discriminate.
  - intros [= <-]. left. split; [lia | split; [discriminate | reflexivity]].
  - cbn zeta. cbn in Hv. unfold bounded, canonical_mantissa in Hv.
    apply andb_prop in Hv as [Hc _]. apply Z.eqb_eq in Hc.
    unfold fexp, SpecFloat.emin, prec, emax in Hc.
    pose proof (Pos2Z.is_pos (digits2_pos m)) as Hd.
    set (E := Z.max (Z.pos (digits2_pos m) + e - 37) (-1074)).
    assert (HE : E <= e + 16) by (subst E; lia).
    destruct (E <=? 971); [| discriminate]. intros [= <-].
    pose proof (magnitude_trunc (B64.shl (Z.to_nat (e + 16 - E)) m) E) as [Hb Hn].
    cbn zeta in Hb, Hn. rewrite (scaled_magnitude m e E HE) in Hb.
    set (a := if 0 <=? E then _ else _) in *.
    destruct s.
    + right. split; [lia |].
      change (inject_Z (Z.neg m)) with (inject_Z (- Z.pos m)).
      rewrite !inject_Z_opp. lra.
    + left. split; [lia | exact Hb].
Qed.

Lemma fix32_close (x : float) (v : Z) :
  B64.to_Z (x * B64.of_Z 65536) = inr v ->
  (Qabs (B64.to_Q x - inject_Z v / inject_Z 65536) < 1 # 65536)%Q.
Proof.
  intros Hv. apply fix32_is_truncation in Hv. unfold truncation_of in Hv.
  apply Qabs_Qlt_condition.
  change (inject_Z 65536) with (65536 # 1)%Q in *.
  unfold Qdiv. change (/ (65536 # 1))%Q with (1 # 65536)%Q.
  generalize dependent (B64.to_Q x). generalize (inject_Z v).
  intros z q [[_ H] | [_ H]]; split; lra.
Qed.

End Binary64.

(** *** C1 and C2 *)

(** C1, as the claim words it, fails: bytes 0-3 hold the value truncated toward
    zero, not rounded.  In the cycle below (a 100 x 100 region, a 5 x 5 target
    whose centre is 4 pixels right of the screen centre, speeds 9) [move_x] is
    0.72, [move_x * 65536] is 47185.92, whose nearest integer is 47186, and
    the payload holds 47185. *)
Lemma payload_truncates_where_the_claim_rounds :
  let run := Scenario.process (F:=float) (Scenario.self 100 100 true 9 [Scenario.pattern])
                              (Scenario.frame_with_block 962 538 5 5) in
  match fst run with
  | inr r =>
      rx r = f_mul (f_mul (f_of_Z 4) (f_lit 2 100)) (f_of_Z 9)
      /\ (Qabs (B64.to_Q (rx r) * inject_Z 65536 - inject_Z 47186) < 1 # 2)%Q
      /\ from_bytes (take 4 (gcvdata (snd run))) true = 47185
      /\ from_bytes (take 4 (gcvdata (snd run))) true <> 47186
  | inl _ => False
  end.
Proof. vm_compute. repeat split; discriminate. Qed.

(** C1, amended.  Whenever the fixed-point values [int(float(v) * 0x10000)] of
    both stick components exist and fit the signed 32-bit range, the encoder
    raises nothing and appends exactly 10 bytes to the output buffer,
    big-endian: bytes 0-3 are the two's complement of the fixed-point value of
    [move_x], which is [move_x * 65536] truncated toward zero, bytes 4-7 the
    same for [move_y], bytes 8-9 the unsigned identifier of the activation
    button.  Decoding the payload recovers the two fixed-point values and the
    identifier exactly, hence [move_x] and [move_y] to within 1/65536. *)
Theorem payload_holds_truncated_fixed_point :
  forall (rightStickX rightStickY : float) (settings : settings_module)
         (s : store float) (vx vy : Z),
    fixed rightStickX = inr vx -> fixed rightStickY = inr vy ->
    fits_int32 vx -> fits_int32 vy ->
    exists (bx by_ bb : list byte) (s' : store float),
      encode_payload rightStickX rightStickY settings s = (inr tt, s')
      /\ gcvdata s' = gcvdata s ++ bx ++ by_ ++ bb
      /\ List.length (bx ++ by_ ++ bb) = 10%nat
      /\ to_bytes vx 4 true = inr bx
      /\ to_bytes vy 4 true = inr by_
      /\ to_bytes (resolved_button_id settings) 2 false = inr bb
      /\ truncation_of (B64.to_Q rightStickX * inject_Z 65536) vx
      /\ truncation_of (B64.to_Q rightStickY * inject_Z 65536) vy
      /\ from_bytes bx true = vx
      /\ from_bytes by_ true = vy
      /\ from_bytes bb false = resolved_button_id settings
      /\ (Qabs (B64.to_Q rightStickX
                - inject_Z (from_bytes bx true) / inject_Z 65536) < 1 # 65536)%Q
      /\ (Qabs (B64.to_Q rightStickY
                - inject_Z (from_bytes by_ true) / inject_Z 65536) < 1 # 65536)%Q.
Proof.
  intros rx0 ry0 settings s vx vy Hx Hy Hfx Hfy.
  destruct (to_bytes_signed_4 vx Hfx) as (bx & Hbx & Hlx & Hdx).
  destruct (to_bytes_signed_4 vy Hfy) as (by_ & Hby & Hly & Hdy).
  destruct (to_bytes_unsigned_2 (resolved_button_id settings)) as (bb & Hbb & Hlb & Hdb).
  { pose proof (resolved_button_id_range settings). lia. }
  exists bx, by_, bb. eexists.
  split; [apply (encode_payload_completes _ _ _ _ vx vy bx by_ bb); assumption |].
  split; [reflexivity |].
  split; [rewrite !length_app, Hlx, Hly, Hlb; reflexivity |].
  rewrite Hdx, Hdy.
  do 3 (split; [assumption |]).
  do 2 (split; [now apply fix32_is_truncation |]).
  do 2 (split; [reflexivity |]).
  split; [assumption |].
  split; now apply fix32_close.
Qed.

(** The amended C1 at work: [move_x] = 0.72, [move_y] = -1.5, no
    [aimActivationButton] attribute. *)
Lemma payload_of_a_small_move :
  fixed (f_lit 72 100 : float) = inr 47185
  /\ fixed (f_lit (-15) 10 : float) = inr (-98304)
  /\ fits_int32 47185 /\ fits_int32 (-98304)
  /\ exists (bx by_ bb : list byte) (s' : store float),
       encode_payload (f_lit 72 100) (f_lit (-15) 10) (Attribute None)
                      (Scenario.fresh (Scenario.frame_with_block 0 0 0 0))
       = (inr tt, s')
       /\ gcvdata s'
          = gcvdata (Scenario.fresh (F:=float) (Scenario.frame_with_block 0 0 0 0))
            ++ bx ++ by_ ++ bb
       /\ List.length (bx ++ by_ ++ bb) = 10%nat
       /\ to_bytes 47185 4 true = inr bx
       /\ to_bytes (-98304) 4 true = inr by_
       /\ to_bytes (resolved_button_id (Attribute None)) 2 false = inr bb
       /\ truncation_of (B64.to_Q (f_lit 72 100) * inject_Z 65536) 47185
       /\ truncation_of (B64.to_Q (f_lit (-15) 10) * inject_Z 65536) (-98304)
       /\ from_bytes bx true = 47185
       /\ from_bytes by_ true = -98304
       /\ from_bytes bb false = resolved_button_id (Attribute None)
       /\ (Qabs (B64.to_Q (f_lit 72 100)
                 - inject_Z (from_bytes bx true) / inject_Z 65536) < 1 # 65536)%Q
       /\ (Qabs (B64.to_Q (f_lit (-15) 10)
                 - inject_Z (from_bytes by_ true) / inject_Z 65536) < 1 # 65536)%Q.
Proof.
  split; [vm_compute; reflexivity |].
  split; [vm_compute; reflexivity |].
  split; [unfold fits_int32; lia |].
  split; [unfold fits_int32; lia |].
  apply (payload_holds_truncated_fixed_point
           (f_lit 72 100) (f_lit (-15) 10) (Attribute None)
           (Scenario.fresh (Scenario.frame_with_block 0 0 0 0)) 47185 (-98304)).
  - vm_compute; reflexivity.
  - vm_compute; reflexivity.
  - unfold fits_int32; lia.
  - unfold fits_int32; lia.
Defined.

(** C2, as the claim words it, fails: in the cycle below (the same target, the
    speeds set to 1000000 in settings.py) [move_x] is 80000, its fixed-point
    value 5242880000 is beyond the signed 32-bit range, and [process] raises
    [OverflowError]: nothing is clamped, nothing is logged about it, and the
    output buffer stays empty. *)
Lemma overflowing_cycle_raises :
  let run := Scenario.process (F:=float) (Scenario.self 100 100 true 1000000 [Scenario.pattern])
                              (Scenario.frame_with_block 962 538 5 5) in
  fst run = inl OverflowError
  /\ gcvdata (snd run) = []
  /\ debug_log (snd run) = [LogFoundRaw 1; LogReduced 1 1]
  /\ fixed (f_mul (f_mul (f_of_Z 4) (f_lit 2 100)) (f_of_Z 1000000) : float)
     = inr 5242880000.
Proof. vm_compute. repeat split; reflexivity. Qed.

(** C2, amended.  The encoder never clamps.  When the fixed-point value of
    [move_x] does not exist (the float is infinite or NaN) or is outside the
    signed 32-bit range, it raises and leaves the store as it was: no byte is
    appended.  When that of [move_x] fits and that of [move_y] does not, it
    raises after appending the 4 bytes of [move_x], and logs nothing.  The
    exception is [OverflowError] whenever the value exists.  Exactly when both
    values fit, the cycle completes and the 10-byte payload is appended. *)
Theorem encoder_raises_on_overflow :
  forall (F : Type) (ops : PyFloat F) (rightStickX rightStickY : F)
         (settings : settings_module) (s : store F),
    let representable (v : F) : Prop :=
      exists n, fixed v = inr n /\ fits_int32 n in
    let run := encode_payload rightStickX rightStickY settings s in
    (~ representable rightStickX ->
       (exists e, fst run = inl e) /\ snd run = s
       /\ (forall n, fixed rightStickX = inr n -> fst run = inl OverflowError))
    /\ (representable rightStickX -> ~ representable rightStickY ->
        (exists e, fst run = inl e)
        /\ (exists bx, List.length bx = 4%nat
                       /\ gcvdata (snd run) = gcvdata s ++ bx)
        /\ debug_log (snd run) = debug_log s
        /\ (forall n, fixed rightStickY = inr n -> fst run = inl OverflowError))
    /\ (representable rightStickX -> representable rightStickY ->
        fst run = inr tt
        /\ exists payload, List.length payload = 10%nat
                           /\ gcvdata (snd run) = gcvdata s ++ payload).
Proof.
  intros F ops rx0 ry0 settings s representable run. subst representable run.
  split; [| split].
  - intros Hnx. destruct (fixed rx0) as [e | vx] eqn:Hx.
    + rewrite (encode_payload_x_raises _ _ _ _ e Hx).
      split; [now exists e | split; [reflexivity | discriminate]].
    + assert (Hfx : ~ fits_int32 vx) by (intros Hf; apply Hnx; now exists vx).
      rewrite (encode_payload_x_overflows _ _ _ _ vx Hx Hfx).
      split; [now exists OverflowError | split; reflexivity].
  - intros (vx & Hx & Hfx) Hny.
    destruct (to_bytes_signed_4 vx Hfx) as (bx & Hbx & Hlx & _).
    destruct (fixed ry0) as [e | vy] eqn:Hy.
    + rewrite (encode_payload_y_raises _ _ _ _ vx bx e Hx Hbx) by now left.
      cbn. split; [now exists e |]. split; [now exists bx |].
      split; [reflexivity | discriminate].
    + assert (Hfy : ~ fits_int32 vy) by (intros Hf; apply Hny; now exists vy).
      rewrite (encode_payload_y_raises _ _ _ _ vx bx OverflowError Hx Hbx)
        by (right; now exists vy).
      cbn. split; [now exists OverflowError |]. split; [now exists bx |].
      split; reflexivity.
  - intros (vx & Hx & Hfx) (vy & Hy & Hfy).
    destruct (to_bytes_signed_4 vx Hfx) as (bx & Hbx & Hlx & _).
    destruct (to_bytes_signed_4 vy Hfy) as (by_ & Hby & Hly & _).
    destruct (to_bytes_unsigned_2 (resolved_button_id settings))
      as (bb & Hbb & Hlb & _).
    { pose proof (resolved_button_id_range settings). lia. }
    rewrite (encode_payload_completes _ _ _ _ vx vy bx by_ bb Hx Hbx Hy Hby Hbb).
    cbn. split; [reflexivity |]. exists (bx ++ by_ ++ bb).
    split; [rewrite !length_app, Hlx, Hly, Hlb |]; reflexivity.
Qed.

(* ===================================================================== *)
(** ** Drawing and detection share the frame array (C9) *)
(* ===================================================================== *)

(** C9 does not hold of the code.  [final] is the frame array itself and
    [img0] is a view of it, and the outline of the region is drawn before the
    detector reads the view: it overwrites row 0 and column 0 of the
    detector's input with white.  The frame below is black but for a 5 x 5
    block of target colour in the top-left corner of the 100 x 100 region.
    With [showBoundingBox] set, what is left of the block is 4 x 4, below the
    minimum size: nothing is detected, no target is selected, the output is
    (0, 0).  With it cleared, the block is detected and the output is
    (-8.64, -8.64). *)
Theorem bounding_box_outline_feeds_back_into_detection :
  let img := Scenario.frame_with_block 910 490 5 5 in
  let shown := Scenario.predict (F:=float) (Scenario.self 100 100 true 9 [Scenario.pattern]) img in
  let hidden := Scenario.predict (F:=float) (Scenario.self 100 100 false 9 [Scenario.pattern]) img in
  match fst shown, fst hidden with
  | inr a, inr b =>
      ROI a = (910, 490, 1010, 590) /\ ROI b = ROI a /\ img0 b = img0 a
      /\ detected_objects a = []
      /\ best_target a = None
      /\ (rx a, ry a) = (0%float, 0%float)
      /\ debug_log (snd shown) = [LogFiltered 4 4 5 12 5 12]
      /\ detected_objects b = [detection_of (CCStat 0 0 5 5 25)]
      /\ best_target b = Some (detection_of (CCStat 0 0 5 5 25))
      /\ target_center b = Some (912, 492)
      /\ rx b = f_mul (f_mul (f_of_Z (-48)) (f_lit 2 100)) (f_of_Z 9)
      /\ ry b = f_mul (f_mul (f_of_Z (-48)) (f_lit 2 100)) (f_of_Z 9)
      /\ PrimFloat.ltb (rx b) (-8.6)%float = true
  | _, _ => False
  end.
Proof. vm_compute. repeat split; reflexivity. Qed.

(* ===================================================================== *)
(** ** Further properties of the pipeline *)
(* ===================================================================== *)

Section More.

Context {F : Type} {float_ops : PyFloat F}.
Variable cc : mask -> option (list cc_stat).
Variable raster : draw_cmd F -> Z -> Z -> bool.

(** [process] is the watermark and [predict], then the encoder on the vector
    that [predict] returned. *)
Lemma process_run text_size (self : Self F) settings b5 b7 b9 (s : store F) :
  process cc text_size raster self settings b5 b7 b9 s
  = match watermark_and_predict cc text_size raster self b5 b7 b9 s with
    | (inr r, s1) =>
        match encode_payload (rx r) (ry r) settings s1 with
        | (inr _, s2) => (inr r, s2)
        | (inl e, s2) => (inl e, s2)
        end
    | (inl e, s1) => (inl e, s1)
    end.
Proof.
  unfold process, watermark_and_predict, bind.
  destruct (draw _ s) as [[e | []] s0]; [reflexivity |].
  destruct (predict _ _ _ _ _ _ s0) as [[e | r] s1]; [reflexivity |].
  destruct (encode_payload _ _ _ s1) as [[e | []] s2]; reflexivity.
Qed.

Lemma watermark_and_predict_same_gcvdata text_size (self : Self F) b5 b7 b9 :
  preserves same_gcvdata (watermark_and_predict cc text_size raster self b5 b7 b9).
Proof.
  unfold watermark_and_predict. apply preserves_bind.
  - unfold same_gcvdata. intros s1 s2 s3 H1 H2. congruence.
  - intros s. reflexivity.
  - intros _. apply predict_same_gcvdata.
Qed.

(** Every cycle whose two fixed-point values fit the signed 32-bit range
    completes and leaves the output buffer longer by exactly the 10 bytes of
    its payload: [predict] and the watermark never write to the buffer. *)
Theorem cycle_in_range_appends_ten_bytes :
  forall text_size (self : Self F) settings (button_5 button_7 button_9 : Z)
         (s : store F),
    returns (watermark_and_predict cc text_size raster self
                                   button_5 button_7 button_9)
      (fun r _ =>
         forall vx vy,
           fixed (rx r) = inr vx -> fixed (ry r) = inr vy ->
           fits_int32 vx -> fits_int32 vy ->
           let run := process cc text_size raster self settings
                              button_5 button_7 button_9 s in
           exists payload,
             fst run = inr r
             /\ gcvdata (snd run) = gcvdata s ++ payload
             /\ List.length payload = 10%nat
             /\ from_bytes (take 4 payload) true = vx
             /\ from_bytes (take 4 (drop 4 payload)) true = vy
             /\ from_bytes (drop 8 payload) false = resolved_button_id settings) s.
Proof.
  intros text_size self settings b5 b7 b9 s.
  pose proof (watermark_and_predict_same_gcvdata text_size self b5 b7 b9 s) as Hw.
  apply returns_run in Hw as (r & s1 & Hrun & Hg). unfold same_gcvdata in Hg.
  unfold returns. rewrite Hrun.
  intros vx vy Hx Hy Hfx Hfy. cbn zeta.
  destruct (to_bytes_signed_4 vx Hfx) as (bx & Hbx & Hlx & Hdx).
  destruct (to_bytes_signed_4 vy Hfy) as (by_ & Hby & Hly & Hdy).
  destruct (to_bytes_unsigned_2 (resolved_button_id settings))
    as (bb & Hbb & Hlb & Hdb).
  { pose proof (resolved_button_id_range settings). lia. }
  rewrite process_run, Hrun.
  rewrite (encode_payload_completes _ _ _ _ vx vy bx by_ bb Hx Hbx Hy Hby Hbb).
  cbn [fst snd gcvdata]. exists (bx ++ by_ ++ bb).
  split; [reflexivity |]. split; [now rewrite Hg |].
  split; [rewrite !length_app, Hlx, Hly, Hlb; reflexivity |].
  rewrite take_app_length' by (symmetry; exact Hlx).
  rewrite drop_app_length' by (symmetry; exact Hlx).
  rewrite take_app_length' by (symmetry; exact Hly).
  change 8%nat with (4 + 4)%nat.
  rewrite <- drop_drop, drop_app_length' by (symmetry; exact Hlx).
  rewrite drop_app_length' by (symmetry; exact Hly). auto.
Qed.

Lemma predict_result_eq (r1 r2 : predict_result F) :
  ROI r1 = ROI r2 -> img0 r1 = img0 r2 ->
  detected_objects r1 = detected_objects r2 ->
  best_target r1 = best_target r2 -> target_center r1 = target_center r2 ->
  lock_vector r1 = lock_vector r2 -> rx r1 = rx r2 -> ry r1 = ry r2 ->
  r1 = r2.
Proof. destruct r1, r2. cbn. congruence. Qed.

(** The overlays drawn after detection (highlights, ESP lines and boxes,
    distance texts, crosshair, lock visuals) never reach the detector: whatever
    the overlay switches, [predict] returns the same region, detections,
    target and vector. *)
Theorem overlays_after_detection_do_not_feed_back :
  forall (self : Self F) (lines box crosshair text location : bool)
         (button_5 button_7 button_9 : Z) (s : store F),
    fst (predict cc raster (set_overlays lines box crosshair text location self)
                 button_5 button_7 button_9 s)
    = fst (predict cc raster self button_5 button_7 button_9 s).
Proof.
  intros self l b c t e b5 b7 b9 s.
  pose proof (predict_returns cc raster (set_overlays l b c t e self) b5 b7 b9 s) as H1.
  pose proof (predict_returns cc raster self b5 b7 b9 s) as H2.
  unfold returns in H1, H2.
  destruct (predict cc raster (set_overlays l b c t e self) b5 b7 b9 s)
    as [[e1 | r1] s1]; [destruct H1 |].
  destruct (predict cc raster self b5 b7 b9 s) as [[e2 | r2] s2]; [destruct H2 |].
  cbn [fst]. f_equal.
  destruct H1 as (Hroi1 & Himg1 & Hdet1 & Hbest1 & Hrest1).
  destruct H2 as (Hroi2 & Himg2 & Hdet2 & Hbest2 & Hrest2).
  change (detection_region _ _ _ _)
    with (detection_region (cached_bbox_width self) (cached_bbox_height self)
                           (cached_adaptiveBoundingBox self) b7) in Hroi1.
  assert (Hroi : ROI r1 = ROI r2) by congruence.
  assert (Himg : img0 r1 = img0 r2) by congruence.
  rewrite Himg in Hdet1.
  change (fst (detect_with_pxd_patterns cc raster self (img0 r2)
                 (store_at_detection self b7 s)) = inr (detected_objects r1))
    in Hdet1.
  assert (Hdet : detected_objects r1 = detected_objects r2) by congruence.
  assert (Hbest : best_target r1 = best_target r2) by congruence.
  rewrite Hbest, Hroi in Hrest1.
  destruct (best_target r2) as [target |] eqn:Hb2.
  - assert (Hsame :
      let p := aim_point self (ROI r2) target in
      let locked := perfect_target_lock (fst p) (snd p) (cached_speedX self)
                                        (cached_speedY self) in
      target_center r1 = Some p /\ lock_vector r1 = Some locked
      /\ (rx r1, ry r1)
         = manual_override (cached_manualOveride self) b9
                           (cached_manualOverridePercentage self) locked)
      by exact Hrest1.
    cbn zeta in Hsame, Hrest2.
    destruct Hsame as (Htc1 & Hlv1 & Hv1), Hrest2 as (Htc2 & Hlv2 & Hv2).
    rewrite <- Hv2 in Hv1. injection Hv1 as Hx Hy.
    apply predict_result_eq; congruence.
  - destruct Hrest1 as (Htc1 & Hlv1 & Hx1 & Hy1), Hrest2 as (Htc2 & Hlv2 & Hx2 & Hy2).
    apply predict_result_eq; congruence.
Qed.

(** The temporal history only records: [apply_temporal_filtering] hands the
    detection set back unchanged, appends it to the history, and the history
    never holds more than 5 sets. *)
Theorem temporal_history_records_only :
  forall (current_detections : list (Detection F)) (s : store F),
    let run := apply_temporal_filtering current_detections s in
    fst run = inr current_detections
    /\ last (detection_history (snd run)) = Some current_detections
    /\ (List.length (detection_history (snd run)) <= 5)%nat
    /\ (exists k, detection_history (snd run)
                  = drop k (detection_history s) ++ [current_detections])
    /\ frame (snd run) = frame s /\ gcvdata (snd run) = gcvdata s
    /\ debug_log (snd run) = debug_log s.
Proof.
  intros l s.
  assert (Hrun : apply_temporal_filtering l s
                 = (inr l, {| frame := frame s;
                              detection_history :=
                                drop (List.length (detection_history s ++ [l]) - 5)
                                     (detection_history s ++ [l]);
                              gcvdata := gcvdata s;
                              debug_log := debug_log s |}))
    by (destruct l; reflexivity).
  cbn zeta. rewrite Hrun. cbn [fst snd frame detection_history gcvdata debug_log].
  set (h := detection_history s).
  assert (Hle : (List.length (h ++ [l]) - 5 <= List.length h)%nat)
    by (rewrite length_app; cbn; lia).
  rewrite drop_app_le by exact Hle.
  split; [reflexivity |]. split; [apply last_snoc |].
  split; [rewrite length_app, length_drop, length_app; cbn; lia |].
  split; [eexists; reflexivity | auto].
Qed.

(** Target selection: the target is the first detection of greatest area in
    the consolidated set, and the point aimed at is the centre of its
    rectangle moved by the region's origin and by the aim offset. *)
Theorem target_is_first_largest_detection :
  forall (self : Self F) (button_5 button_7 button_9 : Z) (s : store F),
    returns (predict cc raster self button_5 button_7 button_9)
      (fun r _ =>
         (best_target r = None <-> detected_objects r = [])
         /\ forall target, best_target r = Some target ->
              first_of_max_area target (detected_objects r)
              /\ let '(x1, y1, x2, y2) := coords target in
                 let '(X1, Y1, _, _) := ROI r in
                 target_center r
                 = Some (Z.quot (x1 + X1 + (x2 + X1)) 2 + cached_aimOffsetX self,
                         Z.quot (y1 + Y1 + (y2 + Y1)) 2 + cached_aimOffsetY self)) s.
Proof.
  intros self b5 b7 b9 s.
  eapply returns_mono; [apply predict_returns |].
  intros r _ (_ & _ & _ & Hbest & Hrest). split.
  - rewrite Hbest. destruct (detected_objects r); cbn; split; congruence.
  - intros target Ht. rewrite Ht in Hrest, Hbest. cbn zeta in Hrest.
    destruct Hrest as (Htc & _). split.
    + now apply py_max_first_of_max_area.
    + unfold aim_point in Htc.
      destruct (coords target) as [[[x1 y1] x2] y2].
      destruct (ROI r) as [[[X1 Y1] X2] Y2]. exact Htc.
Qed.

End More.

Lemma exact_lit_half : (f_lit 5 10 : Q) = (1 # 2)%Q.
Proof. reflexivity. Qed.

Lemma exact_lit_step : (f_lit 2 100 : Q) = (1 # 50)%Q.
Proof. reflexivity. Qed.

Lemma Zcompare_0_mul_pos (d k : Z) : 0 < k -> (0 ?= d * k) = (0 ?= d).
Proof.
  intros Hk. destruct (Z.compare_spec 0 d) as [<- | Hd | Hd].
  - reflexivity.
  - apply Z.compare_lt_iff. nia.
  - apply Z.compare_gt_iff. nia.
Qed.

(** In exact arithmetic the unfloored component [delta * 0.02 * speed] has the
    sign of [delta] when the speed is positive. *)
Lemma exact_axis_sign (d sp : Z) :
  0 < sp ->
  Qcompare 0 (f_mul (f_mul (f_of_Z d) (f_lit 2 100)) (f_of_Z sp) : Q)
  = Z.compare 0 d.
Proof.
  intros Hsp. rewrite exact_lit_step. cbn [f_mul f_of_Z exact].
  unfold Exact.mul, Exact.of_Z.
  rewrite (Qcompare_comp 0%Q 0%Q (Qeq_refl 0%Q) _
             (inject_Z d * (1 # 50) * inject_Z sp)%Q).
  - unfold Qcompare. cbn. rewrite Z.mul_1_r, Z.mul_1_r.
    now apply Zcompare_0_mul_pos.
  - rewrite Qred_correct. now rewrite Qred_correct.
Qed.

(** Direction preservation, in exact arithmetic and for positive speeds: from
    a distance of 2 pixels on, each axis of the lock vector has the sign of
    its delta. *)
Theorem lock_vector_keeps_direction :
  forall (target_x target_y speedX speedY : Z),
    0 < speedX -> 0 < speedY ->
    4 <= (target_x - 960) ^ 2 + (target_y - 540) ^ 2 ->
    let v : Q * Q := perfect_target_lock target_x target_y speedX speedY in
    Qcompare 0 (fst v) = Z.compare 0 (target_x - 960)
    /\ Qcompare 0 (snd v) = Z.compare 0 (target_y - 540).
Proof.
  intros tx ty sx sy Hsx Hsy Hd. cbn zeta.
  rewrite (perfect_target_lock_far _ _ _ _ Hd). cbn [fst snd].
  assert (Haxis : forall d sp, 0 < sp ->
            Qcompare 0 (lock_axis (F:=Q) d sp) = Z.compare 0 d).
  { intros d sp Hsp. unfold lock_axis.
    destruct (_ && _) eqn:Hfloor; [| now apply exact_axis_sign].
    apply andb_prop in Hfloor as [_ Hfar]. rewrite exact_lit_half in *.
    cbn [f_lt f_of_Z exact] in Hfar. unfold Exact.lt, Exact.of_Z in Hfar.
    apply negb_true_iff in Hfar.
    assert (Hnz : d <> 0).
    { intros ->. cbn in Hfar. discriminate. }
    destruct (Z.ltb_spec 0 d) as [Hpos | Hneg].
    - rewrite (proj2 (Z.compare_lt_iff 0 d) Hpos). reflexivity.
    - rewrite (proj2 (Z.compare_gt_iff 0 d)) by lia. reflexivity. }
  split; apply Haxis; assumption.
Qed.

(** The direction is kept at a target 3 pixels left of and 40 below the centre. *)
Lemma lock_vector_keeps_direction_example :
  0 < 9 /\ 0 < 9 /\ 4 <= (957 - 960) ^ 2 + (580 - 540) ^ 2
  /\ Qcompare 0 (fst (perfect_target_lock 957 580 9 9 : Q * Q))
     = Z.compare 0 (957 - 960)
  /\ Qcompare 0 (snd (perfect_target_lock 957 580 9 9 : Q * Q))
     = Z.compare 0 (580 - 540).
Proof.
  split; [lia |]. split; [lia |]. split; [lia |].
  apply (lock_vector_keeps_direction 957 580 9 9); lia.
Defined.

(** Scenario 1 of the design document, end to end in binary64: a region of
    720 x 480 centred at (960, 540) and an 8 x 8 square of target colour
    centred at (970, 545) give one detection of area 64 whose centre is
    (970, 545) in frame coordinates, and the vector (1.8, 0.9). *)
Example scenario_one_square_in_default_region :
  match fst (Scenario.predict (F:=float)
               (Scenario.self 720 480 true 9 [Scenario.pattern])
               (Scenario.frame_with_block 966 541 8 8)) with
  | inr r =>
      ROI r = (600, 300, 1320, 780)
      /\ detected_objects r = [detection_of (CCStat 366 241 8 8 64)]
      /\ target_center r = Some (970, 545)
      /\ rx r = f_mul (f_mul (f_of_Z 10) (f_lit 2 100)) (f_of_Z 9)
      /\ ry r = f_mul (f_mul (f_of_Z 5) (f_lit 2 100)) (f_of_Z 9)
  | inl _ => False
  end.
Proof. vm_compute. repeat split; reflexivity. Qed.

(** The encoder's scaling is exact in binary64: whenever [int(float(v) *
    0x10000)] returns, the integer is the real product truncated toward
    zero, so no rounding happens in the multiplication itself. *)
Theorem scaling_by_65536_is_exact (x : float) (v : Z) :
  fixed x = inr v ->
  truncation_of (B64.to_Q x * inject_Z 65536) v.
Proof. intros Hv. apply fix32_is_truncation. exact Hv. Qed.

Lemma scaling_by_65536_is_exact_example :
  fixed (f_lit 72 100 : float) = inr 47185
  /\ truncation_of (B64.to_Q (f_lit 72 100) * inject_Z 65536) 47185.
Proof.
  split; [vm_compute; reflexivity |].
  apply (scaling_by_65536_is_exact (f_lit 72 100) 47185).
  vm_compute. reflexivity.
Defined.
(* ===================================================================== *)
(** ** Running the refresh methods *)
(* ===================================================================== *)

Section Refresh_run.

Context {F : Type}.
Implicit Types (h : Helper F).

Lemma run_bind_bind {A B C} (c : U F A) (k1 : A -> U F B) (k2 : B -> U F C) h :
  u_bind (u_bind c k1) k2 h = u_bind c (fun a => u_bind (k1 a) k2) h.
Proof. unfold u_bind. destruct (c h) as [[a |] h']; reflexivity. Qed.

Lemma run_assign {B} (f : Helper F -> Helper F) (k : unit -> U F B) h :
  u_bind (assign f) k h = k tt (f h).
Proof. reflexivity. Qed.

Lemma run_this {B} (k : Helper F -> U F B) h : u_bind this k h = k h h.
Proof. reflexivity. Qed.

Lemma run_ret {A B} (a : A) (k : A -> U F B) h : u_bind (u_ret a) k h = k a h.
Proof. reflexivity. Qed.

Lemma run_lift_Some {A B} (a : A) (k : A -> U F B) h :
  u_bind (u_lift (Some a)) k h = k a h.
Proof. reflexivity. Qed.

Lemma run_lift_None {A B} (k : A -> U F B) h :
  u_bind (u_lift None) k h = (None, h).
Proof. reflexivity. Qed.

Lemma run_raise {A B} (k : A -> U F B) h : u_bind u_raise k h = (None, h).
Proof. reflexivity. Qed.

Lemma run_assign_end (f : Helper F -> Helper F) h : assign f h = (Some tt, f h).
Proof. reflexivity. Qed.

Lemma run_ret_end {A} (a : A) h : u_ret a h = (Some a, h).
Proof. reflexivity. Qed.

Lemma run_raise_end {A} h : u_raise (A:=A) h = (None, h).
Proof. reflexivity. Qed.

Lemma run_lift_end {A} (o : option A) h : u_lift o h = (o, h).
Proof. reflexivity. Qed.

Lemma run_bind_eq {A B} (c : U F A) (k : A -> U F B) h a h' :
  c h = (Some a, h') -> u_bind c k h = k a h'.
Proof. intros H. unfold u_bind. rewrite H. reflexivity. Qed.

Lemma run_try (body handler : U F unit) h :
  try_except body handler h
  = match body h with
    | (Some a, h') => (Some a, h')
    | (None, h') => handler h'
    end.
Proof. reflexivity. Qed.

Lemma run_try_bind {B} (body handler : U F unit) (k : unit -> U F B) h :
  u_bind (try_except body handler) k h
  = match body h with
    | (Some a, h') => k a h'
    | (None, h') => u_bind handler k h'
    end.
Proof. unfold u_bind, try_except. destruct (body h) as [[a |] h']; reflexivity. Qed.

End Refresh_run.

Ltac u_unfold :=
  unfold set_attrs, set_cached_settings, set_last_settings_check,
    set_last_file_mtime, set_cached_color, set_active_pxd_file,
    set_last_pxd_check, u_log, attribute, item, unload_pxd_files.

Ltac u_step :=
  first [ rewrite run_bind_bind | rewrite run_assign | rewrite run_this
        | rewrite run_ret | rewrite run_lift_Some | rewrite run_lift_None
        | rewrite run_raise | rewrite run_try_bind | rewrite run_try
        | rewrite run_assign_end | rewrite run_ret_end
        | rewrite run_raise_end | rewrite run_lift_end ];
  cbn [attrs cached_settings last_settings_check last_file_mtime cached_color
       active_pxd_file last_pxd_check helper_log fst snd
       with_attrs with_cached_settings with_last_settings_check
       with_last_file_mtime with_cached_color with_active_pxd_file
       with_last_pxd_check with_log].

Ltac u_run := u_unfold; repeat u_step.

(** Explore the attribute accesses of a body one after the other. *)
Ltac u_cases :=
  u_run;
  repeat (match goal with
          | |- context [u_lift (?l !! _)] =>
              is_var l; destruct l; cbn [lookup list_lookup]
          | |- context [u_lift ?o] => is_var o; destruct o
          | |- context [u_lift ?o] => destruct o eqn:?
          end; u_run).

(* ===================================================================== *)
(** ** The settings reload *)
(* ===================================================================== *)

Section Refresh_facts.

Context {F : Type} {float_ops : PyFloat F}.
Implicit Types (h : Helper F) (st : settings_py F).

Lemma ltb_irrefl (x : float) : PrimFloat.ltb x x = false.
Proof.
  rewrite ltb_spec. unfold SFltb, SFcompare.
  destruct (Prim2SF x) as [[] | [] | | [] m e]; try reflexivity;
    rewrite Z.compare_refl, Pos.compare_cont_refl; reflexivity.
Qed.

(** A call within the check interval reads nothing and changes nothing. *)
Lemma get_fresh_settings_throttled h t file :
  PrimFloat.ltb settings_check_interval
                (PrimFloat.sub t (last_settings_check h)) = false ->
  get_fresh_settings t file h = (Some (cached_settings h), h).
Proof.
  intros Ht. unfold get_fresh_settings. rewrite run_this, Ht. reflexivity.
Qed.

(** A file that is not newer than the last one read is left alone. *)
Lemma get_fresh_settings_same_file h t m md :
  PrimFloat.ltb settings_check_interval
                (PrimFloat.sub t (last_settings_check h)) = true ->
  PrimFloat.ltb (last_file_mtime h) m = false ->
  get_fresh_settings t (SettingsFile m md) h
  = (Some (cached_settings h),
     {| attrs := attrs h;
        cached_settings := cached_settings h;
        last_settings_check := t;
        last_file_mtime := last_file_mtime h;
        cached_color := cached_color h;
        active_pxd_file := active_pxd_file h;
        last_pxd_check := last_pxd_check h;
        helper_log := helper_log h |}).
Proof.
  intros Ht Hm. unfold get_fresh_settings. rewrite run_this, Ht.
  u_run. rewrite Hm. u_run. reflexivity.
Qed.

(** Whatever happens in a call that passes the throttle, the file's
    modification time is not newer than the recorded one afterwards. *)
Lemma get_fresh_settings_records_mtime h t m md :
  PrimFloat.ltb settings_check_interval
                (PrimFloat.sub t (last_settings_check h)) = true ->
  PrimFloat.ltb
    (last_file_mtime (snd (get_fresh_settings t (SettingsFile m md) h))) m
  = false.
Proof.
  intros Ht.
  destruct (PrimFloat.ltb (last_file_mtime h) m) eqn:Hm.
  - unfold get_fresh_settings. rewrite run_this, Ht.
    u_run. rewrite Hm. destruct md as [st |]; u_cases; apply ltb_irrefl.
  - rewrite get_fresh_settings_same_file by assumption. exact Hm.
Qed.



(** The settings file is read at most once per modification time: after a
    call that passed the throttle, a later call that finds a file of the same
    modification time changes no cached setting and logs nothing, whatever
    that file holds and even when the first reload failed half-way. *)
Theorem settings_file_read_once_per_mtime h t1 t2 m md1 md2 :
  PrimFloat.ltb settings_check_interval
                (PrimFloat.sub t1 (last_settings_check h)) = true ->
  let h1 := snd (get_fresh_settings t1 (SettingsFile m md1) h) in
  let r2 := get_fresh_settings t2 (SettingsFile m md2) h1 in
  fst r2 = Some (cached_settings h1)
  /\ attrs (snd r2) = attrs h1
  /\ cached_settings (snd r2) = cached_settings h1
  /\ cached_color (snd r2) = cached_color h1
  /\ helper_log (snd r2) = helper_log h1.
Proof.
  intros Ht h1 r2. subst r2.
  pose proof (get_fresh_settings_records_mtime h t1 m md1 Ht) as Hseen.
  fold h1 in Hseen.
  destruct (PrimFloat.ltb settings_check_interval
                          (PrimFloat.sub t2 (last_settings_check h1))) eqn:Ht2.
  - rewrite get_fresh_settings_same_file by assumption.
    cbn. repeat split; reflexivity.
  - rewrite get_fresh_settings_throttled by assumption.
    cbn. repeat split; reflexivity.
Qed.

End Refresh_facts.



Lemma settings_file_read_once_example :
  let h : Helper float := __init__ in
  let st : settings_py float :=
    {| boundingBoxWidth := Some 800; boundingBoxHeight := None;
       boundingBoxColor := None;
       showBoundingBox := Some false; adaptiveBoundingBox := Some true;
       manualOveride := Some false; speedX := Some 20; speedY := Some 30;
       aimSmoothing := Some false; colorConfidence := None;
       aimOffsetX := Some 30; aimOffsetY := None;
       manualOverridePercentage := Some 75 |} in
  let h1 := snd (get_fresh_settings 1000 (SettingsFile 5 (Some st)) h) in
  PrimFloat.ltb settings_check_interval
                (PrimFloat.sub 1000 (last_settings_check h)) = true
  /\ attrs (snd (get_fresh_settings 2000 (SettingsFile 5 None) h1)) = attrs h1.
Proof.
  cbn zeta. split; [reflexivity |].
  exact (proj1 (proj2 (settings_file_read_once_per_mtime (F:=float)
                         __init__ 1000 2000 5 _ None eq_refl))).
Defined.

(* ===================================================================== *)
(** ** The pattern control *)
(* ===================================================================== *)

Section Pxd_facts.

Context {F : Type} {float_ops : PyFloat F}.
Variable join : string -> string -> string.
Variable basename : string -> string.

Implicit Types (h : Helper F).

(** [load_single_pxd_file] in closed form: one pattern when the file parses
    to a JSON object, none (and an error line) otherwise. *)
Lemma load_single_pxd_file_run pxd_file filepath h :
  load_single_pxd_file basename pxd_file filepath h
  = (Some tt,
     match pxd_file filepath with
     | Some (JObj _) =>
         with_attrs
           (set_pxd_patterns
              [{| color_lower_bgr := (61, 0, 102);
                  color_upper_bgr := (255, 45, 254);
                  size_width := (5, 12);
                  size_height := (5, 12);
                  source_file := basename filepath |}]) h
     | _ =>
         with_log (LogPxdLoadError filepath)
                  (with_attrs (set_pxd_patterns []) h)
     end).
Proof.
  unfold load_single_pxd_file. u_run.
  destruct (pxd_file filepath) as [[] |]; u_run; reflexivity.
Qed.

(** A check within the interval reads nothing and changes nothing. *)
Lemma check_pxd_control_throttled h t control pxd_file :
  PrimFloat.ltb pxd_check_interval (PrimFloat.sub t (last_pxd_check h)) = false ->
  check_pxd_control join basename t control pxd_file h = (Some tt, h).
Proof.
  intros Ht. unfold check_pxd_control. rewrite run_this, Ht. reflexivity.
Qed.

(** A check that passes the throttle, with a readable control file. *)
Lemma check_pxd_control_run h t cd new_pxd_file pxd_directory pxd_file :
  PrimFloat.ltb pxd_check_interval (PrimFloat.sub t (last_pxd_check h)) = true ->
  dict_get cd "active_pxd_file" JNull = Some new_pxd_file ->
  dict_get cd "pxd_directory" (JStr default_pxd_directory) = Some pxd_directory ->
  check_pxd_control join basename t (Present (Some cd)) pxd_file h
  = (Some tt,
     let h0 := with_last_pxd_check t h in
     if differs new_pxd_file (active_pxd_file h) then
       if truthy new_pxd_file then
         match pxd_directory, new_pxd_file with
         | JStr directory, JStr name =>
             with_log (LogPxdLoaded name)
               (with_active_pxd_file (Some name)
                  (snd (load_single_pxd_file basename pxd_file
                          (join directory name) h0)))
         | _, _ => with_log LogPxdControlError h0
         end
       else
         with_log LogPxdUnloaded
           (with_active_pxd_file None
              (with_log LogAllUnloaded
                 (with_attrs (set_pxd_patterns []) h0)))
     else h0).
Proof.
  intros Ht Hnew Hdir.
  unfold check_pxd_control. rewrite run_this, Ht. u_run.
  rewrite Hnew, Hdir. u_run.
  destruct (differs _ _); u_run; [| reflexivity].
  destruct (truthy _); u_run; [| reflexivity].
  destruct pxd_directory; u_run; try reflexivity.
  destruct new_pxd_file; u_run; try reflexivity.
  erewrite run_bind_eq by apply load_single_pxd_file_run.
  rewrite load_single_pxd_file_run. u_run. reflexivity.
Qed.

Lemma check_pxd_control_missing h t pxd_file :
  PrimFloat.ltb pxd_check_interval (PrimFloat.sub t (last_pxd_check h)) = true ->
  check_pxd_control join basename t Missing pxd_file h
  = (Some tt,
     let h0 := with_last_pxd_check t h in
     match active_pxd_file h with
     | Some _ =>
         with_log LogPxdUnloadedNoControl
           (with_active_pxd_file None
              (with_log LogAllUnloaded
                 (with_attrs (set_pxd_patterns []) h0)))
     | None => h0
     end).
Proof.
  intros Ht. unfold check_pxd_control. rewrite run_this, Ht. u_run.
  destruct (active_pxd_file h); u_run; reflexivity.
Qed.

(** A control file that cannot be read, or does not hold an object. *)
Lemma check_pxd_control_unreadable h t content pxd_file :
  PrimFloat.ltb pxd_check_interval (PrimFloat.sub t (last_pxd_check h)) = true ->
  match content with Some (JObj _) => False | _ => True end ->
  check_pxd_control join basename t (Present content) pxd_file h
  = (Some tt, with_log LogPxdControlError (with_last_pxd_check t h)).
Proof.
  intros Ht Hc. unfold check_pxd_control. rewrite run_this, Ht. u_run.
  destruct content as [[] |]; try contradiction; cbn [dict_get]; u_run;
    reflexivity.
Qed.

(** [get_fresh_settings] assigns nothing of the pattern control and none of
    the overlay switches. *)
Lemma get_fresh_settings_frame h t file :
  let h' := snd (get_fresh_settings t file h) in
  pxd_patterns (attrs h') = pxd_patterns (attrs h)
  /\ active_pxd_file h' = active_pxd_file h
  /\ last_pxd_check h' = last_pxd_check h
  /\ cached_esp_lines_enabled (attrs h') = cached_esp_lines_enabled (attrs h)
  /\ cached_esp_box_enabled (attrs h') = cached_esp_box_enabled (attrs h)
  /\ cached_crosshair_enabled (attrs h') = cached_crosshair_enabled (attrs h)
  /\ cached_show_distance_text (attrs h') = cached_show_distance_text (attrs h)
  /\ cached_enemy_location_enabled (attrs h')
     = cached_enemy_location_enabled (attrs h).
Proof.
  cbn zeta.
  destruct (PrimFloat.ltb settings_check_interval
                          (PrimFloat.sub t (last_settings_check h))) eqn:Ht.
  2: { rewrite get_fresh_settings_throttled by assumption.
       cbn. repeat split; reflexivity. }
  unfold get_fresh_settings. rewrite run_this, Ht. u_run.
  destruct file as [| m md]; u_run; [cbn; repeat split; reflexivity |].
  destruct (PrimFloat.ltb (last_file_mtime h) m); u_run;
    [| cbn; repeat split; reflexivity].
  destruct md as [st |]; u_run; [| cbn; repeat split; reflexivity].
  destruct (boundingBoxColor st) as [[| c0 [| c1 [| c2 rest]]] |];
    u_run; cbn [lookup list_lookup]; u_run;
    try (cbn; repeat split; reflexivity).
  destruct (showBoundingBox st); u_run; [| cbn; repeat split; reflexivity].
  destruct (adaptiveBoundingBox st); u_run; [| cbn; repeat split; reflexivity].
  destruct (manualOveride st); u_run; [| cbn; repeat split; reflexivity].
  destruct (speedX st); u_run; [| cbn; repeat split; reflexivity].
  destruct (speedY st); u_run; [| cbn; repeat split; reflexivity].
  destruct (aimSmoothing st); u_run; cbn; repeat split; reflexivity.
Qed.

(** What a check can make of the patterns and of the active file: nothing;
    or no pattern and no active file; or an active file with a non-empty name
    and either no pattern or the one pattern of fixed colours and sizes. *)
Lemma check_pxd_control_outcome h t control pxd_file :
  let h' := snd (check_pxd_control join basename t control pxd_file h) in
  (pxd_patterns (attrs h') = pxd_patterns (attrs h)
   /\ active_pxd_file h' = active_pxd_file h)
  \/ (pxd_patterns (attrs h') = [] /\ active_pxd_file h' = None)
  \/ (exists name source,
        name <> ""%string
        /\ active_pxd_file h' = Some name
        /\ (pxd_patterns (attrs h') = []
            \/ pxd_patterns (attrs h')
               = [{| color_lower_bgr := (61, 0, 102);
                     color_upper_bgr := (255, 45, 254);
                     size_width := (5, 12);
                     size_height := (5, 12);
                     source_file := source |}])).
Proof.
  cbn zeta.
  destruct (PrimFloat.ltb pxd_check_interval
                          (PrimFloat.sub t (last_pxd_check h))) eqn:Ht.
  2: { rewrite check_pxd_control_throttled by assumption. left. now split. }
  destruct control as [| content].
  { rewrite check_pxd_control_missing by assumption. cbn zeta.
    destruct (active_pxd_file h) eqn:Ha; cbn.
    - right. left. now split.
    - left. now split. }
  destruct content as [cd |];
    [| rewrite check_pxd_control_unreadable by (assumption || exact I);
       left; now split].
  destruct cd as [| | | | | | members];
    try (rewrite check_pxd_control_unreadable by (assumption || exact I);
         left; now split).
  erewrite check_pxd_control_run by (eassumption || reflexivity).
  cbn zeta.
  destruct (differs _ _); [| left; now split].
  destruct (truthy _) eqn:Htr; [| right; left; now split].
  destruct (default (JStr default_pxd_directory) _) as [| | | | directory | |];
    try (left; now split).
  destruct (default JNull _) as [| | | | name | |]; try (left; now split).
  right. right. exists name, (basename (join directory name)).
  split.
  { intros ->. discriminate Htr. }
  split; [reflexivity |].
  rewrite load_single_pxd_file_run.
  destruct (pxd_file _) as [[] |]; cbn; auto.
Qed.

End Pxd_facts.
(* ===================================================================== *)
(** ** More on clustering and on what the detector hands on *)
(* ===================================================================== *)

Section Cluster_more.

Context {F : Type}.
Implicit Types (d : Detection F) (l : list (Detection F)).
Implicit Types (L : list (nat * Detection F)).

Lemma filter_none {A} (f : A -> bool) (l : list A) :
  Forall (fun x => f x = false) l -> List.filter f l = [].
Proof.
  induction 1 as [| x l Hx _ IH]; [reflexivity |].
  cbn [List.filter]. now rewrite Hx.
Qed.

Lemma filter_all {A} (f : A -> bool) (l : list A) :
  Forall (fun x => f x = true) l -> List.filter f l = l.
Proof.
  induction 1 as [| x l Hx _ IH]; [reflexivity |].
  cbn [List.filter]. now rewrite Hx, IH.
Qed.

Lemma snd_enumerate_from {A} (l : list A) (g : nat -> nat) :
  map snd (imap (fun i x => (g i, x)) l) = l.
Proof.
  revert g. induction l as [| x l IH]; intros g; [reflexivity |].
  cbn. f_equal. apply (IH (fun i => g (S i))).
Qed.

Lemma Forall_enumerate_from {A} (P : A -> Prop) (l : list A) (g : nat -> nat) :
  Forall P l -> Forall (fun o => P (snd o)) (imap (fun i x => (g i, x)) l).
Proof.
  intros H. revert g. induction H as [| x l Hx _ IH]; intros g; [constructor |].
  cbn. constructor; [exact Hx | apply (IH (fun i => g (S i)))].
Qed.

Lemma ForallOrdPairs_enumerate_from {A} (R : A -> A -> Prop) (l : list A)
    (g : nat -> nat) :
  ForallOrdPairs R l ->
  ForallOrdPairs (fun x o => R (snd x) (snd o)) (imap (fun i x => (g i, x)) l).
Proof.
  intros H. revert g. induction H as [| x l Hx _ IH]; intros g; [constructor |].
  cbn. constructor.
  - apply (Forall_enumerate_from (R x) l (fun i => g (S i)) Hx).
  - apply (IH (fun i => g (S i))).
Qed.

(** Detections that are pairwise apart are one cluster each. *)
Lemma greedy_clusters_separated (n : nat) L :
  (List.length L <= n)%nat ->
  ForallOrdPairs
    (fun x o => within_10 (coords_center (snd x)) (coords_center (snd o)) = false)
    L ->
  greedy_clusters n L = map (fun x => [x]) L.
Proof.
  revert L. induction n as [| n IH]; intros [| seed others] Hn HL;
    try reflexivity; [cbn in Hn; lia |].
  inversion HL as [| ? ? Hfar Hrest]; subst.
  cbn [greedy_clusters map]. cbv zeta.
  rewrite (filter_none _ _ Hfar).
  rewrite filter_all.
  - f_equal. apply IH; [cbn in Hn; lia | exact Hrest].
  - eapply Forall_impl; [exact Hfar |]. intros o Ho. cbn beta in Ho.
    now rewrite Ho.
Qed.

Lemma representatives_singletons L :
  representatives (map (fun x => [x]) L) = map snd L.
Proof.
  unfold representatives. induction L as [| x L IH]; [reflexivity |].
  cbn. now rewrite <- IH.
Qed.

Lemma greedy_clusters_nil (n : nat) :
  greedy_clusters n ([] : list (nat * Detection F)) = [].
Proof. now destruct n. Qed.

(** What survives clustering was in the input. *)
Lemma cluster_similar_enemies_members l d :
  d ∈ cluster_similar_enemies l -> d ∈ l.
Proof.
  rewrite cluster_similar_enemies_greedy. unfold clusters_of. intros Hd.
  pose proof (representatives_first_of_max_area
                (List.length l) (enumerate l)) as Hrep.
  apply list_elem_of_lookup in Hd as [k Hk].
  destruct (Forall2_lookup_l _ _ _ _ _ Hrep Hk)
    as (c & Hc & before & after & Heq & _).
  assert (Hdc : d ∈ map snd c) by (rewrite Heq; set_solver).
  apply list_elem_of_In, in_map_iff in Hdc as ([j d'] & Hsnd & Hin).
  cbn in Hsnd. subst d'.
  apply list_elem_of_lookup_2 in Hc. apply list_elem_of_In in Hc.
  pose proof (greedy_clusters_members _ _ _ _ Hc Hin) as Hmem.
  apply list_elem_of_In in Hmem. unfold enumerate in Hmem.
  apply elem_of_lookup_imap in Hmem as (i & x & [= -> ->] & Hl).
  eapply list_elem_of_lookup_2. exact Hl.
Qed.

End Cluster_more.

(** Detections whose centres are pairwise at least 10 pixels apart (no
    detection within 10 pixels of an earlier one) all survive, in order. *)
Theorem separated_detections_are_all_kept :
  forall (F : Type) (detections : list (Detection F)),
    ForallOrdPairs
      (fun d o => within_10 (coords_center d) (coords_center o) = false)
      detections ->
    cluster_similar_enemies detections = detections.
Proof.
  intros F detections Hfar.
  rewrite cluster_similar_enemies_greedy. unfold clusters_of, enumerate.
  rewrite greedy_clusters_separated.
  - rewrite representatives_singletons. apply (snd_enumerate_from detections id).
  - now rewrite length_imap.
  - apply (ForallOrdPairs_enumerate_from _ detections id Hfar).
Qed.

Lemma separated_detections_example :
  let d (x : Z) : Detection Q := detection_of (CCStat x 100 8 8 64) in
  ForallOrdPairs
    (fun d o => within_10 (coords_center d) (coords_center o) = false)
    [d 100; d 115; d 130]
  /\ cluster_similar_enemies [d 100; d 115; d 130] = [d 100; d 115; d 130].
Proof.
  cbn zeta.
  assert (H : ForallOrdPairs
                (fun d o : Detection Q =>
                   within_10 (coords_center d) (coords_center o) = false)
                [detection_of (CCStat 100 100 8 8 64);
                 detection_of (CCStat 115 100 8 8 64);
                 detection_of (CCStat 130 100 8 8 64)])
    by (repeat constructor).
  split; [exact H |].
  exact (separated_detections_are_all_kept Q _ H).
Defined.

(** Detections that all lie within 10 pixels of the first one are one
    cluster, of which the first detection of greatest area survives, even
    when two of the others are more than 10 pixels from each other. *)
Theorem detections_around_the_first_become_one :
  forall (F : Type) (first : Detection F) (others : list (Detection F)),
    Forall (fun o => within_10 (coords_center first) (coords_center o) = true)
           others ->
    cluster_similar_enemies (first :: others) = [max_from area first others].
Proof.
  intros F first others Hnear.
  rewrite cluster_similar_enemies_greedy. unfold clusters_of, enumerate.
  cbn [List.length imap greedy_clusters]. cbv zeta. cbn [snd].
  pose proof (Forall_enumerate_from _ others S Hnear) as HL.
  rewrite filter_all by exact HL.
  rewrite filter_none.
  - rewrite greedy_clusters_nil. unfold representatives. cbn [omap map snd].
    cbn [omap list_omap map snd py_max].
    replace (map snd (imap (pair ∘ S) others)) with others
      by (symmetry; exact (snd_enumerate_from others S)).
    reflexivity.
  - eapply Forall_impl; [exact HL |]. intros o Ho. cbn beta in Ho.
    now rewrite Ho.
Qed.

Lemma detections_around_the_first_example :
  let d (x a : Z) : Detection Q := detection_of (CCStat x 100 8 8 a) in
  Forall (fun o => within_10 (coords_center (d 100 50)) (coords_center o) = true)
         [d 92 64; d 108 64]
  /\ within_10 (coords_center (d 92 64)) (coords_center (d 108 64)) = false
  /\ cluster_similar_enemies [d 100 50; d 92 64; d 108 64] = [d 92 64].
Proof.
  cbn zeta.
  assert (H : Forall
                (fun o : Detection Q =>
                   within_10 (coords_center (detection_of (CCStat 100 100 8 8 50)))
                             (coords_center o) = true)
                [detection_of (CCStat 92 100 8 8 64);
                 detection_of (CCStat 108 100 8 8 64)])
    by (repeat constructor).
  split; [exact H |]. split; [reflexivity |].
  exact (detections_around_the_first_become_one Q _ _ H).
Defined.

Section Detector_output.

Context {F : Type} {float_ops : PyFloat F}.
Variable cc : mask -> option (list cc_stat).
Variable raster : draw_cmd F -> Z -> Z -> bool.

(** Every detection that [detect_with_pxd_patterns] returns was built from a
    component, within the size bounds of a loaded pattern, of a mask that has
    the dimensions of the view. *)
Lemma detect_with_pxd_patterns_bounds (self : Self F) (v : view) (s : store F) :
  returns (detect_with_pxd_patterns cc raster self v)
    (fun out _ =>
       Forall (fun d => exists pattern st m stats,
                 pattern ∈ pxd_patterns self
                 /\ d = detection_of st
                 /\ within_bounds pattern st = true
                 /\ cc m = Some stats /\ st ∈ drop 1 stats
                 /\ rows m = v_rows v /\ cols m = v_cols v) out) s.
Proof.
  unfold detect_with_pxd_patterns. apply returns_bind.
  eapply returns_mono.
  { apply (returns_for_each
             (fun acc _ =>
                Forall (fun d => exists pattern st m stats,
                          pattern ∈ pxd_patterns self
                          /\ d = detection_of st
                          /\ within_bounds pattern st = true
                          /\ cc m = Some stats /\ st ∈ drop 1 stats
                          /\ rows m = v_rows v /\ cols m = v_cols v) acc)).
    - constructor.
    - intros pattern acc s' Hp Hacc. apply returns_bind.
      unfold returns at 1. rewrite detect_all_pixels_run.
      destruct (cc _) as [stats |] eqn:Hcc; cbn.
      + apply Forall_app. split; [exact Hacc |].
        apply Forall_forall. intros d Hd.
        apply list_elem_of_In, in_map_iff in Hd as (st & <- & Hst).
        apply filter_In in Hst as [Hin Hst]. apply list_elem_of_In in Hin.
        exists pattern, st. eexists. exists stats.
        repeat split; try eassumption; reflexivity.
      + now rewrite app_nil_r. }
  intros all s' Hall. cbn beta.
  destruct all as [| d0 rest]; [constructor |].
  apply returns_bind. apply returns_unit; [intros ?; exact I |].
  cbv zeta. apply returns_bind. apply returns_unit; [intros ?; exact I |].
  apply returns_ret.
  apply Forall_forall. intros d Hd.
  apply cluster_similar_enemies_members in Hd.
  rewrite Forall_forall in Hall. now apply Hall.
Qed.

End Detector_output.
Section Pxd_theorems.

Context {F : Type} {float_ops : PyFloat F}.
Variable join : string -> string -> string.
Variable basename : string -> string.

Implicit Types (h : Helper F).

(** The overlay switches after a pattern check are those before it. *)
Lemma check_pxd_control_keeps_overlays h t control pxd_file :
  let h' := snd (check_pxd_control join basename t control pxd_file h) in
  cached_esp_lines_enabled (attrs h') = cached_esp_lines_enabled (attrs h)
  /\ cached_esp_box_enabled (attrs h') = cached_esp_box_enabled (attrs h)
  /\ cached_crosshair_enabled (attrs h') = cached_crosshair_enabled (attrs h)
  /\ cached_show_distance_text (attrs h') = cached_show_distance_text (attrs h)
  /\ cached_enemy_location_enabled (attrs h')
     = cached_enemy_location_enabled (attrs h).
Proof.
  cbn zeta.
  destruct (PrimFloat.ltb pxd_check_interval
                          (PrimFloat.sub t (last_pxd_check h))) eqn:Ht.
  2: { rewrite check_pxd_control_throttled by assumption.
       repeat split; reflexivity. }
  destruct control as [| [[| | | | | | members] |]];
    try (rewrite check_pxd_control_unreadable by (assumption || exact I);
         repeat split; reflexivity).
  - rewrite check_pxd_control_missing by assumption. cbn zeta.
    destruct (active_pxd_file h); repeat split; reflexivity.
  - erewrite check_pxd_control_run by (eassumption || reflexivity).
    cbn zeta.
    destruct (differs _ _); [| repeat split; reflexivity].
    destruct (truthy _); [| repeat split; reflexivity].
    destruct (default (JStr default_pxd_directory) _);
      try (repeat split; reflexivity).
    destruct (default JNull _); try (repeat split; reflexivity).
    rewrite load_single_pxd_file_run.
    destruct (pxd_file _) as [[] |]; repeat split; reflexivity.
Qed.

(** In every state the instance can be in, at most one pattern is loaded, and
    a loaded pattern has the colour range (61, 0, 102)-(255, 45, 254) and the
    size range 5-12 x 5-12 of [__init__], whatever the pattern file holds; no
    pattern is loaded without an active file, whose name is not empty; and
    the five overlay switches are on: no method assigns them.  So whatever
    pattern file is chosen, every detection that [predict] reports is between
    5 and 12 pixels wide and high. *)
Theorem reachable_patterns_are_fixed h :
  reachable join basename h ->
  ((List.length (pxd_patterns (attrs h)) <= 1)%nat
   /\ Forall (fun p => color_lower_bgr p = (61, 0, 102)
                       /\ color_upper_bgr p = (255, 45, 254)
                       /\ size_width p = (5, 12)
                       /\ size_height p = (5, 12))
             (pxd_patterns (attrs h))
   /\ (active_pxd_file h = None -> pxd_patterns (attrs h) = [])
   /\ active_pxd_file h <> Some ""%string
   /\ cached_esp_lines_enabled (attrs h) = true
   /\ cached_esp_box_enabled (attrs h) = true
   /\ cached_crosshair_enabled (attrs h) = true
   /\ cached_show_distance_text (attrs h) = true
   /\ cached_enemy_location_enabled (attrs h) = true)
  /\ forall cc raster button_5 button_7 button_9 s,
       returns (predict cc raster (attrs h) button_5 button_7 button_9)
         (fun r _ =>
            Forall (fun d => 5 <= width d <= 12 /\ 5 <= height d <= 12)
                   (detected_objects r)) s.
Proof.
  intros Hreach.
  assert (Hinv :
    (List.length (pxd_patterns (attrs h)) <= 1)%nat
    /\ Forall (fun p => color_lower_bgr p = (61, 0, 102)
                        /\ color_upper_bgr p = (255, 45, 254)
                        /\ size_width p = (5, 12)
                        /\ size_height p = (5, 12))
              (pxd_patterns (attrs h))
    /\ (active_pxd_file h = None -> pxd_patterns (attrs h) = [])
    /\ active_pxd_file h <> Some ""%string
    /\ cached_esp_lines_enabled (attrs h) = true
    /\ cached_esp_box_enabled (attrs h) = true
    /\ cached_crosshair_enabled (attrs h) = true
    /\ cached_show_distance_text (attrs h) = true
    /\ cached_enemy_location_enabled (attrs h) = true).
  { induction Hreach as [| h t file _ IH | h t control pxd_file _ IH].
    - cbn. repeat split; auto; discriminate.
    - destruct IH as (Hlen & Hfix & Hnone & Hname & H1 & H2 & H3 & H4 & H5).
      destruct (get_fresh_settings_frame h t file)
        as (-> & -> & _ & -> & -> & -> & -> & ->).
      repeat split; assumption.
    - destruct IH as (Hlen & Hfix & Hnone & Hname & H1 & H2 & H3 & H4 & H5).
      destruct (check_pxd_control_keeps_overlays h t control pxd_file)
        as (-> & -> & -> & -> & ->).
      destruct (check_pxd_control_outcome join basename h t control pxd_file)
        as [[-> ->] | [[-> ->] | (name & source & Hne & -> & [-> | ->])]].
      + repeat split; assumption.
      + repeat split; auto; discriminate.
      + repeat split; auto; solve [discriminate | congruence].
      + repeat split; auto; solve [cbn; lia | discriminate | congruence]. }
  split; [exact Hinv |].
  destruct Hinv as (_ & Hfix & _).
  intros cc raster b5 b7 b9 s.
  eapply returns_mono; [apply predict_returns |].
  intros r _ (_ & _ & Hdet & _).
  pose proof (detect_with_pxd_patterns_bounds cc raster (attrs h) (img0 r)
                (store_at_detection (attrs h) b7 s)) as Hb.
  apply returns_run in Hb as (out & s' & Hrun & Hout).
  rewrite Hrun in Hdet. cbn [fst] in Hdet. injection Hdet as <-.
  eapply Forall_impl; [exact Hout |].
  intros d (pattern & st & _ & _ & Hp & -> & Hw & _).
  rewrite Forall_forall in Hfix.
  destruct (Hfix _ Hp) as (_ & _ & Hsw & Hsh).
  apply within_bounds_spec in Hw. rewrite Hsw, Hsh in Hw. exact Hw.
Qed.

(** A pattern file that cannot be loaded (unreadable, not JSON, or not a JSON
    object) is still made the active file and reported as loaded, with no
    pattern; as long as the control file names it, no later check tries
    again, even when the file has become loadable. *)
Theorem failed_pxd_load_is_not_retried
    h t1 t2 cd name directory pxd_file pxd_file' :
  PrimFloat.ltb pxd_check_interval (PrimFloat.sub t1 (last_pxd_check h)) = true ->
  dict_get cd "active_pxd_file" JNull = Some (JStr name) ->
  dict_get cd "pxd_directory" (JStr default_pxd_directory)
  = Some (JStr directory) ->
  name <> ""%string ->
  active_pxd_file h <> Some name ->
  match pxd_file (join directory name) with
  | Some (JObj _) => False
  | _ => True
  end ->
  let h1 :=
    snd (check_pxd_control join basename t1 (Present (Some cd)) pxd_file h) in
  let h2 :=
    snd (check_pxd_control join basename t2 (Present (Some cd)) pxd_file' h1) in
  pxd_patterns (attrs h1) = []
  /\ active_pxd_file h1 = Some name
  /\ helper_log h1
     = helper_log h ++ [LogPxdLoadError (join directory name); LogPxdLoaded name]
  /\ pxd_patterns (attrs h2) = []
  /\ active_pxd_file h2 = Some name
  /\ helper_log h2 = helper_log h1.
Proof.
  intros Ht Hnew Hdir Hne Hact Hfile h1 h2.
  assert (Hd : differs (JStr name) (active_pxd_file h) = true).
  { destruct (active_pxd_file h) as [a |]; [| reflexivity]. cbn.
    destruct (String.eqb_spec name a) as [-> |]; [congruence | reflexivity]. }
  assert (Htr : truthy (JStr name) = true).
  { cbn. destruct (String.eqb_spec name ""); [contradiction | reflexivity]. }
  assert (H1 : pxd_patterns (attrs h1) = []
               /\ active_pxd_file h1 = Some name
               /\ helper_log h1
                  = helper_log h ++ [LogPxdLoadError (join directory name);
                                     LogPxdLoaded name]).
  { subst h1. erewrite check_pxd_control_run by eassumption. cbn zeta.
    rewrite Hd, Htr, load_single_pxd_file_run.
    destruct (pxd_file _) as [[] |]; try contradiction; cbn;
      rewrite <- app_assoc; repeat split; reflexivity. }
  destruct H1 as (Hp1 & Ha1 & Hl1).
  assert (H2 : h2 = h1 \/ h2 = with_last_pxd_check t2 h1).
  { subst h2.
    destruct (PrimFloat.ltb pxd_check_interval
                            (PrimFloat.sub t2 (last_pxd_check h1))) eqn:Ht2.
    - right. erewrite check_pxd_control_run by eassumption. cbn zeta.
      rewrite Ha1. cbn [differs]. rewrite String.eqb_refl. reflexivity.
    - left. rewrite check_pxd_control_throttled by assumption. reflexivity. }
  clearbody h2 h1.
  destruct H2 as [-> | ->]; cbn; repeat split; assumption.
Qed.

(** The control file is followed.  A check that passes the throttle and finds
    the control file naming a loadable file other than the active one makes
    that file the active one and its pattern the only pattern: what was
    loaded before is dropped, and of the file only the name enters the
    pattern.  A check that finds no control file, or one that names no file,
    unloads. *)
Theorem pxd_control_is_followed h t pxd_file :
  PrimFloat.ltb pxd_check_interval (PrimFloat.sub t (last_pxd_check h)) = true ->
  (forall cd name directory members,
     dict_get cd "active_pxd_file" JNull = Some (JStr name) ->
     dict_get cd "pxd_directory" (JStr default_pxd_directory)
     = Some (JStr directory) ->
     name <> ""%string ->
     active_pxd_file h <> Some name ->
     pxd_file (join directory name) = Some (JObj members) ->
     let h' :=
       snd (check_pxd_control join basename t (Present (Some cd)) pxd_file h) in
     pxd_patterns (attrs h')
     = [{| color_lower_bgr := (61, 0, 102);
           color_upper_bgr := (255, 45, 254);
           size_width := (5, 12);
           size_height := (5, 12);
           source_file := basename (join directory name) |}]
     /\ active_pxd_file h' = Some name
     /\ helper_log h' = helper_log h ++ [LogPxdLoaded name])
  /\ (forall cd directory,
        dict_get cd "active_pxd_file" JNull = Some JNull ->
        dict_get cd "pxd_directory" (JStr default_pxd_directory)
        = Some directory ->
        let h' :=
          snd (check_pxd_control join basename t (Present (Some cd)) pxd_file h) in
        pxd_patterns (attrs h') = match active_pxd_file h with
                                  | Some _ => []
                                  | None => pxd_patterns (attrs h)
                                  end
        /\ active_pxd_file h' = None)
  /\ (let h' := snd (check_pxd_control join basename t Missing pxd_file h) in
      pxd_patterns (attrs h') = match active_pxd_file h with
                                | Some _ => []
                                | None => pxd_patterns (attrs h)
                                end
      /\ active_pxd_file h' = None).
Proof.
  intros Ht. split; [| split].
  - intros cd name directory members Hnew Hdir Hne Hact Hfile h'. subst h'.
    erewrite check_pxd_control_run by eassumption. cbn zeta.
    assert (Hd : differs (JStr name) (active_pxd_file h) = true).
    { destruct (active_pxd_file h) as [a |]; [| reflexivity]. cbn.
      destruct (String.eqb_spec name a) as [-> |]; [congruence | reflexivity]. }
    assert (Htr : truthy (JStr name) = true).
    { cbn. destruct (String.eqb_spec name ""); [contradiction | reflexivity]. }
    rewrite Hd, Htr, load_single_pxd_file_run, Hfile. cbn.
    repeat split; reflexivity.
  - intros cd directory Hnew Hdir h'. subst h'.
    erewrite check_pxd_control_run by eassumption. cbn zeta.
    destruct (active_pxd_file h) eqn:Ha; cbn; split; auto.
  - cbn zeta. rewrite check_pxd_control_missing by assumption. cbn zeta.
    destruct (active_pxd_file h) eqn:Ha; cbn; split; auto.
Qed.


End Pxd_theorems.

(** The instance after its first pattern check, the control file naming
    [a.pxd] in the directory [pxd]. *)
Lemma reachable_patterns_example :
  let join d f := (d ++ "/" ++ f)%string in
  let control :=
    Present (Some (JObj [("active_pxd_file", JStr "a.pxd");
                         ("pxd_directory", JStr "pxd")]%string)) in
  let h : Helper float :=
    snd (check_pxd_control join id 10 control (fun _ => Some (JObj []))
                           __init__) in
  reachable join id h
  /\ (List.length (pxd_patterns (attrs h)) <= 1)%nat
  /\ cached_enemy_location_enabled (attrs h) = true.
Proof.
  cbn zeta.
  assert (Hr : reachable (F:=float) (fun d f => (d ++ "/" ++ f)%string) id
                 (snd (check_pxd_control (fun d f => (d ++ "/" ++ f)%string) id 10
                         (Present (Some (JObj [("active_pxd_file", JStr "a.pxd");
                                               ("pxd_directory", JStr "pxd")]%string)))
                         (fun _ => Some (JObj [])) __init__)))
    by apply reachable_pxd, reachable_init.
  split; [exact Hr |].
  pose proof (reachable_patterns_are_fixed _ _ _ Hr)
    as ((Hl & _ & _ & _ & _ & _ & _ & _ & He) & _).
  split; [exact Hl | exact He].
Defined.

Lemma failed_pxd_load_example :
  let join d f := (d ++ "/" ++ f)%string in
  let cd := JObj [("active_pxd_file", JStr "a.pxd");
                  ("pxd_directory", JStr "pxd")]%string in
  let h : Helper float := __init__ in
  let h1 := snd (check_pxd_control join id 10 (Present (Some cd))
                                   (fun _ => None) h) in
  let h2 := snd (check_pxd_control join id 20 (Present (Some cd))
                                   (fun _ => Some (JObj [])) h1) in
  PrimFloat.ltb pxd_check_interval (PrimFloat.sub 10 (last_pxd_check h)) = true
  /\ active_pxd_file h <> Some "a.pxd"%string
  /\ pxd_patterns (attrs h2) = []
  /\ active_pxd_file h2 = Some "a.pxd"%string.
Proof.
  cbn zeta. split; [reflexivity |]. split; [discriminate |].
  pose proof (failed_pxd_load_is_not_retried (F:=float)
                (fun d f => (d ++ "/" ++ f)%string) id __init__ 10 20
                (JObj [("active_pxd_file", JStr "a.pxd");
                       ("pxd_directory", JStr "pxd")]%string)
                "a.pxd"%string "pxd"%string (fun _ => None)
                (fun _ => Some (JObj []))
                eq_refl eq_refl eq_refl ltac:(discriminate) ltac:(discriminate) I)
    as (_ & _ & _ & Hp & Ha & _).
  split; [exact Hp | exact Ha].
Defined.

Lemma pxd_control_followed_example :
  let join d f := (d ++ "/" ++ f)%string in
  let cd := JObj [("active_pxd_file", JStr "a.pxd");
                  ("pxd_directory", JStr "pxd")]%string in
  let h : Helper float := __init__ in
  let h' := snd (check_pxd_control join id 10 (Present (Some cd))
                                   (fun _ => Some (JObj [("anything", JInt 1)]%string))
                                   h) in
  PrimFloat.ltb pxd_check_interval (PrimFloat.sub 10 (last_pxd_check h)) = true
  /\ pxd_patterns (attrs h')
     = [{| color_lower_bgr := (61, 0, 102);
           color_upper_bgr := (255, 45, 254);
           size_width := (5, 12);
           size_height := (5, 12);
           source_file := "pxd/a.pxd" |}]
  /\ active_pxd_file h' = Some "a.pxd"%string.
Proof.
  cbn zeta. split; [reflexivity |].
  pose proof (proj1 (pxd_control_is_followed (F:=float)
                       (fun d f => (d ++ "/" ++ f)%string) id __init__ 10
                       (fun _ => Some (JObj [("anything", JInt 1)]%string))
                       eq_refl)
                (JObj [("active_pxd_file", JStr "a.pxd");
                       ("pxd_directory", JStr "pxd")]%string)
                "a.pxd"%string "pxd"%string [("anything", JInt 1)]%string
                eq_refl eq_refl ltac:(discriminate) ltac:(discriminate) eq_refl)
    as (Hp & Ha & _).
  split; [exact Hp | exact Ha].
Defined.
(* ===================================================================== *)
(** ** [simple_detection_sort] *)
(* ===================================================================== *)

Section Sorting.

Context {A : Type} (key : A -> Z).








End Sorting.

Section Filters.

Context {A : Type} (P Q : A -> Prop).
Context `{!forall x, Decision (P x)} `{!forall x, Decision (Q x)}.




End Filters.


(* ===================================================================== *)
(** ** [get_aim_button_id] *)
(* ===================================================================== *)


(* ===================================================================== *)
(** ** [apply_aim_offset] *)
(* ===================================================================== *)

Lemma forallb_Z_range (p : Z -> bool) (lo : Z) (n : nat) :
  forallb p (map (fun i => lo + Z.of_nat i) (seq 0 n)) = true ->
  forall z, lo <= z < lo + Z.of_nat n -> p z = true.
Proof.
  intros H z Hz. rewrite forallb_forall in H. apply H.
  apply in_map_iff. exists (Z.to_nat (z - lo)). split; [lia |].
  apply in_seq. lia.
Qed.

(** An exact rational that is an integer truncates to that integer. *)
Lemma exact_to_Z_integer (q : Q) (n : Z) :
  (q == inject_Z n)%Q -> f_to_Z q = inr n.
Proof.
  intros H. cbn [f_to_Z exact]. unfold Exact.to_Z. f_equal.
  unfold Qeq in H. cbn in H. rewrite Z.mul_1_r in H. rewrite H.
  apply Z.quot_mul. discriminate.
Qed.

Lemma exact_int_times_1 (o : Z) :
  f_to_Z (f_mul (f_of_Z o) (f_lit 1 1) : Q) = inr o.
Proof.
  apply exact_to_Z_integer. cbn [f_mul f_of_Z f_lit exact].
  unfold Exact.mul, Exact.of_Z.
  change (Exact.lit 1 1) with 1%Q.
  rewrite Qred_correct. apply Qmult_1_r.
Qed.

(** In binary64, for every offset a frame can hold. *)
Lemma binary64_int_times_1 (o : Z) :
  -1920 <= o <= 1920 ->
  f_to_Z (f_mul (f_of_Z o) (f_lit 1 1) : float) = inr o.
Proof.
  intros Ho.
  assert (H : forallb
                (fun o => match f_to_Z (f_mul (f_of_Z o) (f_lit 1 1) : float) with
                          | inr v => v =? o
                          | inl _ => false
                          end)
                (map (fun i => -1920 + Z.of_nat i) (seq 0 3841)) = true)
    by (vm_compute; reflexivity).
  pose proof (forallb_Z_range _ _ _ H o) as Hz. cbn beta in Hz.
  destruct (f_to_Z _) as [e | v].
  - discriminate Hz. lia.
  - f_equal. apply Z.eqb_eq. apply Hz. lia.
Qed.

Section Offset.

Context {F : Type} {float_ops : PyFloat F}.

Lemma apply_aim_offset_run (x1 y1 x2 y2 offset_x offset_y : Z) :
  f_to_Z (f_mul (f_of_Z offset_x) (f_lit 1 1)) = inr offset_x ->
  f_to_Z (f_mul (f_of_Z offset_y) (f_lit 1 1)) = inr offset_y ->
  apply_aim_offset (F:=F) x1 y1 x2 y2 offset_x offset_y
  = inr (x1 + offset_x, y1 + offset_y, x2 + offset_x, y2 + offset_y).
Proof.
  intros Hx Hy. unfold apply_aim_offset.
  destruct (Z.eqb_spec offset_x 0) as [-> | Hnx];
    [destruct (Z.eqb_spec offset_y 0) as [-> | Hny] |]; cbn [andb].
  - now rewrite !Z.add_0_r.
  - rewrite Hx, Hy. reflexivity.
  - rewrite Hx, Hy. reflexivity.
Qed.

End Offset.

(** [apply_aim_offset] moves both corners of a box by the offset, so the box
    keeps its width and height: in exact arithmetic for every integer offset,
    in binary64 for every offset up to the width of a frame (the window sets
    offsets between -100 and 100).  Taking the centre of the moved box is
    then the same as moving the centre, which is what [predict] does, as long
    as the coordinate sums are not negative. *)
Theorem apply_aim_offset_translates :
  (forall x1 y1 x2 y2 offset_x offset_y,
     apply_aim_offset (F:=Q) x1 y1 x2 y2 offset_x offset_y
     = inr (x1 + offset_x, y1 + offset_y, x2 + offset_x, y2 + offset_y))
  /\ (forall x1 y1 x2 y2 offset_x offset_y,
        -1920 <= offset_x <= 1920 -> -1920 <= offset_y <= 1920 ->
        apply_aim_offset (F:=float) x1 y1 x2 y2 offset_x offset_y
        = inr (x1 + offset_x, y1 + offset_y, x2 + offset_x, y2 + offset_y))
  /\ (forall x1 y1 x2 y2 offset_x offset_y,
        0 <= x1 + x2 -> 0 <= x1 + x2 + 2 * offset_x ->
        0 <= y1 + y2 -> 0 <= y1 + y2 + 2 * offset_y ->
        rectangleScaling (x1 + offset_x) (y1 + offset_y)
                         (x2 + offset_x) (y2 + offset_y)
        = (fst (rectangleScaling x1 y1 x2 y2) + offset_x,
           snd (rectangleScaling x1 y1 x2 y2) + offset_y)).
Proof.
  split; [| split].
  - intros. apply apply_aim_offset_run; apply exact_int_times_1.
  - intros. apply apply_aim_offset_run; now apply binary64_int_times_1.
  - intros x1 y1 x2 y2 ox oy Hx Hx' Hy Hy'.
    unfold rectangleScaling. cbn [fst snd].
    rewrite !Z.quot_div_nonneg by lia.
    replace (x1 + ox + (x2 + ox)) with (x1 + x2 + ox * 2) by lia.
    replace (y1 + oy + (y2 + oy)) with (y1 + y2 + oy * 2) by lia.
    rewrite !Z.div_add by lia. reflexivity.
Qed.
(* ===================================================================== *)
(** ** The encoder within the ranges of the settings *)
(* ===================================================================== *)

Lemma digits2_pos_bound (m : positive) : Z.pos m < 2 ^ Z.pos (digits2_pos m).
Proof.
  induction m as [m IH | m IH |]; cbn [digits2_pos].
  - rewrite Pos2Z.inj_succ, Z.pow_succ_r by lia. lia.
  - rewrite Pos2Z.inj_succ, Z.pow_succ_r by lia. lia.
  - reflexivity.
Qed.

(** A binary64 of magnitude below 32768 has a fixed-point value that fits 32
    bits. *)
Lemma below_32768_fits (x : float) :
  PrimFloat.ltb (PrimFloat.abs x) 32768 = true ->
  exists v, fixed x = inr v /\ fits_int32 v.
Proof.
  intros H. rewrite ltb_spec, abs_spec in H.
  change (Prim2SF 32768) with (S754_finite false 4503599627370496 (-37)) in H.
  unfold fixed. cbn [f_to_Z f_mul f_of_Z binary64]. unfold B64.to_Z.
  rewrite mul_65536_spec.
  pose proof (Prim2SF_valid x) as Hv.
  destruct (Prim2SF x) as [s | s | | s m e];
    cbv beta iota delta [SFltb SFcompare SFabs] in H; try discriminate H.
  - exists 0. split; [reflexivity | unfold fits_int32; lia].
  - cbn in Hv. unfold bounded, canonical_mantissa in Hv.
    apply andb_prop in Hv as [Hc _]. apply Z.eqb_eq in Hc.
    unfold fexp, SpecFloat.emin, prec, emax in Hc.
    pose proof (digits2_pos_bound m) as Hm.
    set (d := Z.pos (digits2_pos m)) in *.
    assert (Hd : 0 < d) by (subst d; lia).
    assert (Hm2 : Z.pos m < 2 ^ (15 - e) /\ e <= -37).
    { destruct (Z.compare_spec e (-37)) as [Heq | Hlt | Hgt];
        try discriminate H.
      - split; [| lia].
        destruct (PosDef.Pos.compare_cont Eq m 4503599627370496) eqn:Ec;
          try discriminate H.
        assert (Hlt : Z.pos m < 4503599627370496)
          by (apply Pos2Z.pos_lt_pos; exact Ec).
        rewrite Heq. exact Hlt.
      - split; [| lia].
        eapply Z.lt_le_trans; [exact Hm |]. apply Z.pow_le_mono_r; lia. }
    destruct Hm2 as [Hm2 He]. cbv zeta.
    set (E := Z.max (d + e - 37) (-1074)) in *.
    assert (HE : -1074 <= E < 0 /\ E <= e + 16) by (subst E; lia).
    destruct (Z.leb_spec E 971) as [_ | ?]; [| lia].
    destruct (Z.leb_spec 0 E) as [? | _]; [lia |].
    set (k := Z.to_nat (e + 16 - E)).
    assert (Hk : Z.of_nat k = e + 16 - E) by (subst k; lia).
    set (a := Z.shiftr (Z.pos (B64.shl k m)) (- E)).
    assert (Ha : 0 <= a < 2 ^ 31).
    { subst a. rewrite shl_Z, Z.shiftr_div_pow2 by lia.
      assert (Hp : 0 < 2 ^ (- E)) by (apply Z.pow_pos_nonneg; lia).
      assert (Hq : 0 < 2 ^ Z.of_nat k) by (apply Z.pow_pos_nonneg; lia).
      split; [apply Z.div_pos; lia |].
      apply Z.div_lt_upper_bound; [exact Hp |].
      rewrite <- Z.pow_add_r by lia.
      replace (- E + 31) with (15 - e + Z.of_nat k) by lia.
      rewrite Z.pow_add_r by lia.
      apply Z.mul_lt_mono_pos_r; assumption. }
    exists (if s then - a else a). split; [reflexivity |].
    unfold fits_int32. destruct s; lia.
Qed.

(** Every axis value that a target within 1060 pixels of the centre, a speed
    between 1 and 100 and an override percentage between 0 and 100 can
    produce is below 32768 in magnitude: all of them are computed. *)
Lemma lock_axis_in_range (delta speed pct : Z) :
  -1060 <= delta <= 1060 -> 1 <= speed <= 100 -> 0 <= pct <= 100 ->
  let x : float := lock_axis delta speed in
  let reduction_factor : float := f_div (f_of_Z (100 - pct)) (f_of_Z 100) in
  PrimFloat.ltb (PrimFloat.abs x) 32768 = true
  /\ PrimFloat.ltb (PrimFloat.abs (f_mul x reduction_factor)) 32768 = true
  /\ PrimFloat.ltb (PrimFloat.abs (f_mul (f_of_Z 0) reduction_factor)) 32768
     = true.
Proof.
  intros Hd Hs Hp.
  assert (Hc :
    (let below (y : float) := PrimFloat.ltb (PrimFloat.abs y) 32768 in
     let step : float := f_lit 2 100 in
     let half : float := f_lit 5 10 in
     let zero : float := f_of_Z 0 in
     let speeds : list float :=
       map f_of_Z (map (fun i => 1 + Z.of_nat i) (seq 0 100)) in
     let factors : list float :=
       map (fun pct => f_div (f_of_Z (100 - pct)) (f_of_Z 100))
           (map (fun i => 0 + Z.of_nat i) (seq 0 101)) in
     forallb (fun f => below (f_mul zero f)) factors
     && forallb
          (fun delta =>
             let fd : float := f_of_Z delta in
             let far := f_lt half (f_of_Z (Z.abs delta)) in
             let floor : float := if 0 <? delta then half else f_neg half in
             forallb
               (fun fs =>
                  let move := f_mul (f_mul fd step) fs in
                  let x := if f_lt (f_abs move) half && far then floor else move in
                  below x && forallb (fun f => below (f_mul x f)) factors)
               speeds)
          (map (fun i => -1060 + Z.of_nat i) (seq 0 2121))) = true)
    by (vm_compute; reflexivity).
  cbv zeta in Hc. apply andb_prop in Hc as [H0 Hc].
  assert (Hpct : In (f_div (f_of_Z (100 - pct)) (f_of_Z 100) : float)
                    (map (fun pct => f_div (f_of_Z (100 - pct)) (f_of_Z 100))
                         (map (fun i => 0 + Z.of_nat i) (seq 0 101)))).
  { apply (in_map (fun pct => f_div (f_of_Z (100 - pct)) (f_of_Z 100) : float)
                  _ pct).
    apply in_map_iff. exists (Z.to_nat pct).
    split; [lia | apply in_seq; lia]. }
  assert (Hsp : In (f_of_Z speed : float)
                   (map f_of_Z (map (fun i => 1 + Z.of_nat i) (seq 0 100)))).
  { apply (in_map (f_of_Z : Z -> float) _ speed).
    apply in_map_iff. exists (Z.to_nat (speed - 1)).
    split; [lia | apply in_seq; lia]. }
  rewrite forallb_forall in H0. specialize (H0 _ Hpct).
  pose proof (forallb_Z_range _ _ _ Hc delta ltac:(lia)) as Hx.
  cbn beta in Hx. rewrite forallb_forall in Hx. specialize (Hx _ Hsp).
  cbn beta in Hx. apply andb_prop in Hx as [Hx Hf].
  rewrite forallb_forall in Hf. specialize (Hf _ Hpct).
  cbv zeta. split; [exact Hx |]. split; [exact Hf | exact H0].
Qed.

(** Both components of the vector that [predict] hands to the encoder are
    below 32768 in magnitude within those ranges. *)
Lemma override_of_lock_is_small
    (target_x target_y speedX speedY : Z) (manualOveride : bool)
    (button_9 manualOverridePercentage : Z) :
  -1060 <= target_x - 960 <= 1060 ->
  -1060 <= target_y - 540 <= 1060 ->
  1 <= speedX <= 100 -> 1 <= speedY <= 100 ->
  0 <= manualOverridePercentage <= 100 ->
  let v : float * float :=
    manual_override manualOveride button_9 manualOverridePercentage
                    (perfect_target_lock target_x target_y speedX speedY) in
  PrimFloat.ltb (PrimFloat.abs (fst v)) 32768 = true
  /\ PrimFloat.ltb (PrimFloat.abs (snd v)) 32768 = true.
Proof.
  intros Hx Hy Hsx Hsy Hp v.
  destruct (lock_axis_in_range (target_x - 960) speedX
              manualOverridePercentage Hx Hsx Hp) as (Hx1 & Hx2 & H0).
  destruct (lock_axis_in_range (target_y - 540) speedY
              manualOverridePercentage Hy Hsy Hp) as (Hy1 & Hy2 & _).
  assert (Hz : PrimFloat.ltb (PrimFloat.abs (f_of_Z 0 : float)) 32768 = true)
    by reflexivity.
  subst v.
  destruct (Z.lt_ge_cases ((target_x - 960) ^ 2 + (target_y - 540) ^ 2) 4)
    as [Hn | Hf].
  - rewrite (perfect_target_lock_near _ _ _ _ Hn).
    destruct (Z.ltb_spec 0 button_9) as [Hb | Hb]; destruct manualOveride;
      try (rewrite manual_override_off by (auto || (right; lia));
           split; exact Hz).
    rewrite manual_override_on by exact Hb. split; exact H0.
  - rewrite (perfect_target_lock_far _ _ _ _ Hf).
    destruct (Z.ltb_spec 0 button_9) as [Hb | Hb]; destruct manualOveride;
      try (rewrite manual_override_off by (auto || (right; lia));
           split; assumption).
    rewrite manual_override_on by exact Hb. split; assumption.
Qed.

(** Within the ranges of the settings the encoder cannot overflow: for a
    target centre within 1060 pixels of (960, 540) on each axis (any point of
    a 1920 x 1080 frame moved by an aim offset of up to 100), speeds between 1
    and 100 and an override percentage between 0 and 100, both components of
    the vector that [predict] hands to the encoder have binary64 fixed-point
    values that fit the signed 32 bits. *)
Theorem lock_vector_encodes_within_setting_ranges :
  forall (target_x target_y speedX speedY : Z) (manualOveride : bool)
         (button_9 manualOverridePercentage : Z),
    -1060 <= target_x - 960 <= 1060 ->
    -1060 <= target_y - 540 <= 1060 ->
    1 <= speedX <= 100 -> 1 <= speedY <= 100 ->
    0 <= manualOverridePercentage <= 100 ->
    let v : float * float :=
      manual_override manualOveride button_9 manualOverridePercentage
                      (perfect_target_lock target_x target_y speedX speedY) in
    exists vx vy,
      fixed (fst v) = inr vx /\ fixed (snd v) = inr vy
      /\ fits_int32 vx /\ fits_int32 vy.
Proof.
  intros tx ty sx sy mo b9 pct Hx Hy Hsx Hsy Hp v.
  destruct (override_of_lock_is_small tx ty sx sy mo b9 pct Hx Hy Hsx Hsy Hp)
    as [Hs1 Hs2].
  destruct (below_32768_fits _ Hs1) as (vx & Hvx & Hfx).
  destruct (below_32768_fits _ Hs2) as (vy & Hvy & Hfy).
  exists vx, vy. auto.
Qed.

Lemma lock_vector_encodes_example :
  -1060 <= 1920 + 100 - 960 <= 1060
  /\ -1060 <= 0 - 100 - 540 <= 1060
  /\ 1 <= 100 <= 100 /\ 0 <= 0 <= 100
  /\ exists vx vy,
       fixed (fst (manual_override true 1 0
                     (perfect_target_lock 2020 (-100) 100 100 : float * float)))
       = inr vx
       /\ fixed (snd (manual_override true 1 0
                        (perfect_target_lock 2020 (-100) 100 100 : float * float)))
          = inr vy
       /\ fits_int32 vx /\ fits_int32 vy.
Proof.
  split; [lia |]. split; [lia |]. split; [lia |]. split; [lia |].
  apply (lock_vector_encodes_within_setting_ranges 2020 (-100) 100 100 true 1 0);
    lia.
Defined.
(* ===================================================================== *)
(** ** A whole cycle within the ranges of the settings *)
(* ===================================================================== *)

(** The reference labelling describes rectangles of the mask. *)
Lemma foreground_inside (m : mask) (p : Z * Z) :
  In p (Reference.foreground m) ->
  0 <= fst p < cols m /\ 0 <= snd p < rows m.
Proof.
  unfold Reference.foreground. intros H.
  apply in_flat_map in H as (y & Hy & H).
  apply in_flat_map in H as (x & Hx & H).
  apply in_map_iff in Hy as (j & <- & Hj). apply in_seq in Hj.
  apply in_map_iff in Hx as (i & <- & Hi). apply in_seq in Hi.
  destruct (px m _ _); [| destruct H].
  destruct H as [<- | []]. cbn [fst snd]. lia.
Qed.

Lemma grow_members (fuel : nat) (frontier comp rest : list (Z * Z)) :
  let out := Reference.grow fuel frontier comp rest in
  (forall p, In p (fst out) -> In p comp \/ In p rest)
  /\ (forall p, In p (snd out) -> In p rest)
  /\ (comp <> [] -> fst out <> []).
Proof.
  revert frontier comp rest.
  induction fuel as [| k IH]; intros frontier comp rest; cbn zeta.
  - cbn. auto.
  - destruct frontier as [| p fr]; [cbn; auto |].
    cbn [Reference.grow]. cbv zeta.
    destruct (IH (fr ++ List.filter (Reference.adjacent8 p) rest)
                 (comp ++ List.filter (Reference.adjacent8 p) rest)
                 (List.filter (fun q => negb (Reference.adjacent8 p q)) rest))
      as (H1 & H2 & H3).
    cbv zeta in H1, H2, H3. repeat split.
    + intros q Hq. apply H1 in Hq as [Hq | Hq].
      * apply in_app_or in Hq as [Hq | Hq]; [now left |].
        apply filter_In in Hq. tauto.
      * apply filter_In in Hq. tauto.
    + intros q Hq. apply H2, filter_In in Hq. tauto.
    + intros Hc. apply H3. destruct comp; [contradiction | discriminate].
Qed.

Lemma components_members (fuel : nat) (fg comp : list (Z * Z)) :
  In comp (Reference.components fuel fg) ->
  comp <> [] /\ forall p, In p comp -> In p fg.
Proof.
  revert fg. induction fuel as [| k IH]; intros fg H; [destruct H |].
  destruct fg as [| p rest]; [destruct H |].
  cbn [Reference.components] in H.
  pose proof (grow_members (S (List.length rest)) [p] [p] rest) as (H1 & H2 & H3).
  cbv zeta in H1, H2, H3.
  destruct (Reference.grow _ _ _ _) as [c rest'] eqn:Hg. cbn [fst snd] in *.
  destruct H as [<- | H].
  - split; [apply H3; discriminate |].
    intros q Hq. apply H1 in Hq as [Hq | Hq]; [| now right].
    destruct Hq as [<- | []]. now left.
  - apply IH in H as [Hne Hsub]. split; [exact Hne |].
    intros q Hq. right. apply H2, Hsub, Hq.
Qed.

Lemma foldr_min_max_bounds (a lo hi : Z) (xs : list Z) :
  lo <= a <= hi -> Forall (fun x => lo <= x <= hi) xs ->
  lo <= foldr Z.min a xs <= a /\ a <= foldr Z.max a xs <= hi.
Proof.
  intros Ha H. induction H as [| x xs Hx _ IH]; cbn [foldr]; lia.
Qed.

Lemma stat_of_inside (m : mask) (comp : list (Z * Z)) :
  comp <> [] ->
  (forall p, In p comp -> 0 <= fst p < cols m /\ 0 <= snd p < rows m) ->
  component_inside m (Reference.stat_of comp).
Proof.
  intros Hne Hin. destruct comp as [| p comp]; [contradiction |].
  unfold Reference.stat_of, component_inside.
  cbn [CC_STAT_LEFT CC_STAT_TOP CC_STAT_WIDTH CC_STAT_HEIGHT].
  cbv zeta. cbn [map hd].
  assert (Hxs : Forall (fun x => 0 <= x <= cols m - 1) (fst p :: map fst comp)).
  { apply Forall_forall. intros x Hx. apply list_elem_of_In in Hx.
    change (fst p :: map fst comp) with (map fst (p :: comp)) in Hx.
    apply in_map_iff in Hx as (q & <- & Hq). apply Hin in Hq. lia. }
  assert (Hys : Forall (fun y => 0 <= y <= rows m - 1) (snd p :: map snd comp)).
  { apply Forall_forall. intros y Hy. apply list_elem_of_In in Hy.
    change (snd p :: map snd comp) with (map snd (p :: comp)) in Hy.
    apply in_map_iff in Hy as (q & <- & Hq). apply Hin in Hq. lia. }
  pose proof (Hin p (or_introl eq_refl)) as Hp.
  pose proof (foldr_min_max_bounds (fst p) 0 (cols m - 1) _ ltac:(lia) Hxs).
  pose proof (foldr_min_max_bounds (snd p) 0 (rows m - 1) _ ltac:(lia) Hys).
  lia.
Qed.

Lemma reference_components_inside (m : mask) (stats : list cc_stat) (st : cc_stat) :
  Reference.connectedComponentsWithStats m = Some stats ->
  st ∈ drop 1 stats -> component_inside m st.
Proof.
  unfold Reference.connectedComponentsWithStats. intros [= <-] Hst.
  cbn [drop] in Hst. rewrite drop_0 in Hst.
  apply list_elem_of_In, in_map_iff in Hst as (comp & <- & Hc).
  apply components_members in Hc as [Hne Hsub].
  apply stat_of_inside; [exact Hne |].
  intros p Hp. apply foreground_inside, Hsub, Hp.
Qed.

(** The aim point of a component of the detector's input is within reach of
    the two axes: at most 960 + 100 and 540 + 100 pixels from the centre. *)
Lemma aim_point_in_reach {F} `{PyFloat F} (self : Self F) (button_7 : Z)
    (fb : framebuf F) (m : mask) (st : cc_stat) :
  2 <= cached_bbox_width self -> 2 <= cached_bbox_height self ->
  -100 <= cached_aimOffsetX self <= 100 ->
  -100 <= cached_aimOffsetY self <= 100 ->
  let roi := detection_region (cached_bbox_width self) (cached_bbox_height self)
                              (cached_adaptiveBoundingBox self) button_7 in
  component_inside m st ->
  rows m = v_rows (detector_input fb roi) ->
  cols m = v_cols (detector_input fb roi) ->
  let p := aim_point self roi (detection_of st) in
  -1060 <= fst p - 960 <= 1060 /\ -1060 <= snd p - 540 <= 1060.
Proof.
  intros Hw Hh Hox Hoy roi. subst roi.
  rewrite detection_region_eq. cbv zeta.
  set (w := region_dimension _ _ _). set (h := region_dimension _ _ _).
  assert (Hw2 : 1 <= w / 2).
  { subst w. unfold region_dimension, int_times_1_5.
    destruct (_ && _).
    - rewrite Z.quot_div_nonneg by lia.
      apply Z.div_le_lower_bound; [lia |].
      assert (3 <= 3 * cached_bbox_width self / 2)
        by (apply Z.div_le_lower_bound; lia).
      lia.
    - apply Z.div_le_lower_bound; lia. }
  assert (Hh2 : 1 <= h / 2).
  { subst h. unfold region_dimension, int_times_1_5.
    destruct (_ && _).
    - rewrite Z.quot_div_nonneg by lia.
      apply Z.div_le_lower_bound; [lia |].
      assert (3 <= 3 * cached_bbox_height self / 2)
        by (apply Z.div_le_lower_bound; lia).
      lia.
    - apply Z.div_le_lower_bound; lia. }
  set (hw := w / 2) in *. set (hh := h / 2) in *.
  unfold detector_input.
  destruct (Z.ltb_spec (Z.max 0 (540 - hh)) (Z.min 1080 (540 + hh))); [| lia].
  destruct (Z.ltb_spec (Z.max 0 (960 - hw)) (Z.min 1920 (960 + hw))); [| lia].
  cbn [andb]. unfold slice. cbn [v_rows v_cols].
  intros (Hl & Ht & Hcw & Hch & Hr & Hb) Hrows Hcols.
  unfold aim_point, detection_of, rectangleScaling. cbn [coords fst snd].
  rewrite Hcols in Hr. rewrite Hrows in Hb.
  rewrite !Z.quot_div_nonneg by lia.
  set (sx := CC_STAT_LEFT st + Z.max 0 (960 - hw)
             + (CC_STAT_LEFT st + CC_STAT_WIDTH st + Z.max 0 (960 - hw))).
  set (sy := CC_STAT_TOP st + Z.max 0 (540 - hh)
             + (CC_STAT_TOP st + CC_STAT_HEIGHT st + Z.max 0 (540 - hh))).
  assert (0 <= sx / 2 <= 1920).
  { split; [apply Z.div_pos; lia |].
    apply Z.div_le_upper_bound; subst sx; lia. }
  assert (0 <= sy / 2 <= 1080).
  { split; [apply Z.div_pos; lia |].
    apply Z.div_le_upper_bound; subst sy; lia. }
  lia.
Qed.

Lemma py_max_member {F} (d : Detection F) (l : list (Detection F)) :
  py_max area l = Some d -> d ∈ l.
Proof.
  intros H. apply py_max_first_of_max_area in H as (before & after & -> & _).
  set_solver.
Qed.

(** With the settings within the ranges of the window's controls (a region
    of at least 2 x 2, speeds from 1 to 100, aim offsets from -100 to 100, an
    override percentage from 0 to 100) and a labelling whose components lie
    inside the mask, every cycle completes in binary64: whatever the frame,
    the loaded patterns and the buttons, [process] raises nothing and leaves
    the output buffer longer by the 10 bytes of its payload. *)
Theorem cycle_completes_within_setting_ranges :
  forall (cc : mask -> option (list cc_stat)) text_size raster
         (self : Self float) settings (button_5 button_7 button_9 : Z)
         (s : store float),
    (forall m stats st,
        cc m = Some stats -> st ∈ drop 1 stats -> component_inside m st) ->
    2 <= cached_bbox_width self -> 2 <= cached_bbox_height self ->
    1 <= cached_speedX self <= 100 -> 1 <= cached_speedY self <= 100 ->
    -100 <= cached_aimOffsetX self <= 100 ->
    -100 <= cached_aimOffsetY self <= 100 ->
    0 <= cached_manualOverridePercentage self <= 100 ->
    returns (process cc text_size raster self settings
                     button_5 button_7 button_9)
      (fun _ s' =>
         exists payload,
           gcvdata s' = gcvdata s ++ payload /\ List.length payload = 10%nat) s.
Proof.
  intros cc text_size raster self settings b5 b7 b9 s
         Hcc Hw Hh Hsx Hsy Hox Hoy Hpct.
  pose proof (watermark_and_predict_same_gcvdata cc raster text_size self
                b5 b7 b9 s) as Hg.
  assert (Hpred :
    returns (watermark_and_predict cc text_size raster self b5 b7 b9)
      (fun r _ =>
         PrimFloat.ltb (PrimFloat.abs (rx r)) 32768 = true
         /\ PrimFloat.ltb (PrimFloat.abs (ry r)) 32768 = true) s).
  { unfold watermark_and_predict. cbv zeta. apply returns_bind.
    apply returns_unit; [apply safe_draw |].
    set (s0 := snd (draw _ s)).
    eapply returns_mono; [apply predict_returns |].
    intros r s1 (Hroi & Himg & Hdet & Hbest & Hres).
    destruct (best_target r) as [target |] eqn:Ht.
    - cbv zeta in Hres. destruct Hres as (_ & _ & Hv).
      symmetry in Hbest. apply py_max_member in Hbest.
      pose proof (detect_with_pxd_patterns_bounds cc raster self (img0 r)
                    (store_at_detection self b7 s0)) as Hb.
      unfold returns in Hb.
      destruct (detect_with_pxd_patterns _ _ _ _ _) as [[e | out] s2];
        [destruct Hb |].
      cbn [fst] in Hdet. injection Hdet as ->.
      rewrite Forall_forall in Hb.
      destruct (Hb _ Hbest)
        as (pattern & st & m & stats & _ & -> & _ & Hm & Hst & Hrows & Hcols).
      rewrite Himg, Hroi in Hrows, Hcols.
      pose proof (aim_point_in_reach self b7 _ m st Hw Hh Hox Hoy
                    (Hcc _ _ _ Hm Hst) Hrows Hcols) as [Hpx Hpy].
      rewrite <- Hroi in Hpx, Hpy.
      pose proof (override_of_lock_is_small _ _ _ _
                    (cached_manualOveride self) b9 _ Hpx Hpy Hsx Hsy Hpct)
        as Hsmall.
      cbv zeta in Hsmall. rewrite <- Hv in Hsmall. exact Hsmall.
    - destruct Hres as (_ & _ & -> & ->). split; reflexivity. }
  apply returns_run in Hpred as (r & s1 & Hrun & Hs1 & Hs2).
  unfold returns in Hg. rewrite Hrun in Hg.
  unfold same_gcvdata in Hg.
  destruct (below_32768_fits _ Hs1) as (vx & Hvx & Hfx).
  destruct (below_32768_fits _ Hs2) as (vy & Hvy & Hfy).
  destruct (to_bytes_signed_4 vx Hfx) as (bx & Hbx & Hlx & _).
  destruct (to_bytes_signed_4 vy Hfy) as (by_ & Hby & Hly & _).
  destruct (to_bytes_unsigned_2 (resolved_button_id settings))
    as (bb & Hbb & Hlb & _).
  { pose proof (resolved_button_id_range settings). lia. }
  unfold returns. rewrite process_run, Hrun.
  rewrite (encode_payload_completes _ _ _ _ vx vy bx by_ bb Hvx Hbx Hvy Hby Hbb).
  cbn [gcvdata]. exists (bx ++ by_ ++ bb).
  split; [now rewrite Hg |].
  rewrite !length_app, Hlx, Hly, Hlb. reflexivity.
Qed.

Lemma cycle_completes_example :
  (forall m stats st,
      Reference.connectedComponentsWithStats m = Some stats ->
      st ∈ drop 1 stats -> component_inside m st)
  /\ 2 <= 1500 /\ 1 <= 100 <= 100 /\ -100 <= 0 <= 100 /\ 0 <= 50 <= 100
  /\ returns (process Reference.connectedComponentsWithStats
                      Reference.no_text_size Reference.no_raster
                      (Scenario.self 1500 1500 true 100 [Scenario.pattern])
                      (Attribute None) 0 1 1)
       (fun _ s' =>
          exists payload,
            gcvdata s' = [] ++ payload /\ List.length payload = 10%nat)
       (Scenario.fresh (F:=float) (Scenario.frame_with_block 1900 1070 8 8)).
Proof.
  split; [exact reference_components_inside |].
  split; [lia |]. split; [lia |]. split; [lia |]. split; [lia |].
  apply (cycle_completes_within_setting_ranges
           Reference.connectedComponentsWithStats
           Reference.no_text_size Reference.no_raster
           (Scenario.self 1500 1500 true 100 [Scenario.pattern])
           (Attribute None) 0 1 1
           (Scenario.fresh (Scenario.frame_with_block 1900 1070 8 8))
           reference_components_inside); cbn; lia.
Defined.
(* ===================================================================== *)
(** ** A region without width *)
(* ===================================================================== *)

Lemma region_dimension_degenerate (configured : Z) (adaptive : bool)
    (button_7 : Z) :
  0 <= configured <= 1 -> region_dimension configured adaptive button_7 / 2 = 0.
Proof.
  intros H. unfold region_dimension, int_times_1_5.
  assert (configured = 0 \/ configured = 1) as [-> | ->] by lia;
    now destruct (_ && _).
Qed.

(** With a configured width of 0 or 1 the region is empty, so the detector
    reads the whole frame; the coordinates of what it finds there are frame
    coordinates already, and [predict] still adds the region's origin to
    them: the target centre lies 960 columns to the right of the centre of
    the detection (plus the aim offset), and as many rows below it as the
    region's upper edge is from the top. *)
Theorem region_without_width_displaces_the_target :
  forall (F : Type) (ops : PyFloat F) cc raster (self : Self F)
         (button_5 button_7 button_9 : Z) (s : store F),
    0 <= cached_bbox_width self <= 1 ->
    returns (predict cc raster self button_5 button_7 button_9)
      (fun r _ =>
         img0 r = whole (frame s)
         /\ forall target, best_target r = Some target ->
              let '(x1, y1, x2, y2) := coords target in
              let Y1 := Z.max 0 (540 - region_dimension (cached_bbox_height self)
                                         (cached_adaptiveBoundingBox self)
                                         button_7 / 2) in
              target_center r
              = Some (Z.quot (x1 + 960 + (x2 + 960)) 2 + cached_aimOffsetX self,
                      Z.quot (y1 + Y1 + (y2 + Y1)) 2 + cached_aimOffsetY self)) s.
Proof.
  intros F ops cc raster self b5 b7 b9 s Hw.
  eapply returns_mono; [apply predict_returns |].
  intros r s1 (Hroi & Himg & _ & _ & Hres).
  rewrite detection_region_eq in Hroi. cbv zeta in Hroi.
  rewrite (region_dimension_degenerate _ _ _ Hw) in Hroi.
  change (Z.max 0 (960 - 0)) with 960 in Hroi.
  change (Z.min 1920 (960 + 0)) with 960 in Hroi.
  rewrite Hroi in Himg. split.
  - rewrite Himg. unfold detector_input.
    now rewrite Z.ltb_irrefl, andb_false_r.
  - intros target Ht. rewrite Ht in Hres. cbv zeta in Hres.
    destruct Hres as (Hc & _). rewrite Hc, Hroi. unfold aim_point.
    destruct (coords target) as [[[x1 y1] x2] y2]. reflexivity.
Qed.

Lemma region_without_width_example :
  0 <= 1 <= 1
  /\ returns (predict (F:=Q) Reference.connectedComponentsWithStats
                      Reference.no_raster
                      (Scenario.self 1 480 false 50 [Scenario.pattern]) 0 0 0)
       (fun r _ =>
          img0 r = View 0 0 1080 1920
          /\ forall target, best_target r = Some target ->
               let '(x1, y1, x2, y2) := coords target in
               target_center r
               = Some (Z.quot (x1 + 960 + (x2 + 960)) 2 + 0,
                       Z.quot (y1 + 300 + (y2 + 300)) 2 + 0))
       (Scenario.fresh (Scenario.frame_with_block 100 200 8 8)).
Proof.
  split; [lia |].
  apply (region_without_width_displaces_the_target Q exact
           Reference.connectedComponentsWithStats Reference.no_raster
           (Scenario.self 1 480 false 50 [Scenario.pattern]) 0 0 0
           (Scenario.fresh (Scenario.frame_with_block 100 200 8 8))).
  cbn. lia.
Defined.
